(** * idleon-saver: the export transformation ([idleon_saver/scripts/export.py])

    A shallow embedding of the exporter that turns a decoded IdleOn save
    into the Idleon Companion document and the Cogstruction tables,
    together with the properties the specification states about it.

    Conventions of the embedding.
    - Python [str] is [string], a sequence of characters with codes below
      256, of which the letters that have a case are the ASCII letters;
      Python [int] is [Z].
    - A Python [float] is an IEEE 754 binary64 number ([spec_float] with
      precision 53 and maximal exponent 1024), and float division is the
      correctly rounded division [SFdiv].  The statue levels, of which only
      the maximum and the floor are taken, both exact, are the rationals
      they denote ([Q]).
    - A Python [dict] is an association list in insertion order
      ([dict K V]); [dict_set] is item assignment.
    - A raised exception is the [Err] case of [result]; only the
      exception class is kept. *)

From Stdlib Require Import ZArith String Ascii List Bool Lia.
From Stdlib Require QArith Qround.
From Stdlib Require Floats.SpecFloat.
From stdpp Require Import base list strings gmap.

Local Open Scope string_scope.
Local Open Scope Z_scope.

#[local] Arguments String.append : simpl nomatch.

(* ===================================================================== *)
(** ** Exceptions *)
(* ===================================================================== *)

(** The exception classes the exporter can raise.  [LookupError] is the
    common base class of [KeyError] and [IndexError]; it is what a failed
    subscript of a reference table raises, the container type of those
    tables being fixed outside this module. *)
Inductive exn : Set :=
  | KeyError
  | IndexError
  | LookupError
  | ValueError
  | TypeError
  | OverflowError.

Inductive result (A : Type) : Type :=
  | Ok (a : A)
  | Err (e : exn).

Arguments Ok {A} a.
Arguments Err {A} e.

Definition bind {A B : Type} (m : result A) (k : A -> result B) : result B :=
  match m with
  | Ok a => k a
  | Err e => Err e
  end.

Notation "'let*' x := m 'in' k" := (bind m (fun x => k))
  (at level 10, x name, m at level 100, k at level 200).

(** Left-to-right loop with an accumulator; the first exception stops it. *)
Fixpoint foldM {A B : Type} (f : B -> A -> result B) (l : list A) (acc : B)
  : result B :=
  match l with
  | [] => Ok acc
  | x :: rest => let* acc' := f acc x in foldM f rest acc'
  end.

(** Left-to-right evaluation of [f] over a sequence, as [list(map(f, l))]. *)
Fixpoint mapM_result {A B : Type} (f : A -> result B) (l : list A)
  : result (list B) :=
  match l with
  | [] => Ok []
  | x :: rest =>
      let* y := f x in
      let* ys := mapM_result f rest in
      Ok (y :: ys)
  end.

Definition is_ok {A : Type} (m : result A) : bool :=
  match m with Ok _ => true | Err _ => false end.

(** Subscript of a table given as a partial function. *)
Definition subscript {K V : Type} (e : exn) (tbl : K -> option V) (k : K)
  : result V :=
  match tbl k with
  | Some v => Ok v
  | None => Err e
  end.

(** [l[i]] for a list and a non-negative index. *)
Definition py_index {A : Type} (l : list A) (i : nat) : result A :=
  match l !! i with
  | Some x => Ok x
  | None => Err IndexError
  end.

(* ===================================================================== *)
(** ** Dictionaries in insertion order *)
(* ===================================================================== *)

Definition dict (K V : Type) : Type := list (K * V).

Section Dict.
Context {K V : Type} `{EqDecision K}.

Fixpoint dict_get (d : dict K V) (k : K) : option V :=
  match d with
  | [] => None
  | (k', v) :: rest => if decide (k' = k) then Some v else dict_get rest k
  end.

(** [d[k] = v]: an existing key keeps its place, a new key goes last. *)
Fixpoint dict_set (d : dict K V) (k : K) (v : V) : dict K V :=
  match d with
  | [] => [(k, v)]
  | (k', v') :: rest =>
      if decide (k' = k) then (k, v) :: rest else (k', v') :: dict_set rest k v
  end.

(** [dict(pairs)], and the dict display / comprehension that assigns the
    pairs in order. *)
Definition dict_of (pairs : list (K * V)) : dict K V :=
  fold_left (fun d kv => dict_set d kv.1 kv.2) pairs [].

(** [a | b]. *)
Definition dict_union (a b : dict K V) : dict K V :=
  fold_left (fun d kv => dict_set d kv.1 kv.2) b a.

Definition dict_keys (d : dict K V) : list K := map fst d.

(** [d[k]] on a dict. *)
Definition dict_item (d : dict K V) (k : K) : result V :=
  subscript KeyError (dict_get d) k.
End Dict.

(* ===================================================================== *)
(** ** String methods *)
(* ===================================================================== *)

Fixpoint startswith (s p : string) {struct p} : bool :=
  match p with
  | EmptyString => true
  | String c p' =>
      match s with
      | EmptyString => false
      | String d s' => if Ascii.eqb c d then startswith s' p' else false
      end
  end.

Fixpoint str_drop (n : nat) (s : string) : string :=
  match n, s with
  | O, _ => s
  | S n', String _ s' => str_drop n' s'
  | S _, EmptyString => EmptyString
  end.

Definition endswith (s p : string) : bool :=
  if (String.length p <=? String.length s)%nat
  then String.eqb (str_drop (String.length s - String.length p) s) p
  else false.

Definition removeprefix (s p : string) : string :=
  if startswith s p then str_drop (String.length p) s else s.

(** [sub in s] for strings. *)
Fixpoint str_contains (s sub : string) : bool :=
  startswith s sub ||
  match s with
  | EmptyString => false
  | String _ s' => str_contains s' sub
  end.

(** [s.replace(old, new)] for one-character [old] and [new]. *)
Fixpoint replace_char (old new : ascii) (s : string) : string :=
  match s with
  | EmptyString => EmptyString
  | String c s' =>
      String (if Ascii.eqb c old then new else c) (replace_char old new s')
  end.

Definition is_upper (c : ascii) : bool :=
  let n := nat_of_ascii c in (65 <=? n)%nat && (n <=? 90)%nat.
Definition is_lower (c : ascii) : bool :=
  let n := nat_of_ascii c in (97 <=? n)%nat && (n <=? 122)%nat.
Definition is_cased (c : ascii) : bool := is_upper c || is_lower c.
Definition to_upper (c : ascii) : ascii :=
  if is_lower c then ascii_of_nat (nat_of_ascii c - 32) else c.
Definition to_lower (c : ascii) : ascii :=
  if is_upper c then ascii_of_nat (nat_of_ascii c + 32) else c.

(** [s.title()]: a character that follows a cased character is lowered,
    any other is title-cased. *)
Fixpoint title_from (previous_is_cased : bool) (s : string) : string :=
  match s with
  | EmptyString => EmptyString
  | String c s' =>
      String (if previous_is_cased then to_lower c else to_upper c)
             (title_from (is_cased c) s')
  end.

Definition title (s : string) : string := title_from false s.

(** [sep.join(parts)]. *)
Fixpoint join (sep : string) (parts : list string) : string :=
  match parts with
  | [] => ""
  | [p] => p
  | p :: rest => p ++ sep ++ join sep rest
  end.

Definition char_in (c : ascii) (chars : string) : bool :=
  existsb (Ascii.eqb c) (list_ascii_of_string chars).

Fixpoint lstrip (chars : string) (s : string) : string :=
  match s with
  | EmptyString => EmptyString
  | String c s' => if char_in c chars then lstrip chars s' else s
  end.

(** Strips the tail: a character is dropped when it is in [chars] and
    everything after it has been dropped. *)
Fixpoint rstrip (chars : string) (s : string) : string :=
  match s with
  | EmptyString => EmptyString
  | String c s' =>
      match rstrip chars s' with
      | EmptyString => if char_in c chars then EmptyString else String c EmptyString
      | t => String c t
      end
  end.

(** [s.strip(chars)]. *)
Definition strip (chars : string) (s : string) : string :=
  rstrip chars (lstrip chars s).

(** [s.split(sep)] for a one-character separator; never the empty list. *)
Fixpoint split_char (sep : ascii) (s : string) : list string :=
  match s with
  | EmptyString => [""]
  | String c s' =>
      if Ascii.eqb c sep then "" :: split_char sep s'
      else match split_char sep s' with
           | [] => [String c ""]
           | w :: ws => String c w :: ws
           end
  end.

(** The white space [int] skips around a number: the characters 9 to 13
    and the space, and of the characters from 128 on the two that are white
    space, 133 and 160.  The separators 28 to 31 are not skipped. *)
Definition is_space (c : ascii) : bool :=
  let n := nat_of_ascii c in
  ((9 <=? n)%nat && (n <=? 13)%nat) || (n =? 32)%nat
  || (n =? 133)%nat || (n =? 160)%nat.

Definition is_digit (c : ascii) : bool :=
  let n := nat_of_ascii c in (48 <=? n)%nat && (n <=? 57)%nat.

Definition digit_value (c : ascii) : Z := Z.of_nat (nat_of_ascii c - 48).

Fixpoint lstrip_by (p : ascii -> bool) (s : string) : string :=
  match s with
  | EmptyString => EmptyString
  | String c s' => if p c then lstrip_by p s' else s
  end.

Fixpoint rstrip_by (p : ascii -> bool) (s : string) : string :=
  match s with
  | EmptyString => EmptyString
  | String c s' =>
      match rstrip_by p s' with
      | EmptyString => if p c then EmptyString else String c EmptyString
      | t => String c t
      end
  end.

(** Decimal digits with single underscores allowed between two digits;
    [after_digit] tells whether the previous character was a digit. *)
Fixpoint digits_value (acc : Z) (after_digit : bool) (s : string) : option Z :=
  match s with
  | EmptyString => if after_digit then Some acc else None
  | String c s' =>
      if is_digit c then digits_value (10 * acc + digit_value c) true s'
      else if Ascii.eqb c "_" && after_digit then digits_value acc false s'
      else None
  end.

(** The number of digits [int] accepts in a string
    ([sys.int_info.default_max_str_digits]). *)
Definition int_max_str_digits : Z := 4300.

Definition digit_count (s : string) : Z :=
  Z.of_nat (length (List.filter is_digit (list_ascii_of_string s))).

(** [int(s)] for a string: surrounding white space, an optional sign, then
    decimal digits, no more than [int_max_str_digits] of them; anything
    else is a [ValueError]. *)
Definition py_int (s : string) : result Z :=
  let t := rstrip_by is_space (lstrip_by is_space s) in
  let parsed :=
    if int_max_str_digits <? digit_count t then None
    else
      match t with
      | String "+" r => digits_value 0 false r
      | String "-" r => option_map Z.opp (digits_value 0 false r)
      | _ => digits_value 0 false t
      end in
  match parsed with
  | Some z => Ok z
  | None => Err ValueError
  end.

(** [zip] applied to the unpacked [rows]: the columns of [rows], as many as the shortest row has;
    no column at all when there is no row. *)
Definition zip_star {A : Type} (rows : list (list A)) : list (list A) :=
  match rows with
  | [] => []
  | first :: _ =>
      let n := fold_right Nat.min (length first) (map length rows) in
      map (fun i => omap (fun row : list A => row !! i) rows) (seq 0 n)
  end.

(** [enumerate(l)]. *)
Definition enumerate {A : Type} (l : list A) : list (nat * A) :=
  zip (seq 0 (length l)) l.

(* ===================================================================== *)
(** ** Values of the decoded save *)
(* ===================================================================== *)

(** A value of the decoded JSON document, as [json.load] returns it:
    [None], a [bool], an [int], a [float], a [str], a [list] or a [dict]. *)
#[local] Unset Elimination Schemes.
Inductive jval : Type :=
  | JNull
  | JBool (b : bool)
  | JInt (z : Z)
  | JFloat (f : SpecFloat.spec_float)
  | JStr (s : string)
  | JList (items : list jval)
  | JDict (items : list (string * jval)).
#[local] Set Elimination Schemes.

(** Binary64 division, correctly rounded. *)
Definition float_div (x y : SpecFloat.spec_float) : SpecFloat.spec_float :=
  SpecFloat.SFdiv 53 1024 x y.

(** The integer [z] as the dividend or divisor of a division: mantissa [z],
    exponent 0, not rounded. *)
Definition float_of_Z (z : Z) : SpecFloat.spec_float :=
  match z with
  | Z0 => SpecFloat.S754_zero false
  | Zpos p => SpecFloat.S754_finite false p 0
  | Zneg p => SpecFloat.S754_finite true p 0
  end.

(** [a / b] for two [int]s and [b] not 0: the float nearest to the exact
    quotient, and [OverflowError] when that is beyond the floats. *)
Definition int_true_div (a b : Z) : result SpecFloat.spec_float :=
  match float_div (float_of_Z a) (float_of_Z b) with
  | SpecFloat.S754_infinity _ => Err OverflowError
  | q => Ok q
  end.

(** [v > 0]: a [bool] compares as the integer it is, [nan] is not greater
    than 0, and only a number compares with a number. *)
Definition py_gt0 (v : jval) : result bool :=
  match v with
  | JBool b => Ok b
  | JInt z => Ok (0 <? z)
  | JFloat f => Ok (SpecFloat.SFltb (SpecFloat.S754_zero false) f)
  | JNull | JStr _ | JList _ | JDict _ => Err TypeError
  end.

(** [v / 100], true division: of an [int] (a [bool] too) the rounded
    quotient or [OverflowError], of a [float] the float quotient by 100.0,
    which never raises, and [TypeError] for anything else. *)
Definition py_div100 (v : jval) : result jval :=
  match v with
  | JBool b =>
      let* q := int_true_div (if b then 1 else 0) 100 in Ok (JFloat q)
  | JInt z => let* q := int_true_div z 100 in Ok (JFloat q)
  | JFloat f => Ok (JFloat (float_div f (float_of_Z 100)))
  | JNull | JStr _ | JList _ | JDict _ => Err TypeError
  end.

(** [max(l)]: the first of the greatest elements; [ValueError] when empty. *)
Definition py_max (l : list QArith_base.Q) : result QArith_base.Q :=
  match l with
  | [] => Err ValueError
  | x :: rest =>
      Ok (fold_left
            (fun best y => if QArith_base.Qle_bool y best then best else y)
            rest x)
  end.

(** One entry of [PlayerDATABASE]. *)
Record PersonalValues : Type := {
  StatList : list Z;
  StarSign : string;
}.

Record Player : Type := {
  CharacterClass : Z;
  Lv0 : list Z;
  StatueLevels : list (list QArith_base.Q);
  InvBagsUsed : dict string jval;
  MaxCarryCap : dict string Z;
  PersonalValuesMap : PersonalValues;
}.

(** The decoded save, with the keys the exporter reads. *)
Record SaveData : Type := {
  PlayerDATABASE : dict string Player;
  GetPlayersUsernames : list string;
  StarSignsUnlocked : dict string Z;
  StarSignProg : list (option string * Z);
  CauldronInfo : list (list jval);
  Cards : list (dict string Z);
  StampLevel : list (list Z);
  StatueG : list Z;
  CogMap : list (dict string jval);
  CogOrder : list string;
  InvStorageUsed : dict string jval;
}.

(** The attributes of an [Exporter] instance. *)
Record Exporter : Type := {
  savedata : SaveData;
  classes : list Z;
  skill_levels : list (list Z);
  statue_levels : list (list (list QArith_base.Q));
  bags_used : list (dict string jval);
  carrycaps : list (dict string Z);
  names : list string;
  stats : list (list Z);
  cauldron : list (list jval);
  starsigns_unlocked : dict string Z;
  starsigns_prog : list (option string * Z);
  starsigns_equipped : list string;
  cards : dict string Z;
  stamp_levels : list (list Z);
  statues_golden : list Z;
  cog_map : list (dict string jval);
  cog_order : list string;
}.

Inductive Formats : Set := IC | COG.

Inductive Bags : Set := INV | GEM | STORAGE.

(** What the exporter imports from [idleon_saver.data] and
    [idleon_saver.utility].  Tables that are only subscripted are partial
    functions, tables that are iterated are lists in iteration order.  The
    two utility functions are taken as they are imported: pure functions of
    their arguments. *)
Record RefData : Type := {
  class_names : Z -> option string;
  card_reqs : string -> option Z;
  monster_names : string -> option string;
  stamp_list : list (list string);
  cog_boosts : list string;
  cog_datas_map : dict string string;
  cog_type_map : dict string string;
  constellation_names : nat -> option string;
  pouch_names : string -> option string;
  pouch_sizes : Z -> option string;
  skill_names : list string;
  starsign_ids : string -> option string;
  starsign_names : Z -> option string;
  statue_names : list string;
  vial_names : list string;
  bag_table : Type;
  bag_maps : Bags -> bag_table;
  from_keys_in : bag_table -> list string -> bool -> dict string bool;
  zip_from_iterable :
    list (list (list QArith_base.Q)) -> list (list (list QArith_base.Q));
}.

(** The built structures. *)
Record Alchemy : Type := {
  upgrades : dict string (list jval);
  vials : dict string jval;
}.

Record Statue : Type := {
  golden : bool;
  level : QArith_base.Q;
  progress : Z;
}.

Record Char : Type := {
  char_name : string;
  char_class : string;
  char_level : Z;
  char_constellations : dict string bool;
  char_starSigns : dict string bool;
  char_skills : dict string Z;
  char_items : dict string bool;
}.

Record Companion : Type := {
  ic_alchemy : Alchemy;
  ic_starSigns : dict string bool;
  ic_cards : dict string Z;
  ic_stamps : dict string Z;
  ic_statues : dict string Statue;
  ic_checklist : dict string bool;
  ic_chars : list Char;
}.

Record Cogstruction : Type := {
  cog_datas : list (dict string jval);
  empties_datas : list (dict string jval);
}.

(* ===================================================================== *)
(** ** The exporter *)
(* ===================================================================== *)

Definition ascii_lowercase : string := "abcdefghijklmnopqrstuvwxyz".

(** The characters of a string, each as a string of length one. *)
Definition chars_of (s : string) : list string :=
  map (fun c => String c EmptyString) (list_ascii_of_string s).

Definition friendly_name (s : string) : string :=
  title (replace_char "_" " " s).

(** [which in range(lo, hi)]. *)
Definition in_range (which lo hi : Z) : bool :=
  (lo <=? which) && (which <? hi).

Fixpoint first_base (which : Z) (bases : list Z) : result Z :=
  match bases with
  | [] => Err ValueError
  | base :: rest =>
      if in_range which base (base + 6 + 1) then Ok base
      else first_base which rest
  end.

Definition get_baseclass (which : Z) : result Z :=
  if in_range which 1 (5 + 1) then Ok 1
  else first_base which [7; 19; 31].

Section Builders.
Context (D : RefData).

Definition get_classname (which : Z) : result string :=
  let* name := subscript LookupError (class_names D) which in
  Ok (friendly_name name).

Definition get_starsign_from_index (i : Z) : result string :=
  let* name := subscript LookupError (starsign_names D) i in
  subscript LookupError (starsign_ids D) name.

Definition get_cardtier (name : string) (level : Z) : result Z :=
  let* req := subscript LookupError (card_reqs D) name in
  Ok (if level =? 0 then 0
      else if req * 9 <=? level then 4
      else if req * 4 <=? level then 3
      else if req <=? level then 2
      else 1).

Definition get_pouchsize (itemtype : string) (stacksize : Z)
  : result string :=
  if (stacksize =? 25) && String.eqb itemtype "bCraft" then Ok "Mini"
  else if (stacksize =? 25) && String.eqb itemtype "Foods" then Ok "Miniscule"
  else subscript LookupError (pouch_sizes D) stacksize.

Definition pouch_key (itemtype : string) (stacksize : Z) : result string :=
  let* size := get_pouchsize itemtype stacksize in
  let* name := subscript LookupError (pouch_names D) itemtype in
  Ok (join " " [size; name; "Pouch"]).

Definition get_pouches (carrycaps : dict string Z)
  : result (dict string bool) :=
  foldM (fun pouches '(itemtype, stacksize) =>
           if 10 <? stacksize then
             let* key := pouch_key itemtype stacksize in
             Ok (dict_set pouches key true)
           else Ok pouches)
        carrycaps [].

Definition empties_row (x y : nat) : dict string jval :=
  [("empties_x", JInt (Z.of_nat x)); ("empties_y", JInt (Z.of_nat y))].

Definition get_empties (cogs : list string)
  : result (list (dict string jval)) :=
  if (length cogs <? 96)%nat then Err ValueError
  else
    foldM (fun empties y =>
             foldM (fun empties x =>
                      let i := (y * 12 + x)%nat in
                      let* cog := py_index cogs i in
                      if String.eqb cog "Blank"
                      then Ok (empties ++ [empties_row x y])%list
                      else Ok empties)
                   (seq 0 12) empties)
          (seq 0 8) [].

Fixpoint directional_type (name : string) (table : dict string string)
  : option string :=
  match table with
  | [] => None
  | (direction, cog_type) :: rest =>
      if endswith name direction then Some (cog_type ++ "_Cog")
      else directional_type name rest
  end.

Definition get_cog_type (name : string) : option string :=
  if String.eqb name "Blank" then None
  else if startswith name "Player_" then Some "Character"
  else if String.eqb name "CogY" then Some "Yang_Cog"
  else if startswith name "CogZ" then Some "Omni_Cog"
  else match directional_type name (cog_type_map D) with
       | Some cog_type => Some cog_type
       | None => Some "Cog"
       end.

(** One pass of the loop over [cog_datas_map.items()]. *)
Definition cog_field (cog : dict string jval)
    (data : dict string jval) (entry : string * string)
  : result (dict string jval) :=
  let '(key, field) := entry in
  if bool_decide (key ∈ cog_boosts D) then
    match dict_get cog key with
    | Some v => let* scaled := py_div100 v in Ok (dict_set data field scaled)
    | None => Ok (dict_set data field (JStr ""))
    end
  else
    match dict_get cog key with
    | Some v => Ok (dict_set data field v)
    | None => Ok (dict_set data field (JStr ""))
    end.

Definition get_cog_data (cog : dict string jval) (name : string)
  : result (option (dict string jval)) :=
  let data : dict string jval := [] in
  match get_cog_type name with
  | None => Ok None
  | Some cog_type =>
      let data := dict_set data "cog type" (JStr cog_type) in
      let data :=
        dict_set data "name"
          (JStr (if String.eqb cog_type "Character"
                 then removeprefix name "Player_" else "")) in
      let* data := foldM (cog_field cog) (cog_datas_map D) data in
      Ok (Some data)
  end.

(** Truth value of what [get_cog_data] returns, as [filter(None, ...)]
    tests it: [None] and the empty dict are false. *)
Definition truthy (row : option (dict string jval)) : bool :=
  match row with
  | Some (_ :: _) => true
  | _ => false
  end.

(** The value under ["cog_datas"]: the rows of the cogs that are kept. *)
Definition cog_rows (e : Exporter) : result (list (dict string jval)) :=
  let* rows :=
    mapM_result (fun '(cog, name) => get_cog_data cog name)
                (zip (cog_map e) (cog_order e)) in
  Ok (omap id (List.filter truthy rows)).

Definition to_cogstruction (e : Exporter) : result Cogstruction :=
  let* datas := cog_rows e in
  let* empties := get_empties (cog_order e) in
  Ok {| cog_datas := datas; empties_datas := empties |}.

Definition char_map (e : Exporter) : dict string string :=
  dict_of (zip (names e) (chars_of ("_" ++ ascii_lowercase))).

Definition get_alchemy (e : Exporter) : result Alchemy :=
  let ups :=
    dict_of (zip ["Orange"; "Green"; "Purple"; "Yellow"]
                 (take 4 (cauldron e))) in
  let* levels := py_index (cauldron e) 4 in
  let* vs :=
    foldM (fun vs '(name, level) =>
             let* positive := py_gt0 level in
             if positive : bool
             then Ok (dict_set vs (friendly_name name) level)
             else Ok vs)
          (zip (vial_names D) levels) [] in
  Ok {| upgrades := ups; vials := vs |}.

Definition get_starsigns (e : Exporter) : result (dict string bool) :=
  foldM (fun signs '(name, unlocked) =>
           let* id := subscript LookupError (starsign_ids D) name in
           Ok (dict_set signs id (negb (unlocked =? 0))))
        (starsigns_unlocked e) [].

Definition get_cards (e : Exporter) : result (dict string Z) :=
  foldM (fun tiers '(name, level) =>
           if 0 <? level then
             let* display := subscript LookupError (monster_names D) name in
             let* tier := get_cardtier name level in
             Ok (dict_set tiers display tier)
           else Ok tiers)
        (cards e) [].

Definition get_stamps (e : Exporter) : list (string * Z) :=
  flat_map (fun '(stamps, levels) => zip stamps levels)
           (zip (stamp_list D) (stamp_levels e)).

Definition positive_stamps (e : Exporter) : list (string * Z) :=
  List.filter (fun '(_, level) => 0 <? level) (get_stamps e).

Definition build_statue (gold : Z) (lvls progs : list QArith_base.Q)
  : result Statue :=
  let* lvl := py_max lvls in
  let* prog := py_max progs in
  Ok {| golden := negb (gold =? 0);
        level := lvl;
        progress := Qround.Qfloor prog |}.

Definition get_statues (e : Exporter) : result (dict string Statue) :=
  let per_statue := map zip_star (zip_from_iterable D (statue_levels e)) in
  let columns := zip_star per_statue in
  match columns with
  | [all_lvls; all_progs] =>
      foldM (fun statues '(name, gold, lvls, progs) =>
               let* statue := build_statue gold lvls progs in
               Ok (dict_set statues name statue))
            (zip (zip (zip (statue_names D) (statues_golden e)) all_lvls)
                 all_progs)
            []
  | _ =>
      (* the tuples of the zip do not have four components *)
      let rows :=
        fold_right Nat.min
          (Nat.min (length (statue_names D)) (length (statues_golden e)))
          (map length columns) in
      if (rows =? 0)%nat then Ok [] else Err ValueError
  end.

Definition get_checklist (e : Exporter) : result (dict string bool) :=
  let* first_bags := py_index (bags_used e) 0 in
  let gem := from_keys_in D (bag_maps D GEM) (dict_keys first_bags) true in
  let storage :=
    from_keys_in D (bag_maps D STORAGE)
                 (dict_keys (InvStorageUsed (savedata e))) true in
  let stamps := dict_of (map (fun '(name, _) => (name, true))
                             (positive_stamps e)) in
  Ok (dict_union (dict_union gem storage) stamps).

Definition get_player_constellations (e : Exporter) (charname : string)
  : result (dict string bool) :=
  foldM (fun done '(i, (chars, completed)) =>
           let* code := dict_item (char_map e) charname in
           if str_contains (default "" chars) code then
             let* name := subscript LookupError (constellation_names D) i in
             Ok (dict_set done name true)
           else Ok done)
        (enumerate (starsigns_prog e)) [].

Definition parse_player_starsigns (starsign_codes : string)
  : result (dict string bool) :=
  foldM (fun signs k =>
           let* i := py_int k in
           let* sign := get_starsign_from_index i in
           Ok (dict_set signs sign true))
        (split_char "," (strip ",_" starsign_codes)) [].

Definition build_char (e : Exporter) (name : string) (klass : Z)
    (stats : list Z) (starsigns : string) (skills : list Z)
    (bags : dict string jval) (carrycaps : dict string Z) : result Char :=
  let* class := get_classname klass in
  let* lvl := py_index stats 4 in
  let* constellations := get_player_constellations e name in
  let* signs := parse_player_starsigns starsigns in
  let skill_map := dict_of (drop 1 (zip (skill_names D) skills)) in
  let inv := from_keys_in D (bag_maps D INV) (dict_keys bags) true in
  let* pouches := get_pouches carrycaps in
  Ok {| char_name := name;
        char_class := class;
        char_level := lvl;
        char_constellations := constellations;
        char_starSigns := signs;
        char_skills := skill_map;
        char_items := dict_union inv pouches |}.

(** The rows of the seven-way [zip] in [get_chars]. *)
Definition player_rows (e : Exporter) :=
  zip (zip (zip (zip (zip (zip (names e) (classes e)) (stats e))
                     (starsigns_equipped e))
                (skill_levels e))
           (bags_used e))
      (carrycaps e).

(** [build_char] applied to one row, as [starmap] does. *)
Definition build_char_row (e : Exporter)
    (row : string * Z * list Z * string * list Z * dict string jval
           * dict string Z) : result Char :=
  let '(name, klass, stats, starsigns, skills, bags, carrycaps) := row in
  build_char e name klass stats starsigns skills bags carrycaps.

Definition get_chars (e : Exporter) : result (list Char) :=
  mapM_result (build_char_row e) (player_rows e).

Definition to_idleon_companion (e : Exporter) : result Companion :=
  let* alchemy := get_alchemy e in
  let* signs := get_starsigns e in
  let* tiers := get_cards e in
  let stamps := dict_of (positive_stamps e) in
  let* statues := get_statues e in
  let* checklist := get_checklist e in
  let* chars := get_chars e in
  Ok {| ic_alchemy := alchemy;
        ic_starSigns := signs;
        ic_cards := tiers;
        ic_stamps := stamps;
        ic_statues := statues;
        ic_checklist := checklist;
        ic_chars := chars |}.

(** [LocalExporter.all_players]. *)
Definition all_players {A : Type} (sd : SaveData) (field : Player -> A)
  : list A :=
  map (fun entry => field entry.2) (PlayerDATABASE sd).

(** The attributes [LocalExporter.__init__] sets, [first_cards] being
    [savedata["Cards"][0]]. *)
Definition local_attributes (sd : SaveData) (first_cards : dict string Z)
  : Exporter :=
  {| savedata := sd;
     classes := all_players sd CharacterClass;
     skill_levels := all_players sd Lv0;
     statue_levels := all_players sd StatueLevels;
     bags_used := all_players sd InvBagsUsed;
     carrycaps := all_players sd MaxCarryCap;
     names := GetPlayersUsernames sd;
     stats := all_players sd (fun p => StatList (PersonalValuesMap p));
     starsigns_equipped :=
       all_players sd (fun p => StarSign (PersonalValuesMap p));
     starsigns_unlocked := StarSignsUnlocked sd;
     starsigns_prog := StarSignProg sd;
     cauldron := CauldronInfo sd;
     cards := first_cards;
     stamp_levels := StampLevel sd;
     statues_golden := StatueG sd;
     cog_map := CogMap sd;
     cog_order := CogOrder sd |}.

(** [LocalExporter(savedata)]. *)
Definition LocalExporter (sd : SaveData) : result Exporter :=
  let* first_cards := py_index (Cards sd) 0 in
  Ok (local_attributes sd first_cards).
End Builders.

(* ===================================================================== *)
(** ** Writing the files *)
(* ===================================================================== *)

(** The serialisers of the standard library: [json.dump] of the companion
    document, and the text a [csv.DictWriter] produces for a header taken
    from the first row followed by all rows. *)
Record Writers : Type := {
  json_dump : Companion -> string;
  csv_dump : list (dict string jval) -> string;
}.

(** The value of a member of [Formats]. *)
Definition Formats_value (member : Formats) : string :=
  match member with
  | IC => "idleon_companion"
  | COG => "cogstruction"
  end.

(** [Formats.lookup]: the first member whose value is [key]; the loop falls
    off its end, which returns [None], when there is none. *)
Definition Formats_lookup (key : string) : option Formats :=
  List.find (fun member => String.eqb (Formats_value member) key) [IC; COG].

(** The working directory: file name to file content. *)
Abbreviation workdir_state := (gmap string string).

Section Save.
Context (D : RefData) (W : Writers).

(** [open(outfile, "w")] empties the file before anything is built. *)
Definition save_idleon_companion (e : Exporter) (workdir : workdir_state)
  : workdir_state * result unit :=
  let outfile := "idleon_companion.json" in
  let opened := <[outfile := ""]> workdir in
  match to_idleon_companion D e with
  | Ok doc => (<[outfile := json_dump W doc]> opened, Ok tt)
  | Err x => (opened, Err x)
  end.

(** One pass of the loop over the two tables: the header needs a first
    row. *)
Definition write_table (which : string) (rows : list (dict string jval))
    (workdir : workdir_state) : workdir_state * result unit :=
  let outfile := which ++ ".csv" in
  let opened := <[outfile := ""]> workdir in
  match rows with
  | [] => (opened, Err IndexError)
  | _ :: _ => (<[outfile := csv_dump W rows]> opened, Ok tt)
  end.

Definition save_cogstruction (e : Exporter) (workdir : workdir_state)
  : workdir_state * result unit :=
  match to_cogstruction D e with
  | Err x => (workdir, Err x)
  | Ok data =>
      match write_table "cog_datas" (cog_datas data) workdir with
      | (workdir', Ok _) =>
          write_table "empties_datas" (empties_datas data) workdir'
      | failed => failed
      end
  end.

(** [fmt] is [None] for a value that is neither member of [Formats]. *)
Definition export (e : Exporter) (fmt : option Formats)
    (workdir : workdir_state) : workdir_state * result unit :=
  match fmt with
  | Some IC => save_idleon_companion e workdir
  | Some COG => save_cogstruction e workdir
  | None => (workdir, Err ValueError)
  end.

(** [main], after the save has been read. *)
Definition main (sd : SaveData) (fmt : option Formats)
    (workdir : workdir_state) : workdir_state * result unit :=
  match LocalExporter sd with
  | Ok e => export e fmt workdir
  | Err x => (workdir, Err x)
  end.
End Save.

(* ===================================================================== *)
(** ** A small instance of the reference data *)
(* ===================================================================== *)

(** Tables of the shape the exporter expects, small enough to evaluate the
    functions on.  The two utility functions are instantiated by a key
    translation and by a transposition. *)
Definition sample_table {K V : Type} `{EqDecision K} (entries : list (K * V))
  : K -> option V :=
  dict_get entries.

Definition sample_from_keys_in (table : dict string string)
    (keys : list string) (value : bool) : dict string bool :=
  dict_of (omap (fun k => option_map (fun item => (item, value))
                                     (dict_get table k)) keys).

Definition sample_bags (which : Bags) : dict string string :=
  match which with
  | INV => [("0", "Inventory Bag A"); ("1", "Inventory Bag B")]
  | GEM => [("100", "Gem Bag A")]
  | STORAGE => [("0", "Storage Chest A")]
  end.

Definition sample_data : RefData := {|
  class_names :=
    sample_table [(1, "BEGINNER"); (2, "JOURNEYMAN"); (3, "MAESTRO");
                  (7, "WARRIOR"); (8, "BARBARIAN"); (19, "ARCHER");
                  (31, "MAGE")];
  card_reqs := sample_table [("mushG", 5); ("frogG", 6); ("beanG", 7)];
  monster_names :=
    sample_table [("mushG", "Green Mushroom"); ("frogG", "Frog");
                  ("beanG", "Bored Bean")];
  stamp_list := [["Sword Stamp"; "Heart Stamp"]; ["Pickaxe Stamp"]];
  cog_boosts := ["e"; "f"];
  cog_datas_map :=
    [("a", "build_rate"); ("c", "flaggy_rate"); ("e", "build_rate_boost");
     ("f", "exp_rate_boost")];
  cog_type_map := [("ro", "Row"); ("co", "Col"); ("up", "Up")];
  constellation_names := fun i => ["A-1"; "A-2"; "A-3"] !! i;
  pouch_names :=
    sample_table [("bCraft", "Materials"); ("Foods", "Food");
                  ("Mining", "Mining")];
  pouch_sizes := sample_table [(25, "Cramped"); (50, "Small"); (100, "Average")];
  skill_names := ["character"; "mining"; "smithing"];
  starsign_ids := sample_table [("The_Buff_Guy", "1"); ("Flexo_Bendo", "2")];
  starsign_names := sample_table [(0, "The_Buff_Guy"); (1, "Flexo_Bendo")];
  statue_names := ["Power Statue"; "Speed Statue"];
  vial_names := ["copper"; "oak_logs"];
  bag_table := dict string string;
  bag_maps := sample_bags;
  from_keys_in := sample_from_keys_in;
  zip_from_iterable := zip_star;
|}.

Definition sample_writers : Writers := {|
  json_dump := fun doc => "json";
  csv_dump := fun rows => "csv";
|}.

(** A player of class [klass] with five stats, one star sign and two
    carry capacities. *)
Definition sample_player (klass : Z) : Player := {|
  CharacterClass := klass;
  Lv0 := [10; 4; 3];
  StatueLevels :=
    [[QArith_base.Qmake 3 1; QArith_base.Qmake 5 2];
     [QArith_base.Qmake 1 1; QArith_base.Qmake 0 1]];
  InvBagsUsed := [("0", JInt 1); ("100", JInt 1)];
  MaxCarryCap := [("bCraft", 25); ("Foods", 25); ("Mining", 10)];
  PersonalValuesMap := {| StatList := [1; 2; 3; 4; 42]; StarSign := "0,1,_" |};
|}.

(** A 96-slot board holding one character, one directional cog and one
    plain cog; every other slot is blank. *)
Definition sample_cog_order : list string :=
  ["Player_Alice"; "CogZfoo"; "Cog1ro"; "CogY"; "Cog3A00"]
  ++ replicate 91 "Blank".

Definition sample_cog_map : list (dict string jval) :=
  [[("a", JInt 0)]; [("a", JInt 7); ("e", JInt 50)]; [("e", JInt 25)];
   []; [("c", JInt 3)]]
  ++ replicate 91 [].

Definition sample_save (players : dict string Player) (usernames : list string)
    (prog : list (option string * Z)) : SaveData := {|
  PlayerDATABASE := players;
  GetPlayersUsernames := usernames;
  StarSignsUnlocked := [("The_Buff_Guy", 1); ("Flexo_Bendo", 0)];
  StarSignProg := prog;
  CauldronInfo := [[JInt 1]; [JInt 2]; []; []; [JInt 3; JInt 0]];
  Cards := [[("mushG", 50); ("frogG", 0); ("beanG", 6)]];
  StampLevel := [[4; 0]; [2]];
  StatueG := [1; 0];
  CogMap := sample_cog_map;
  CogOrder := sample_cog_order;
  InvStorageUsed := [("0", JInt 1)];
|}.

Definition one_player_save : SaveData :=
  sample_save [("p0", sample_player 2)] ["Alice"]
              [(Some "_a", 1); (None, 0); (Some "b", 0)].

Definition sample_cards : dict string Z :=
  [("mushG", 50); ("frogG", 0); ("beanG", 6)].

Definition sample_exporter : Exporter :=
  local_attributes one_player_save sample_cards.

(** The sample exporter with another cog board. *)
Definition board_exporter (order : list string)
    (cogs : list (dict string jval)) : Exporter :=
  local_attributes
    {| PlayerDATABASE := PlayerDATABASE one_player_save;
       GetPlayersUsernames := GetPlayersUsernames one_player_save;
       StarSignsUnlocked := StarSignsUnlocked one_player_save;
       StarSignProg := StarSignProg one_player_save;
       CauldronInfo := CauldronInfo one_player_save;
       Cards := Cards one_player_save;
       StampLevel := StampLevel one_player_save;
       StatueG := StatueG one_player_save;
       CogMap := cogs;
       CogOrder := order;
       InvStorageUsed := InvStorageUsed one_player_save |}
    sample_cards.

(** Twenty-eight players with pairwise distinct names. *)
Definition many_names : list string :=
  chars_of "ABCDEFGHIJKLMNOPQRSTUVWXYZab".

Definition many_players : dict string Player :=
  map (fun name => (name, sample_player 1)) many_names.

Definition crowded_exporter (usernames : list string)
    (prog : list (option string * Z)) : Exporter :=
  local_attributes (sample_save many_players usernames prog) sample_cards.

(** The same players, the 28th bearing the name of the first. *)
Definition repeated_names : list string := take 27 many_names ++ ["A"].

(* ===================================================================== *)
(** ** Lemmas on the error monad and on dictionaries *)
(* ===================================================================== *)

Lemma bind_ok_inv {A B : Type} (m : result A) (k : A -> result B) (b : B) :
  bind m k = Ok b -> exists a, m = Ok a /\ k a = Ok b.
Proof. destruct m as [a|x]; simpl; [eauto | discriminate]. Qed.

Lemma foldM_app {A B : Type} (f : B -> A -> result B) (l1 l2 : list A)
    (acc : B) :
  foldM f (l1 ++ l2)%list acc = bind (foldM f l1 acc) (foldM f l2).
Proof.
  revert acc. induction l1 as [|x l1 IH]; intros acc; simpl; [reflexivity|].
  destruct (f acc x) as [acc'|err]; simpl; [apply IH | reflexivity].
Qed.

Lemma mapM_result_app {A B : Type} (f : A -> result B) (l1 l2 : list A) :
  mapM_result f (l1 ++ l2)%list =
  bind (mapM_result f l1)
       (fun ys1 => bind (mapM_result f l2) (fun ys2 => Ok (ys1 ++ ys2)%list)).
Proof.
  induction l1 as [|x l1 IH]; simpl.
  - destruct (mapM_result f l2); reflexivity.
  - destruct (f x) as [y|err]; simpl; [|reflexivity].
    rewrite IH. destruct (mapM_result f l1) as [ys1|err]; simpl; [|reflexivity].
    destruct (mapM_result f l2); reflexivity.
Qed.

Lemma mapM_result_all_ok {A B : Type} (f : A -> result B) (l : list A) :
  (forall x, x ∈ l -> is_ok (f x) = true) ->
  exists ys, mapM_result f l = Ok ys.
Proof.
  induction l as [|x l IH]; intros Hok; simpl; [eauto|].
  specialize (Hok x (list_elem_of_here _ _)) as Hx.
  destruct (f x) as [y|err]; [|discriminate]. simpl.
  destruct IH as [ys ->]; [|simpl; eauto].
  intros z Hz. apply Hok. now right.
Qed.

Section DictFacts.
Context {K V : Type} `{EqDecision K}.
Implicit Types (d : dict K V) (k : K) (v : V).

Lemma dict_get_set d k v k' :
  dict_get (dict_set d k v) k' =
  if decide (k = k') then Some v else dict_get d k'.
Proof.
  induction d as [|[k0 v0] d IH]; simpl.
  - reflexivity.
  - destruct (decide (k0 = k)) as [->|Hne]; simpl.
    + destruct (decide (k = k')); reflexivity.
    + rewrite IH. destruct (decide (k0 = k')) as [->|]; [|reflexivity].
      destruct (decide (k = k')); congruence.
Qed.



Lemma dict_get_None d k : dict_get d k = None <-> k ∉ dict_keys d.
Proof.
  unfold dict_keys. induction d as [|[k0 v0] d IH]; simpl.
  - split; [intros _; apply not_elem_of_nil | reflexivity].
  - rewrite not_elem_of_cons. destruct (decide (k0 = k)) as [->|Hne].
    + split; [discriminate | intros [? _]; congruence].
    + rewrite IH. split; [intros; split; congruence | now intros [_ ?]].
Qed.

Lemma dict_get_Some_elem d k v : dict_get d k = Some v -> (k, v) ∈ d.
Proof.
  induction d as [|[k0 v0] d IH]; simpl; [discriminate|].
  destruct (decide (k0 = k)) as [->|Hne].
  - intros [= ->]. left.
  - intros H. right. now apply IH.
Qed.

Lemma dict_get_elem_NoDup d k v :
  NoDup (dict_keys d) -> (k, v) ∈ d -> dict_get d k = Some v.
Proof.
  unfold dict_keys. induction d as [|[k0 v0] d IH]; simpl.
  - intros _ H. now apply elem_of_nil in H.
  - intros Hnd H. apply NoDup_cons in Hnd as [Hk0 Hnd].
    apply elem_of_cons in H as [[= -> ->]|H].
    + now destruct (decide (k0 = k0)).
    + destruct (decide (k0 = k)) as [->|Hne]; [|now apply IH].
      exfalso. apply Hk0. apply list_elem_of_fmap. now exists (k, v).
Qed.

(** Assigning a key that is not there yet appends it. *)
Lemma dict_set_fresh d k v :
  k ∉ dict_keys d -> dict_set d k v = (d ++ [(k, v)])%list.
Proof.
  unfold dict_keys. induction d as [|[k0 v0] d IH]; simpl; [reflexivity|].
  rewrite not_elem_of_cons. intros [Hne Hd].
  destruct (decide (k0 = k)); [congruence|]. now rewrite IH.
Qed.

Lemma dict_keys_app d1 d2 :
  dict_keys (d1 ++ d2)%list = (dict_keys d1 ++ dict_keys d2)%list.
Proof. unfold dict_keys. apply map_app. Qed.

(** Assigning pairwise distinct new keys appends the pairs in order. *)
Lemma fold_dict_set_fresh (pairs : list (K * V)) d :
  NoDup (dict_keys d ++ dict_keys pairs)%list ->
  fold_left (fun d kv => dict_set d kv.1 kv.2) pairs d = (d ++ pairs)%list.
Proof.
  revert d. induction pairs as [|[k v] pairs IH]; intros d Hnd; simpl.
  - now rewrite app_nil_r.
  - assert (Hk : k ∉ dict_keys d).
    { apply NoDup_app in Hnd as (_ & Hdisj & _).
      intros Hin. apply (Hdisj k Hin). left. }
    rewrite dict_set_fresh by exact Hk.
    rewrite IH.
    + now rewrite <- app_assoc.
    + rewrite dict_keys_app. simpl. now rewrite <- app_assoc.
Qed.

Lemma dict_of_NoDup (pairs : list (K * V)) :
  NoDup (dict_keys pairs) -> dict_of pairs = pairs.
Proof. intros Hnd. unfold dict_of. now rewrite fold_dict_set_fresh. Qed.

(** After a run of assignments a key holds the last value assigned to
    it, or what it held before. *)
Lemma dict_get_fold_set (pairs : list (K * V)) d k :
  dict_get (fold_left (fun d kv => dict_set d kv.1 kv.2) pairs d) k =
  match dict_get (rev pairs) k with
  | Some v => Some v
  | None => dict_get d k
  end.
Proof.
  revert d. induction pairs as [|[k0 v0] pairs IH]; intros d; simpl.
  - reflexivity.
  - rewrite IH. clear IH.
    assert (Happ : forall (l : dict K V) k1 v1,
               dict_get (l ++ [(k1, v1)])%list k =
               match dict_get l k with
               | Some v => Some v
               | None => if decide (k1 = k) then Some v1 else None
               end).
    { induction l as [|[k2 v2] l IHl]; intros k1 v1; simpl; [reflexivity|].
      destruct (decide (k2 = k)); [reflexivity | apply IHl]. }
    rewrite Happ. destruct (dict_get (rev pairs) k); [reflexivity|].
    rewrite dict_get_set. now destruct (decide (k0 = k)).
Qed.

Lemma dict_get_union (a b : dict K V) k :
  dict_get (dict_union a b) k =
  match dict_get (rev b) k with
  | Some v => Some v
  | None => dict_get a k
  end.
Proof. apply dict_get_fold_set. Qed.

Lemma dict_get_rev_Some (pairs : dict K V) k v :
  dict_get (rev pairs) k = Some v -> (k, v) ∈ pairs.
Proof.
  intros H. apply dict_get_Some_elem in H.
  apply list_elem_of_In. apply in_rev. now apply list_elem_of_In.
Qed.

Lemma dict_get_rev_None (pairs : dict K V) k :
  dict_get (rev pairs) k = None <-> k ∉ dict_keys pairs.
Proof.
  rewrite dict_get_None. unfold dict_keys. rewrite map_rev.
  rewrite !list_elem_of_In. now rewrite <- in_rev.
Qed.
End DictFacts.

(* ===================================================================== *)
(** ** Lemmas on the string methods *)
(* ===================================================================== *)

Lemma startswith_iff (s p : string) :
  startswith s p = true <-> exists rest, s = p ++ rest.
Proof.
  revert s. induction p as [|c p IH]; intros s; simpl.
  - split; [intros _; now exists s | reflexivity].
  - destruct s as [|d s].
    + split; [discriminate | intros [rest Hrest]; discriminate].
    + destruct (Ascii.eqb_spec c d) as [->|Hne].
      * rewrite IH. split; intros [rest Hrest]; exists rest; simpl in *; congruence.
      * split; [discriminate | intros [rest Hrest]; simpl in Hrest; congruence].
Qed.

Lemma str_drop_app (u p : string) : str_drop (String.length u) (u ++ p) = p.
Proof. induction u as [|c u IH]; simpl; [now destruct p | exact IH]. Qed.

Lemma str_length_app (u p : string) :
  String.length (u ++ p) = (String.length u + String.length p)%nat.
Proof. induction u as [|c u IH]; simpl; [reflexivity | now rewrite IH]. Qed.

Lemma str_drop_split (n : nat) (s : string) :
  (n <= String.length s)%nat ->
  exists u, s = u ++ str_drop n s /\ String.length u = n.
Proof.
  revert s. induction n as [|n IH]; intros s Hn.
  - exists "". now destruct s.
  - destruct s as [|c s]; simpl in *; [lia|].
    destruct (IH s) as (u & Hu & Hlen); [lia|].
    exists (String c u). simpl. split; congruence.
Qed.


Lemma endswith_iff (s p : string) :
  endswith s p = true <-> exists stem, s = stem ++ p.
Proof.
  unfold endswith. destruct (Nat.leb_spec (String.length p) (String.length s)) as [Hle|Hlt].
  - rewrite String.eqb_eq. split.
    + intros Hdrop.
      destruct (str_drop_split (String.length s - String.length p) s) as (u & Hu & _);
        [lia|].
      exists u. now rewrite Hdrop in Hu.
    + intros [stem ->]. rewrite str_length_app.
      replace (String.length stem + String.length p - String.length p)%nat
        with (String.length stem) by lia.
      apply str_drop_app.
  - split; [discriminate|]. intros [stem ->]. rewrite str_length_app in Hlt. lia.
Qed.

(** For a one-character string, [in] is membership of the character. *)
Lemma str_contains_char (s : string) (c : ascii) :
  str_contains s (String c "") = true <-> In c (list_ascii_of_string s).
Proof.
  induction s as [|d s IH]; simpl.
  - split; [discriminate | tauto].
  - rewrite orb_true_iff, IH. destruct (Ascii.eqb_spec c d) as [->|Hne].
    + split; [now left | now left].
    + split; [intros [?|?]; [discriminate | now right] | intros [?|?]; [congruence | now right]].
Qed.

(* ===================================================================== *)
(** ** The cog tables *)
(* ===================================================================== *)

Section CogFacts.
Context (D : RefData).

Lemma directional_type_first (name : string) (table : dict string string)
    (before after : dict string string) (direction cog_type : string) :
  table = (before ++ (direction, cog_type) :: after)%list ->
  (exists stem, name = stem ++ direction) ->
  (forall d t, (d, t) ∈ before -> ~ exists stem, name = stem ++ d) ->
  directional_type name table = Some (cog_type ++ "_Cog").
Proof.
  intros -> Hsuffix. induction before as [|[d t] before IH]; intros Hbefore; simpl.
  - apply endswith_iff in Hsuffix. now rewrite Hsuffix.
  - destruct (endswith name d) eqn:Hd.
    + exfalso. apply (Hbefore d t); [left | now apply endswith_iff].
    + apply IH. intros d' t' Hin. apply (Hbefore d' t'). now right.
Qed.

Lemma directional_type_none (name : string) (table : dict string string) :
  (forall d t, (d, t) ∈ table -> ~ exists stem, name = stem ++ d) ->
  directional_type name table = None.
Proof.
  induction table as [|[d t] table IH]; intros Hnone; simpl; [reflexivity|].
  destruct (endswith name d) eqn:Hd.
  - exfalso. apply (Hnone d t); [left | now apply endswith_iff].
  - apply IH. intros d' t' Hin. apply (Hnone d' t'). now right.
Qed.

Lemma directional_type_suffix (name : string) (table : dict string string)
    (ty : string) :
  directional_type name table = Some ty -> exists t, ty = t ++ "_Cog".
Proof.
  induction table as [|[d t] table IH]; simpl; [discriminate|].
  destruct (endswith name d); [intros [= <-]; eauto | exact IH].
Qed.

(** The type is ["Character"] exactly for the names that start with
    ["Player_"]. *)
Lemma get_cog_type_character (name : string) :
  get_cog_type D name = Some "Character" <-> exists rest, name = "Player_" ++ rest.
Proof.
  unfold get_cog_type. rewrite <- startswith_iff.
  destruct (String.eqb_spec name "Blank") as [->|Hblank]; [split; discriminate|].
  destruct (startswith name "Player_"); [tauto|].
  destruct (String.eqb_spec name "CogY"); [split; discriminate|].
  destruct (startswith name "CogZ"); [split; discriminate|].
  destruct (directional_type name (cog_type_map D)) as [ty|] eqn:Hty;
    [|split; discriminate].
  apply directional_type_suffix in Hty as [t ->].
  split; [|discriminate]. intros [= H]. exfalso.
  assert (Hends : endswith (t ++ "_Cog") "_Cog" = true)
    by (apply endswith_iff; eauto).
  rewrite H in Hends. discriminate.
Qed.

Lemma get_cog_type_blank (name : string) :
  get_cog_type D name = None <-> name = "Blank".
Proof.
  unfold get_cog_type.
  destruct (String.eqb_spec name "Blank") as [->|Hblank]; [tauto|].
  destruct (startswith name "Player_"); [split; [discriminate | tauto]|].
  destruct (String.eqb name "CogY"); [split; [discriminate | tauto]|].
  destruct (startswith name "CogZ"); [split; [discriminate | tauto]|].
  destruct (directional_type name (cog_type_map D)); split; (discriminate || tauto).
Qed.

Lemma dict_set_nonempty {K V : Type} `{EqDecision K} (d : dict K V) k v :
  dict_set d k v <> [].
Proof. destruct d as [|[k0 v0] d]; simpl; [|destruct (decide (k0 = k))]; discriminate. Qed.

Lemma cog_field_nonempty (cog data data' : dict string jval) entry :
  cog_field D cog data entry = Ok data' -> data' <> [].
Proof.
  unfold cog_field. destruct entry as [key field].
  destruct (bool_decide (key ∈ cog_boosts D)), (dict_get cog key) as [v|];
    try (intros [= <-]; apply dict_set_nonempty).
  destruct (py_div100 v); simpl; [|discriminate].
  intros [= <-]. apply dict_set_nonempty.
Qed.

Lemma cog_fields_nonempty (cog : dict string jval) table data data' :
  data <> [] -> foldM (cog_field D cog) table data = Ok data' -> data' <> [].
Proof.
  revert data. induction table as [|entry table IH]; intros data Hne; simpl.
  - now intros [= <-].
  - intros H. apply bind_ok_inv in H as (data1 & H1 & H).
    apply (IH data1); [|exact H]. now apply cog_field_nonempty in H1.
Qed.

(** What [get_cog_data] returns passes the truth test exactly when the
    name is not the blank marker. *)
Lemma get_cog_data_truthy (cog : dict string jval) (name : string) r :
  get_cog_data D cog name = Ok r ->
  (name = "Blank" /\ r = None) \/
  (name <> "Blank" /\ exists row, r = Some row /\ truthy r = true).
Proof.
  unfold get_cog_data. destruct (get_cog_type D name) as [ty|] eqn:Hty.
  - intros H. apply bind_ok_inv in H as (data & Hdata & [= <-]).
    right. split.
    + intros ->. now rewrite (proj2 (get_cog_type_blank "Blank")) in Hty.
    + exists data. split; [reflexivity|].
      apply cog_fields_nonempty in Hdata; [|apply dict_set_nonempty].
      now destruct data.
  - intros [= <-]. left. split; [now apply get_cog_type_blank | reflexivity].
Qed.

Lemma cog_rows_kept (slots : list (dict string jval * string)) rows :
  mapM_result (fun '(cog, name) => get_cog_data D cog name) slots = Ok rows ->
  Forall2 (fun slot row => get_cog_data D slot.1 slot.2 = Ok (Some row))
          (filter (fun slot => slot.2 <> "Blank") slots)
          (omap id (List.filter truthy rows)).
Proof.
  revert rows. induction slots as [|[cog name] slots IH]; intros rows; simpl.
  - intros [= <-]. constructor.
  - intros H. apply bind_ok_inv in H as (r & Hr & H).
    apply bind_ok_inv in H as (rs & Hrs & [= <-]).
    specialize (IH rs Hrs). rewrite filter_cons. simpl.
    destruct (get_cog_data_truthy _ _ _ Hr) as [[-> ->]|(Hne & row & -> & Htruthy)].
    + simpl. destruct (decide ("Blank" <> "Blank")); [congruence | exact IH].
    + rewrite Htruthy. simpl.
      destruct (decide (name <> "Blank")); [|contradiction].
      constructor; [exact Hr | exact IH].
Qed.
End CogFacts.

(* ===================================================================== *)
(** ** The division by 100 *)
(* ===================================================================== *)

(** The rounding of [SpecFloat]: which quotients stay within the floats. *)
Section Rounding.
Import SpecFloat.

Lemma digits2_pos_lower (p : positive) :
  2 ^ (Zpos (digits2_pos p) - 1) <= Zpos p.
Proof.
  induction p as [p IH|p IH|]; cbn [digits2_pos]; [| |simpl; lia].
  - rewrite Pos2Z.inj_succ.
    replace (Z.succ (Zpos (digits2_pos p)) - 1) with (Z.succ (Zpos (digits2_pos p) - 1)) by lia.
    rewrite Z.pow_succ_r by lia. lia.
  - rewrite Pos2Z.inj_succ.
    replace (Z.succ (Zpos (digits2_pos p)) - 1) with (Z.succ (Zpos (digits2_pos p) - 1)) by lia.
    rewrite Z.pow_succ_r by lia. lia.
Qed.

Lemma Zdigits2_upper (m k : Z) :
  0 <= m < 2 ^ k -> 0 <= k -> 0 <= Zdigits2 m <= k.
Proof.
  intros [Hm Hlt] Hk. destruct m as [|p|p]; cbn [Zdigits2]; [lia | | lia].
  pose proof (digits2_pos_lower p) as Hlow.
  split; [lia|].
  destruct (Z.le_gt_cases (Zpos (digits2_pos p)) k) as [|Hgt]; [assumption|].
  exfalso.
  assert (2 ^ k <= 2 ^ (Zpos (digits2_pos p) - 1)) by (apply Z.pow_le_mono_r; lia).
  lia.
Qed.

Lemma shr_1_m (mrs : shr_record) :
  0 <= shr_m mrs -> shr_m (shr_1 mrs) = shr_m mrs / 2.
Proof.
  destruct mrs as [m r s]. cbn [shr_m shr_1]. intros Hm.
  destruct m as [|[p|p|]|p]; cbn [shr_m]; try lia.
  - reflexivity.
  - apply Z.div_unique with (r := 1); lia.
  - apply Z.div_unique with (r := 0); lia.
  - reflexivity.
Qed.

Lemma iter_shr_1_m (n : positive) :
  forall mrs, 0 <= shr_m mrs ->
              shr_m (iter_pos shr_1 n mrs) = shr_m mrs / 2 ^ Zpos n.
Proof.
  induction n as [n IH|n IH|]; intros mrs Hm; cbn [iter_pos].
  - assert (H1 : 0 <= shr_m (shr_1 mrs)).
    { rewrite shr_1_m by exact Hm. apply Z.div_pos; lia. }
    assert (H2 : 0 <= shr_m (iter_pos shr_1 n (shr_1 mrs))).
    { rewrite IH by exact H1. apply Z.div_pos; [exact H1|].
      apply Z.pow_pos_nonneg; lia. }
    assert (Hpow : 2 ^ Zpos n~1 = 2 * 2 ^ Zpos n * 2 ^ Zpos n).
    { rewrite (Pos2Z.inj_xI n).
      replace (2 * Zpos n + 1) with (1 + Zpos n + Zpos n) by lia.
      now rewrite !Z.pow_add_r by lia. }
    assert (Hn : 0 < 2 ^ Zpos n) by (apply Z.pow_pos_nonneg; lia).
    rewrite (IH _ H2), (IH _ H1), (shr_1_m _ Hm), Hpow.
    rewrite !Z.div_div by lia. f_equal. lia.
  - assert (H2 : 0 <= shr_m (iter_pos shr_1 n mrs)).
    { rewrite IH by exact Hm. apply Z.div_pos; [exact Hm|].
      apply Z.pow_pos_nonneg; lia. }
    assert (Hpow : 2 ^ Zpos n~0 = 2 ^ Zpos n * 2 ^ Zpos n).
    { rewrite (Pos2Z.inj_xO n).
      replace (2 * Zpos n) with (Zpos n + Zpos n) by lia.
      now rewrite !Z.pow_add_r by lia. }
    assert (Hn : 0 < 2 ^ Zpos n) by (apply Z.pow_pos_nonneg; lia).
    rewrite (IH _ H2), (IH _ Hm), Hpow.
    rewrite !Z.div_div by lia. f_equal.
  - rewrite shr_1_m by exact Hm. reflexivity.
Qed.

(** What [shr_fexp] leaves: the mantissa shifted right, the exponent raised
    to the one of the format. *)
Lemma shr_fexp_bounds (m e : Z) (l : location) :
  0 <= m ->
  let '(mrs, e') := shr_fexp 53 1024 m e l in
  e' = Z.max e (fexp 53 1024 (Zdigits2 m + e)) /\
  shr_m mrs = m / 2 ^ (e' - e).
Proof.
  intros Hm. unfold shr_fexp, shr.
  assert (Hrec : shr_m (shr_record_of_loc m l) = m)
    by (destruct l as [|[| |]]; reflexivity).
  destruct (fexp 53 1024 (Zdigits2 m + e) - e) as [|n|n] eqn:Hn.
  - split; [lia|]. replace (e - e) with 0 by lia.
    now rewrite Hrec, Z.pow_0_r, Z.div_1_r.
  - split; [lia|]. rewrite iter_shr_1_m by lia. rewrite Hrec.
    now replace (e + Zpos n - e) with (Zpos n) by lia.
  - split; [lia|]. replace (e - e) with 0 by lia.
    now rewrite Hrec, Z.pow_0_r, Z.div_1_r.
Qed.

Lemma round_nearest_even_bounds (m : Z) (l : location) :
  m <= round_nearest_even m l <= m + 1.
Proof.
  unfold round_nearest_even.
  destruct l as [|[| |]]; try lia. destruct (Z.even m); lia.
Qed.

Lemma round_in_range (s : bool) (m e : Z) (l : location) :
  0 <= m -> e <= 0 -> m < 2 ^ (1023 - e) ->
  forall s', binary_round_aux 53 1024 s m e l <> S754_infinity s'.
Proof.
  intros Hm He Hlt s'. unfold binary_round_aux.
  pose proof (shr_fexp_bounds m e l Hm) as H1.
  destruct (shr_fexp 53 1024 m e l) as [mrs1 e1]. destruct H1 as [He1 Hm1].
  pose proof (Zdigits2_upper m (1023 - e) (conj Hm Hlt) ltac:(lia)) as Hd.
  assert (He1' : e <= e1 <= 970) by (unfold fexp, emin in He1; lia).
  assert (Hpow : 0 < 2 ^ (e1 - e)) by (apply Z.pow_pos_nonneg; lia).
  assert (Hm1' : 0 <= shr_m mrs1 < 2 ^ (1023 - e1)).
  { rewrite Hm1. split; [apply Z.div_pos; lia|].
    apply Z.div_lt_upper_bound; [exact Hpow|].
    rewrite <- Z.pow_add_r by lia.
    now replace (e1 - e + (1023 - e1)) with (1023 - e) by lia. }
  pose proof (round_nearest_even_bounds (shr_m mrs1) (loc_of_shr_record mrs1))
    as Hround.
  set (m2 := round_nearest_even (shr_m mrs1) (loc_of_shr_record mrs1)) in *.
  assert (Hm2 : 0 <= m2 < 2 ^ (1024 - e1)).
  { split; [lia|].
    replace (1024 - e1) with (Z.succ (1023 - e1)) by lia.
    rewrite Z.pow_succ_r by lia. lia. }
  pose proof (shr_fexp_bounds m2 e1 loc_Exact (proj1 Hm2)) as H2.
  destruct (shr_fexp 53 1024 m2 e1 loc_Exact) as [mrs2 e2].
  destruct H2 as [He2 _].
  pose proof (Zdigits2_upper m2 (1024 - e1) Hm2 ltac:(lia)) as Hd2.
  assert (He2' : e2 <= 1024 - 53) by (unfold fexp, emin in He2; lia).
  destruct (shr_m mrs2); [discriminate| |discriminate].
  apply Z.leb_le in He2'. rewrite He2'. discriminate.
Qed.

Lemma div100_in_range (s : bool) (p : positive) :
  Zpos p < 100 * 2 ^ 1023 ->
  forall s',
    float_div (S754_finite s p 0) (float_of_Z 100) <> S754_infinity s'.
Proof.
  intros Hp s'. unfold float_div, float_of_Z, SFdiv, SFdiv_core_binary.
  change (Zdigits2 (Zpos 100)) with 7.
  set (e := Z.min (fexp 53 1024 (Zdigits2 (Zpos p) + 0 - (7 + 0))) (0 - 0)).
  assert (He : - 1074 <= e <= 0) by (unfold e, fexp, emin; lia).
  set (m := match 0 - 0 - e with
            | 0 => Zpos p
            | Zpos _ => Z.shiftl (Zpos p) (0 - 0 - e)
            | Zneg _ => 0
            end).
  assert (Hm : m = Zpos p * 2 ^ (- e)).
  { unfold m. destruct (0 - 0 - e) as [|n|n] eqn:Hs.
    - replace (- e) with 0 by lia. now rewrite Z.pow_0_r, Z.mul_1_r.
    - rewrite Z.shiftl_mul_pow2 by lia. f_equal. f_equal. lia.
    - lia. }
  assert (Hpow : 0 < 2 ^ (- e)) by (apply Z.pow_pos_nonneg; lia).
  pose proof (Z_div_mod m 100 ltac:(lia)) as Hdiv.
  destruct (Z.div_eucl m 100) as [q r]. destruct Hdiv as [Hq Hr].
  apply round_in_range; [nia | lia |].
  assert (Hbound : m < 100 * 2 ^ (1023 - e)).
  { rewrite Hm. replace (1023 - e) with (1023 + - e) by lia.
    rewrite Z.pow_add_r by lia. nia. }
  nia.
Qed.

Lemma digits2_pos_upper (p : positive) :
  Zpos p < 2 ^ Zpos (digits2_pos p).
Proof.
  induction p as [p IH|p IH|]; cbn [digits2_pos]; [| |simpl; lia].
  - rewrite Pos2Z.inj_succ, Z.pow_succ_r by lia. lia.
  - rewrite Pos2Z.inj_succ, Z.pow_succ_r by lia. lia.
Qed.

Lemma Zdigits2_lower (m k : Z) :
  0 <= k -> 2 ^ k <= m -> k < Zdigits2 m.
Proof.
  intros Hk Hm.
  assert (Hpos : 0 < 2 ^ k) by (apply Z.pow_pos_nonneg; lia).
  destruct m as [|p|p]; [lia | | lia]. cbn [Zdigits2].
  pose proof (digits2_pos_upper p) as Hup.
  destruct (Z.lt_ge_cases k (Zpos (digits2_pos p))) as [|Hge]; [assumption|].
  exfalso.
  assert (2 ^ Zpos (digits2_pos p) <= 2 ^ k) by (apply Z.pow_le_mono_r; lia).
  lia.
Qed.

Lemma Zdigits2_bounds (m : Z) :
  0 < m -> 2 ^ (Zdigits2 m - 1) <= m < 2 ^ Zdigits2 m.
Proof.
  destruct m as [|p|p]; [lia | | lia]. intros _. cbn [Zdigits2].
  split; [apply digits2_pos_lower | apply digits2_pos_upper].
Qed.

Lemma round_beyond_range (s : bool) (m : Z) (l : location) :
  2 ^ 1024 <= m -> binary_round_aux 53 1024 s m 0 l = S754_infinity s.
Proof.
  intros Hlarge.
  assert (Hbig : 0 < 2 ^ 1024) by (apply Z.pow_pos_nonneg; lia).
  assert (Hm : 0 < m) by lia.
  unfold binary_round_aux.
  pose proof (shr_fexp_bounds m 0 l ltac:(lia)) as H1.
  destruct (shr_fexp 53 1024 m 0 l) as [mrs1 e1]. destruct H1 as [He1 Hm1].
  pose proof (Zdigits2_lower m 1024 ltac:(lia) Hlarge) as Hd.
  pose proof (Zdigits2_bounds m Hm) as [Hlow Hup].
  set (d := Zdigits2 m) in *.
  assert (He1' : e1 = d - 53) by (unfold fexp, emin in He1; lia).
  rewrite He1' in *. replace (d - 53 - 0) with (d - 53) in Hm1 by lia.
  assert (Hpow : 0 < 2 ^ (d - 53)) by (apply Z.pow_pos_nonneg; lia).
  assert (Hsplit : 2 ^ (d - 1) = 2 ^ 52 * 2 ^ (d - 53)).
  { rewrite <- Z.pow_add_r by lia. f_equal. lia. }
  assert (Hsplit' : 2 ^ d = 2 ^ 53 * 2 ^ (d - 53)).
  { rewrite <- Z.pow_add_r by lia. f_equal. lia. }
  assert (Hm1' : 2 ^ 52 <= shr_m mrs1 < 2 ^ 53).
  { rewrite Hm1. split.
    - apply Z.div_le_lower_bound; [exact Hpow|]. lia.
    - apply Z.div_lt_upper_bound; [exact Hpow|]. lia. }
  pose proof (round_nearest_even_bounds (shr_m mrs1) (loc_of_shr_record mrs1))
    as Hround.
  set (m2 := round_nearest_even (shr_m mrs1) (loc_of_shr_record mrs1)) in *.
  assert (H52 : 0 < 2 ^ 52) by (apply Z.pow_pos_nonneg; lia).
  assert (H54 : 2 ^ 54 = 2 * 2 ^ 53) by (now rewrite <- Z.pow_succ_r by lia).
  assert (Hm2 : 2 ^ 52 <= m2 < 2 ^ 54) by lia.
  pose proof (shr_fexp_bounds m2 (d - 53) loc_Exact ltac:(lia)) as H2.
  destruct (shr_fexp 53 1024 m2 (d - 53) loc_Exact) as [mrs2 e2].
  destruct H2 as [He2 Hm2'].
  pose proof (Zdigits2_lower m2 52 ltac:(lia) (proj1 Hm2)) as Hd2.
  pose proof (Zdigits2_upper m2 54 ltac:(lia) ltac:(lia)) as Hd2'.
  assert (He2' : e2 = Zdigits2 m2 + (d - 53) - 53)
    by (unfold fexp, emin in He2; lia).
  assert (Hshift : e2 - (d - 53) = 0 \/ e2 - (d - 53) = 1) by lia.
  assert (Hpos : 0 < shr_m mrs2).
  { rewrite Hm2'. destruct Hshift as [->| ->].
    - rewrite Z.pow_0_r, Z.div_1_r. lia.
    - apply Z.div_str_pos. change (2 ^ 1) with 2. lia. }
  destruct (shr_m mrs2) as [|m3|m3]; [lia | | lia].
  assert (Hexp : (e2 <=? 1024 - 53) = false) by (apply Z.leb_gt; lia).
  now rewrite Hexp.
Qed.

Lemma div100_beyond_range (s : bool) (p : positive) :
  100 * 2 ^ 1024 <= Zpos p ->
  float_div (S754_finite s p 0) (float_of_Z 100) = S754_infinity s.
Proof.
  intros Hp. unfold float_div, float_of_Z, SFdiv, SFdiv_core_binary.
  change (Zdigits2 (Zpos 100)) with 7.
  assert (Hbig : 0 < 2 ^ 1024) by (apply Z.pow_pos_nonneg; lia).
  assert (H60 : 2 ^ 60 <= Zpos p).
  { assert (2 ^ 60 <= 2 ^ 1024) by (apply Z.pow_le_mono_r; lia). lia. }
  pose proof (Zdigits2_lower (Zpos p) 60 ltac:(lia) H60) as Hd.
  assert (He : Z.min (fexp 53 1024 (Zdigits2 (Zpos p) + 0 - (7 + 0))) (0 - 0) = 0)
    by (unfold fexp, emin; lia).
  rewrite He. change (0 - 0 - 0) with 0. cbv iota.
  pose proof (Z_div_mod (Zpos p) 100 ltac:(lia)) as Hdiv.
  destruct (Z.div_eucl (Zpos p) 100) as [q r]. destruct Hdiv as [Hq Hr].
  replace (xorb s false) with s by now destruct s.
  apply round_beyond_range. nia.
Qed.
End Rounding.

(** The quotient of an integer by 100 is a float as long as the integer is
    below [100 * 2 ^ 1023] in absolute value, and it is beyond the floats
    from [100 * 2 ^ 1024] on. *)
Lemma int_true_div_in_range (z : Z) :
  Z.abs z < 100 * 2 ^ 1023 ->
  int_true_div z 100 = Ok (float_div (float_of_Z z) (float_of_Z 100)).
Proof.
  intros Hz. unfold int_true_div.
  destruct z as [|p|p]; [reflexivity| |].
  - pose proof (div100_in_range false p Hz) as Hfinite.
    cbn [float_of_Z] in *.
    destruct (float_div (SpecFloat.S754_finite false p 0)
                        (SpecFloat.S754_finite false 100 0)) as [| s'| |];
      try reflexivity.
    now destruct (Hfinite s').
  - pose proof (div100_in_range true p Hz) as Hfinite.
    cbn [float_of_Z] in *.
    destruct (float_div (SpecFloat.S754_finite true p 0)
                        (SpecFloat.S754_finite false 100 0)) as [| s'| |];
      try reflexivity.
    now destruct (Hfinite s').
Qed.

Lemma int_true_div_beyond_range (z : Z) :
  100 * 2 ^ 1024 <= Z.abs z -> int_true_div z 100 = Err OverflowError.
Proof.
  intros Hz. unfold int_true_div.
  assert (Hbig : 0 < 2 ^ 1024) by (apply Z.pow_pos_nonneg; lia).
  destruct z as [|p|p]; [cbn [Z.abs] in Hz; lia| |].
  - cbn [float_of_Z]. change (SpecFloat.S754_finite false 100 0) with (float_of_Z 100).
    now rewrite (div100_beyond_range false p Hz).
  - cbn [float_of_Z]. change (SpecFloat.S754_finite false 100 0) with (float_of_Z 100).
    now rewrite (div100_beyond_range true p Hz).
Qed.

Lemma int_true_div_error (a b : Z) (x : exn) :
  int_true_div a b = Err x -> x = OverflowError.
Proof.
  unfold int_true_div. destruct (float_div _ _); congruence.
Qed.

(** The exceptions of [v / 100]: [TypeError] exactly for what is no number,
    [OverflowError] for an integer only, and for none below
    [100 * 2 ^ 1023] in absolute value. *)
Lemma py_div100_error (v : jval) (x : exn) :
  py_div100 v = Err x ->
  (x = TypeError /\
   (v = JNull \/ (exists s, v = JStr s) \/ (exists items, v = JList items) \/
    (exists items, v = JDict items))) \/
  (x = OverflowError /\ exists z, v = JInt z /\ 100 * 2 ^ 1023 <= Z.abs z).
Proof.
  destruct v as [|b|z|f|s|items|items]; cbn [py_div100].
  - intros [= <-]. left. split; [reflexivity | now left].
  - destruct b; vm_compute; discriminate.
  - destruct (Z.lt_ge_cases (Z.abs z) (100 * 2 ^ 1023)) as [Hsmall|Hlarge].
    + rewrite (int_true_div_in_range z Hsmall). discriminate.
    + destruct (int_true_div z 100) as [q|err] eqn:Hq; cbn [bind]; [discriminate|].
      intros [= <-]. right. split; [now apply int_true_div_error in Hq|].
      now exists z.
  - discriminate.
  - intros [= <-]. left. split; [reflexivity|]. right. left. now exists s.
  - intros [= <-]. left. split; [reflexivity|]. right. right. left. now exists items.
  - intros [= <-]. left. split; [reflexivity|]. right. right. right. now exists items.
Qed.

(** The division on some integers: a quotient that is no float is rounded
    to the nearest, a tie to the even mantissa, and the last integers
    within the floats lie just below [100 * (2 ^ 1024 - 2 ^ 970)]. *)
Example int_true_div_rounds :
  int_true_div 50 100 = Ok (SpecFloat.S754_finite false 4503599627370496 (-53)) /\
  int_true_div 10 100 = Ok (SpecFloat.S754_finite false 7205759403792794 (-56)) /\
  int_true_div (-5) 100 = Ok (SpecFloat.S754_finite true 7205759403792794 (-57)) /\
  int_true_div 0 100 = Ok (SpecFloat.S754_zero false) /\
  int_true_div ((2 ^ 53 + 1) * 100) 100
  = Ok (SpecFloat.S754_finite false 4503599627370496 1) /\
  int_true_div ((2 ^ 1024 - 2 ^ 970) * 100 - 1) 100
  = Ok (SpecFloat.S754_finite false 9007199254740991 971) /\
  int_true_div ((2 ^ 1024 - 2 ^ 970) * 100) 100 = Err OverflowError /\
  py_div100 (JInt (10 ^ 400)) = Err OverflowError /\
  py_div100 (JBool true)
  = Ok (JFloat (SpecFloat.S754_finite false 5764607523034235 (-59))) /\
  py_div100 (JFloat (SpecFloat.S754_infinity false))
  = Ok (JFloat (SpecFloat.S754_infinity false)).
Proof. repeat split; vm_compute; reflexivity. Qed.

(** [int] on some strings: white space and a sign around the digits, single
    underscores between them, and the limit on their number. *)
Example py_int_strings :
  py_int " 12 " = Ok 12 /\
  py_int "-7" = Ok (-7) /\
  py_int "1_0" = Ok 10 /\
  py_int "1__0" = Err ValueError /\
  py_int "_1" = Err ValueError /\
  py_int "+ 1" = Err ValueError /\
  py_int "" = Err ValueError /\
  py_int (String (ascii_of_nat 28) "1") = Err ValueError /\
  py_int (String (ascii_of_nat 160) "1") = Ok 1 /\
  is_ok (py_int (string_of_list_ascii (replicate 4300 "1"%char))) = true /\
  py_int (string_of_list_ascii (replicate 4301 "0"%char)) = Err ValueError.
Proof. repeat split; vm_compute; reflexivity. Qed.

Section CogRows.
Context (D : RefData) (cog : dict string jval).





End CogRows.

Section CogErrors.
Context (D : RefData).

(** A boost entry of the table under which [cog] holds a value that cannot
    be divided by 100. *)
Let bad_boost (cog : dict string jval) (x : exn) : Prop :=
  exists key field v,
    (key, field) ∈ cog_datas_map D /\ key ∈ cog_boosts D /\
    dict_get cog key = Some v /\ py_div100 v = Err x.

Lemma cog_field_result (cog data : dict string jval) (key field : string) :
  (exists value,
     cog_field D cog data (key, field) = Ok (dict_set data field value)) \/
  (exists v x,
     cog_field D cog data (key, field) = Err x /\
     key ∈ cog_boosts D /\ dict_get cog key = Some v /\ py_div100 v = Err x).
Proof.
  unfold cog_field. case_bool_decide as Hboost.
  - destruct (dict_get cog key) as [v|]; [|eauto].
    destruct (py_div100 v) as [scaled|x] eqn:Hscaled; cbn [bind]; [eauto|].
    right. exists v, x. now repeat split.
  - destruct (dict_get cog key); eauto.
Qed.

(** The loop over the bonus table stops at the first boost value that cannot
    be divided, with the exception of the division. *)
Lemma cog_fields_error (cog : dict string jval) (table : dict string string) :
  forall data x,
    foldM (cog_field D cog) table data = Err x ->
    exists key field v,
      (key, field) ∈ table /\ key ∈ cog_boosts D /\
      dict_get cog key = Some v /\ py_div100 v = Err x.
Proof.
  induction table as [|[key field] table IH]; intros data x; cbn [foldM].
  - discriminate.
  - destruct (cog_field_result cog data key field)
      as [[value ->]|(v & y & -> & Hboost & Hv & Hy)]; cbn [bind].
    + intros Hx. destruct (IH _ _ Hx) as (k & f & v & Hin & Hb & Hv & Hdiv).
      exists k, f, v. split; [now right | auto].
    + intros [= <-]. exists key, field, v. split; [left | auto].
Qed.

Lemma cog_fields_bad (cog : dict string jval) (table : dict string string) :
  (exists key field v,
     (key, field) ∈ table /\ key ∈ cog_boosts D /\
     dict_get cog key = Some v /\ is_ok (py_div100 v) = false) ->
  forall data, is_ok (foldM (cog_field D cog) table data) = false.
Proof.
  induction table as [|[key field] table IH];
    intros (k & f & v & Hin & Hb & Hv & Hdiv) data.
  - now apply elem_of_nil in Hin.
  - cbn [foldM]. apply elem_of_cons in Hin as [[= <- <-]|Hin].
    + unfold cog_field. rewrite bool_decide_eq_true_2 by exact Hb.
      rewrite Hv. now destruct (py_div100 v).
    + destruct (cog_field_result cog data key field)
        as [[value ->]|(v' & y & -> & _)]; [|reflexivity].
      cbn [bind]. apply IH. now exists k, f, v.
Qed.

(** What [get_cog_data] raises is the exception of the division of a boost
    value of a cog that is not blank. *)
Lemma get_cog_data_error (cog : dict string jval) (name : string) (x : exn) :
  get_cog_data D cog name = Err x -> name <> "Blank" /\ bad_boost cog x.
Proof.
  unfold get_cog_data.
  destruct (get_cog_type D name) as [ty|] eqn:Hty; [|discriminate].
  match goal with
  | |- context [foldM ?f ?t ?d] => destruct (foldM f t d) as [row|err] eqn:Hrow
  end; cbn [bind]; [discriminate|].
  intros [= <-]. split; [|now apply cog_fields_error in Hrow].
  intros ->. now rewrite (proj2 (get_cog_type_blank D "Blank")) in Hty.
Qed.

Lemma cog_rows_error (e : Exporter) (x : exn) :
  cog_rows D e = Err x ->
  (x = TypeError \/ x = OverflowError) /\
  exists cog name,
    (cog, name) ∈ zip (cog_map e) (cog_order e) /\ name <> "Blank" /\
    bad_boost cog x.
Proof.
  unfold cog_rows.
  generalize (zip (cog_map e) (cog_order e)) as slots.
  induction slots as [|[cog name] slots IH]; cbn [mapM_result bind];
    [discriminate|].
  destruct (get_cog_data D cog name) as [r|err] eqn:Hr; cbn [bind].
  - destruct (mapM_result _ slots) as [rs|err]; cbn [bind] in *;
      [discriminate|].
    intros Hx. destruct (IH Hx) as (Hclass & c & n & Hin & Hn & Hbad).
    split; [exact Hclass|]. exists c, n. split; [now right | auto].
  - intros [= <-]. apply get_cog_data_error in Hr as [Hname Hbad].
    split.
    + destruct Hbad as (key & field & v & _ & _ & _ & Hdiv).
      destruct (py_div100_error v err Hdiv) as [[-> _]|[-> _]]; auto.
    + exists cog, name. split; [left | auto].
Qed.

(** The cog rows are built when every boost value on the board can be
    divided. *)
Lemma cog_rows_built (e : Exporter) :
  (forall cog key v,
     cog ∈ cog_map e -> key ∈ cog_boosts D -> dict_get cog key = Some v ->
     is_ok (py_div100 v) = true) ->
  is_ok (cog_rows D e) = true.
Proof.
  intros Hall. destruct (cog_rows D e) as [rows|x] eqn:Hrows; [reflexivity|].
  apply cog_rows_error in Hrows
    as (_ & cog & name & Hin & _ & key & field & v & _ & Hb & Hv & Hdiv).
  apply list_elem_of_lookup in Hin as [i Hi].
  apply lookup_zip_Some in Hi as [Hcog _].
  assert (Hok : is_ok (py_div100 v) = true).
  { apply (Hall cog key v); [|exact Hb | exact Hv].
    apply list_elem_of_lookup. now exists i. }
  now rewrite Hdiv in Hok.
Qed.
End CogErrors.

(* ===================================================================== *)
(** ** The empty slots of the board *)
(* ===================================================================== *)

Section Empties.
Context (cogs : list string).

(** The row a slot contributes: one row when it holds the blank marker. *)
Let slot_rows (x y : nat) : list (dict string jval) :=
  if decide (cogs !! (y * 12 + x)%nat = Some "Blank")
  then [empties_row x y] else [].

Lemma empties_scan_row (y : nat) (xs : list nat) :
  (forall x, x ∈ xs -> (y * 12 + x < length cogs)%nat) ->
  forall empties,
    foldM (fun empties x =>
             let i := (y * 12 + x)%nat in
             let* cog := py_index cogs i in
             if String.eqb cog "Blank"
             then Ok (empties ++ [empties_row x y])%list
             else Ok empties)
          xs empties
    = Ok (empties ++ flat_map (fun x => slot_rows x y) xs)%list.
Proof.
  set (body := fun (empties : list (dict string jval)) (x : nat) => _).
  induction xs as [|x xs IH]; intros Hin empties; cbn [foldM flat_map].
  - now rewrite app_nil_r.
  - assert (Hx : (y * 12 + x < length cogs)%nat) by (apply Hin; left).
    destruct (lookup_lt_is_Some_2 cogs _ Hx) as [cog Hcog].
    unfold body at 1, py_index. cbv zeta. rewrite Hcog. cbn [bind].
    unfold slot_rows at 1. rewrite Hcog.
    destruct (String.eqb_spec cog "Blank") as [->|Hne]; cbn [bind].
    + rewrite IH by (intros; apply Hin; now right).
      destruct (decide (Some "Blank" = Some "Blank")); [|congruence].
      now rewrite <- app_assoc.
    + rewrite IH by (intros; apply Hin; now right).
      destruct (decide (Some cog = Some "Blank")); [congruence|reflexivity].
Qed.

Lemma empties_scan_board (ys : list nat) :
  (forall y, y ∈ ys -> (y * 12 + 12 <= length cogs)%nat) ->
  forall empties,
    foldM (fun empties y =>
             foldM (fun empties x =>
                      let i := (y * 12 + x)%nat in
                      let* cog := py_index cogs i in
                      if String.eqb cog "Blank"
                      then Ok (empties ++ [empties_row x y])%list
                      else Ok empties)
                   (seq 0 12) empties)
          ys empties
    = Ok (empties ++
          flat_map (fun y => flat_map (fun x => slot_rows x y) (seq 0 12)) ys)%list.
Proof.
  induction ys as [|y ys IH]; intros Hin empties; cbn [foldM flat_map].
  - now rewrite app_nil_r.
  - rewrite empties_scan_row.
    + cbn [bind]. rewrite IH by (intros; apply Hin; now right).
      now rewrite <- app_assoc.
    + intros x Hx. apply elem_of_seq in Hx.
      specialize (Hin y (list_elem_of_here _ _)). lia.
Qed.

Lemma flat_map_reindex {A B C : Type} (f : A -> list B) (g : C -> list B)
    (h : A -> C) (l : list A) :
  (forall x, x ∈ l -> f x = g (h x)) ->
  flat_map f l = flat_map g (h <$> l).
Proof.
  induction l as [|x l IH]; intros Hfg; [reflexivity|].
  cbn [flat_map fmap list_fmap]. rewrite (Hfg x) by left. f_equal.
  apply IH. intros z Hz. apply Hfg. now right.
Qed.

(** Row-major enumeration of a grid is the enumeration of its linear
    positions. *)
Lemma grid_positions {B : Type} (F : nat -> nat -> list B) (rows cols : nat) :
  (0 < cols)%nat ->
  flat_map (fun y => flat_map (fun x => F x y) (seq 0 cols)) (seq 0 rows) =
  flat_map (fun p => F (p mod cols) (p / cols))%nat (seq 0 (rows * cols)).
Proof.
  intros Hcols. induction rows as [|rows IH]; [reflexivity|].
  rewrite seq_S, flat_map_app, IH. cbn [flat_map]. rewrite app_nil_r.
  replace (S rows * cols)%nat with (rows * cols + cols)%nat by lia.
  rewrite seq_app, flat_map_app. f_equal. cbn [Nat.add].
  replace (seq (rows * cols) cols) with (Nat.add (rows * cols) <$> seq 0 cols)
    by (rewrite fmap_add_seq; f_equal; lia).
  apply flat_map_reindex. intros x Hx. apply elem_of_seq in Hx.
  rewrite Nat.add_comm, Nat.Div0.mod_add, Nat.div_add by lia.
  rewrite Nat.mod_small, Nat.div_small by lia. reflexivity.
Qed.
End Empties.

Lemma flat_map_filter {A B : Type} (P Q : A -> Prop)
    `{forall x, Decision (P x)} `{forall x, Decision (Q x)}
    (r : A -> B) (l : list A) :
  (forall x, P x <-> Q x) ->
  flat_map (fun x => if decide (P x) then [r x] else []) l = map r (filter Q l).
Proof.
  intros HPQ. induction l as [|x l IH]; [reflexivity|].
  cbn [flat_map]. rewrite filter_cons, IH.
  destruct (decide (P x)) as [HP|HP], (decide (Q x)) as [HQ|HQ];
    try reflexivity; exfalso; apply HPQ in HP || apply HPQ in HQ; contradiction.
Qed.

Lemma filter_all {A : Type} (P : A -> Prop) `{forall x, Decision (P x)}
    (l : list A) :
  (forall x, x ∈ l -> P x) -> filter P l = l.
Proof.
  induction l as [|x l IH]; intros Hall; [reflexivity|].
  rewrite filter_cons_True by (apply Hall; left).
  f_equal. apply IH. intros z Hz. apply Hall. now right.
Qed.

Lemma filter_ext_in {A : Type} (P Q : A -> Prop)
    `{forall x, Decision (P x)} `{forall x, Decision (Q x)} (l : list A) :
  (forall x, x ∈ l -> (P x <-> Q x)) -> filter P l = filter Q l.
Proof.
  induction l as [|x l IH]; intros HPQ; [reflexivity|].
  rewrite !filter_cons, IH by (intros z Hz; apply HPQ; now right).
  destruct (decide (P x)) as [HP|HP], (decide (Q x)) as [HQ|HQ];
    try reflexivity; exfalso; apply HPQ in HP || apply HPQ in HQ;
    (contradiction || left).
Qed.

Lemma position_split (p : nat) : (p / 12 * 12 + p mod 12 = p)%nat.
Proof. pose proof (Nat.div_mod_eq p 12). lia. Qed.

Lemma get_empties_ok (cogs : list string) :
  (96 <= length cogs)%nat ->
  get_empties cogs =
  Ok (map (fun p => empties_row (p mod 12) (p / 12))
          (filter (fun p => cogs !! p = Some "Blank") (seq 0 96))).
Proof.
  intros Hlen. unfold get_empties.
  destruct (Nat.ltb_spec (length cogs) 96) as [Hlt|_]; [lia|].
  rewrite empties_scan_board.
  - cbn [app]. f_equal.
    rewrite (grid_positions
               (fun x y => if decide (cogs !! (y * 12 + x)%nat = Some "Blank")
                           then [empties_row x y] else []) 8 12) by lia.
    change (8 * 12)%nat with 96%nat.
    apply (flat_map_filter
             (fun p => cogs !! (p / 12 * 12 + p mod 12)%nat = Some "Blank")
             (fun p => cogs !! p = Some "Blank")
             (fun p => empties_row (p mod 12) (p / 12))).
    intros p. now rewrite position_split.
  - intros y Hy. apply elem_of_seq in Hy. lia.
Qed.

Lemma empties_row_inj (x y x' y' : nat) :
  empties_row x y = empties_row x' y' -> x = x' /\ y = y'.
Proof. unfold empties_row. intros [= Hx Hy]. lia. Qed.

(** C4, amended: a cog list with fewer than 96 entries makes [get_empties]
    raise the [ValueError] whatever the entries are, so that
    [to_cogstruction] returns no structure (and no empty-slot rows).  The
    structure fails with that very [ValueError] when the cog rows, which
    are built first, have been built, as they are when every boost value
    on the board can be divided by 100; otherwise it fails with the
    exception of the cog rows, the [TypeError] or the [OverflowError] of
    the division. *)
Theorem short_board_insufficient (cogs : list string) :
  (length cogs < 96)%nat ->
  get_empties cogs = Err ValueError /\
  forall (D : RefData) (e : Exporter),
    cog_order e = cogs ->
    (forall out, to_cogstruction D e <> Ok out) /\
    (forall rows, cog_rows D e = Ok rows ->
                  to_cogstruction D e = Err ValueError) /\
    (forall x, cog_rows D e = Err x ->
               to_cogstruction D e = Err x /\
               (x = TypeError \/ x = OverflowError)) /\
    ((forall cog key v,
        cog ∈ cog_map e -> key ∈ cog_boosts D -> dict_get cog key = Some v ->
        is_ok (py_div100 v) = true) ->
     to_cogstruction D e = Err ValueError).
Proof.
  intros Hlen.
  assert (Hfail : get_empties cogs = Err ValueError).
  { unfold get_empties. now destruct (Nat.ltb_spec (length cogs) 96); [|lia]. }
  split; [exact Hfail|]. intros D e <-. unfold to_cogstruction.
  split; [|split; [|split]].
  - intros out H. apply bind_ok_inv in H as (rows & _ & H).
    rewrite Hfail in H. discriminate.
  - intros rows ->. cbn [bind]. now rewrite Hfail.
  - intros x Hx. rewrite Hx. split; [reflexivity|].
    now apply cog_rows_error in Hx as [Hclass _].
  - intros Hall. apply (cog_rows_built D e) in Hall.
    destruct (cog_rows D e) as [rows|x]; [|discriminate Hall].
    cbn [bind]. now rewrite Hfail.
Qed.

(** C5: on a cog list of at least 96 entries [get_empties] returns, in
    row-major order, one row for each of the 96 board positions that holds
    the blank marker, with x = position mod 12 and y = position / 12; the
    rows are pairwise distinct, a pair (x, y) is among them exactly when
    x < 12, y < 8 and slot [y * 12 + x] is blank, and a board whose 96
    slots are all blank yields 96 rows.  Entries past the 96th are not
    board slots: they do not change the rows. *)
Theorem empties_cover_blank_slots (cogs : list string) :
  (96 <= length cogs)%nat ->
  exists rows,
    get_empties cogs = Ok rows /\
    rows = map (fun p => empties_row (p mod 12) (p / 12))
               (filter (fun p => cogs !! p = Some "Blank") (seq 0 96)) /\
    NoDup rows /\
    (forall x y, empties_row x y ∈ rows <->
                 (x < 12)%nat /\ (y < 8)%nat /\
                 cogs !! (y * 12 + x)%nat = Some "Blank") /\
    ((forall p, (p < 96)%nat -> cogs !! p = Some "Blank") ->
     length rows = 96%nat) /\
    (forall longer, take 96 longer = take 96 cogs ->
                    get_empties longer = Ok rows).
Proof.
  intros Hlen. eexists. split; [now apply get_empties_ok|].
  split; [reflexivity|]. split; [|split; [|split]]; cycle 3.
  - intros longer Htake.
    assert (Hlonger : (96 <= length longer)%nat).
    { apply (f_equal length) in Htake. rewrite !length_take in Htake. lia. }
    rewrite (get_empties_ok longer Hlonger). do 2 f_equal.
    apply filter_ext_in. intros p Hp. apply elem_of_seq in Hp.
    rewrite <- (lookup_take_lt longer 96 p), <- (lookup_take_lt cogs 96 p) by lia.
    now rewrite Htake.
  - apply (NoDup_fmap_2_strong (fun p => empties_row (p mod 12) (p / 12))).
    + intros p q _ _ Hpq. apply empties_row_inj in Hpq as [Hmod Hdiv].
      rewrite <- (position_split p), <- (position_split q). congruence.
    + apply NoDup_filter, NoDup_seq.
  - intros x y. rewrite list_elem_of_In, in_map_iff. split.
    + intros (p & Hrow & Hp). apply list_elem_of_In, list_elem_of_filter in Hp.
      destruct Hp as [Hblank Hp]. apply elem_of_seq in Hp.
      apply empties_row_inj in Hrow as [<- <-].
      rewrite position_split. repeat split; [| |exact Hblank].
      * apply Nat.mod_upper_bound. lia.
      * apply Nat.Div0.div_lt_upper_bound. lia.
    + intros (Hx & Hy & Hblank). exists (y * 12 + x)%nat. split.
      * rewrite Nat.add_comm, Nat.Div0.mod_add, Nat.div_add by lia.
        now rewrite Nat.mod_small, Nat.div_small by lia.
      * apply list_elem_of_In, list_elem_of_filter. split; [exact Hblank|].
        apply elem_of_seq. lia.
  - intros Hall. rewrite length_map.
    replace (filter (fun p => cogs !! p = Some "Blank") (seq 0 96)) with (seq 0 96);
      [apply length_seq|].
    symmetry. apply filter_all.
    intros p Hp. apply elem_of_seq in Hp. apply Hall. lia.
Qed.

(** C3: cog names are classified in priority order.  The blank marker has
    no type and no row; a name with the prefix ["Player_"] is a
    ["Character"]; the name ["CogY"] is the ["Yang_Cog"]; a name with the
    prefix ["CogZ"] is an ["Omni_Cog"]; any other name takes the type of
    the first entry of the directional table whose suffix it ends with,
    followed by ["_Cog"], and is a plain ["Cog"] when no suffix matches.
    The cog rows of the built structure are the rows of the slots that are
    not blank, in order. *)
Theorem cog_type_priority (D : RefData) (name : string) :
  (name = "Blank" ->
   get_cog_type D name = None /\
   forall cog, get_cog_data D cog name = Ok None) /\
  ((exists rest, name = "Player_" ++ rest) ->
   get_cog_type D name = Some "Character") /\
  (name = "CogY" -> get_cog_type D name = Some "Yang_Cog") /\
  ((exists rest, name = "CogZ" ++ rest) ->
   get_cog_type D name = Some "Omni_Cog") /\
  (name <> "Blank" -> ~ (exists rest, name = "Player_" ++ rest) ->
   name <> "CogY" -> ~ (exists rest, name = "CogZ" ++ rest) ->
   (forall before direction cog_type after,
      cog_type_map D = (before ++ (direction, cog_type) :: after)%list ->
      (exists stem, name = stem ++ direction) ->
      (forall d t, (d, t) ∈ before -> ~ exists stem, name = stem ++ d) ->
      get_cog_type D name = Some (cog_type ++ "_Cog")) /\
   ((forall d t, (d, t) ∈ cog_type_map D -> ~ exists stem, name = stem ++ d) ->
    get_cog_type D name = Some "Cog")) /\
  (forall e out,
     to_cogstruction D e = Ok out ->
     Forall2 (fun slot row => get_cog_data D slot.1 slot.2 = Ok (Some row))
             (filter (fun slot => slot.2 <> "Blank")
                     (zip (cog_map e) (cog_order e)))
             (cog_datas out)).
Proof.
  split; [|split; [|split; [|split; [|split; [intros Hblank Hplayer Hyang Homni; split|]]]]].
  - intros ->. split; [reflexivity | intros cog; reflexivity].
  - intros Hplayer. now apply get_cog_type_character.
  - intros ->. reflexivity.
  - intros [rest ->]. reflexivity.
  - intros before direction cog_type after Htable Hsuffix Hbefore.
    unfold get_cog_type.
    rewrite <- startswith_iff in Hplayer, Homni.
    apply String.eqb_neq in Hblank, Hyang. rewrite Hblank, Hyang.
    destruct (startswith name "Player_"); [now destruct Hplayer|].
    destruct (startswith name "CogZ"); [now destruct Homni|].
    now rewrite (directional_type_first name _ _ _ _ _ Htable Hsuffix Hbefore).
  - intros Hnone.
    unfold get_cog_type.
    rewrite <- startswith_iff in Hplayer, Homni.
    apply String.eqb_neq in Hblank, Hyang. rewrite Hblank, Hyang.
    destruct (startswith name "Player_"); [now destruct Hplayer|].
    destruct (startswith name "CogZ"); [now destruct Homni|].
    now rewrite (directional_type_none name _ Hnone).
  - intros e out H. unfold to_cogstruction in H.
    apply bind_ok_inv in H as (datas & Hrows & H).
    apply bind_ok_inv in H as (empties & _ & [= <-]). cbn [cog_datas].
    unfold cog_rows in Hrows. apply bind_ok_inv in Hrows as (rows & Hrows & [= <-]).
    now apply cog_rows_kept.
Qed.


Lemma cog_type_priority_witness :
  get_cog_type sample_data "Blank" = None /\
  get_cog_type sample_data "Player_Alice" = Some "Character" /\
  get_cog_type sample_data "CogY" = Some "Yang_Cog" /\
  get_cog_type sample_data "CogZfoo" = Some "Omni_Cog" /\
  get_cog_type sample_data "Cog1ro" = Some "Row_Cog" /\
  get_cog_type sample_data "Cog3A00" = Some "Cog".
Proof.
  split; [|split; [|split; [|split; [|split]]]].
  - apply (cog_type_priority sample_data "Blank"). reflexivity.
  - apply (cog_type_priority sample_data "Player_Alice"). now exists "Alice".
  - apply (cog_type_priority sample_data "CogY"). reflexivity.
  - apply (cog_type_priority sample_data "CogZfoo"). now exists "foo".
  - destruct (cog_type_priority sample_data "Cog1ro")
      as (_ & _ & _ & _ & Hregular & _).
    destruct Hregular as [Hfirst _].
    + discriminate.
    + intros [rest Hrest]. discriminate Hrest.
    + discriminate.
    + intros [rest Hrest]. discriminate Hrest.
    + apply (Hfirst [] "ro" "Row" [("co", "Col"); ("up", "Up")]).
      * reflexivity.
      * now exists "Cog1".
      * intros d t Hin. now apply elem_of_nil in Hin.
  - destruct (cog_type_priority sample_data "Cog3A00")
      as (_ & _ & _ & _ & Hregular & _).
    destruct Hregular as [_ Hplain].
    + discriminate.
    + intros [rest Hrest]. discriminate Hrest.
    + discriminate.
    + intros [rest Hrest]. discriminate Hrest.
    + apply Hplain. intros d t Hin Hsuffix. apply endswith_iff in Hsuffix.
      simpl in Hin.
      repeat (apply elem_of_cons in Hin as [Hin|Hin];
              [injection Hin as -> ->; vm_compute in Hsuffix; discriminate Hsuffix|]).
      now apply elem_of_nil in Hin.
Defined.



Lemma short_board_insufficient_witness :
  (length ["Blank"; "Cog1"; "Player_Alice"] < 96)%nat /\
  get_empties ["Blank"; "Cog1"; "Player_Alice"] = Err ValueError.
Proof.
  assert (Hlen : (length ["Blank"; "Cog1"; "Player_Alice"] < 96)%nat)
    by (simpl; lia).
  split; [exact Hlen|].
  exact (proj1 (short_board_insufficient _ Hlen)).
Defined.

(** A short board on which a boost holds a string: the structure fails with
    the [TypeError] of the cog row, not with the [ValueError] of the short
    board. *)
Lemma short_board_other_error :
  (length (cog_order (board_exporter ["Cog1"; "Blank"]
                                     [[("e", JStr "x")]; []])) < 96)%nat /\
  to_cogstruction sample_data
    (board_exporter ["Cog1"; "Blank"] [[("e", JStr "x")]; []])
  = Err TypeError /\
  to_cogstruction sample_data
    (board_exporter ["Cog1"; "Blank"] [[("e", JStr "x")]; []])
  <> Err ValueError.
Proof.
  split; [simpl; lia|]. split; [reflexivity|]. vm_compute. discriminate.
Qed.

Lemma empties_cover_blank_slots_witness :
  (96 <= length sample_cog_order)%nat /\
  exists rows, get_empties sample_cog_order = Ok rows /\ length rows = 91%nat.
Proof.
  assert (Hlen : (96 <= length sample_cog_order)%nat)
    by (apply Nat.leb_le; reflexivity).
  split; [exact Hlen|].
  destruct (empties_cover_blank_slots sample_cog_order Hlen)
    as (rows & Hget & Hrows & _).
  exists rows. split; [exact Hget|]. rewrite Hrows. reflexivity.
Defined.

(* ===================================================================== *)
(** ** Loops that fill a dictionary *)
(* ===================================================================== *)

Section DictLoops.
Context {A K V : Type} `{EqDecision K}.
Context (f : dict K V -> A -> result (dict K V)).
Context (keep : A -> bool) (g : A -> result (K * V)).

(** The shape of a comprehension [{key: value for x in l if keep(x)}] whose
    key or value may raise. *)
Hypothesis f_shape :
  forall acc x,
    f acc x = if keep x
              then bind (g x) (fun kv => Ok (dict_set acc kv.1 kv.2))
              else Ok acc.

Lemma foldM_dict_inv (l : list A) (acc out : dict K V) :
  foldM f l acc = Ok out ->
  exists pairs,
    Forall2 (fun x kv => g x = Ok kv) (List.filter keep l) pairs /\
    out = fold_left (fun d kv => dict_set d kv.1 kv.2) pairs acc.
Proof.
  revert acc. induction l as [|x l IH]; intros acc; cbn [foldM List.filter].
  - intros [= <-]. exists []. split; [constructor | reflexivity].
  - rewrite f_shape. destruct (keep x).
    + destruct (g x) as [kv|err] eqn:Hg; cbn [bind]; [|discriminate].
      intros H. destruct (IH _ H) as (pairs & Hpairs & ->).
      exists (kv :: pairs). split; [now constructor | reflexivity].
    + cbn [bind]. apply IH.
Qed.

Lemma foldM_dict_total (l : list A) (acc : dict K V) :
  (forall x, x ∈ l -> keep x = true -> is_ok (g x) = true) ->
  exists out, foldM f l acc = Ok out.
Proof.
  revert acc. induction l as [|x l IH]; intros acc Hok; cbn [foldM]; [eauto|].
  rewrite f_shape. destruct (keep x) eqn:Hkeep.
  - specialize (Hok x (list_elem_of_here _ _) Hkeep) as Hx.
    destruct (g x) as [kv|err]; [|discriminate]. cbn [bind].
    apply IH. intros z Hz. apply Hok. now right.
  - cbn [bind]. apply IH. intros z Hz. apply Hok. now right.
Qed.

End DictLoops.

Lemma Forall2_elem_of_l {A B : Type} (R : A -> B -> Prop) l k x :
  Forall2 R l k -> x ∈ l -> exists y, y ∈ k /\ R x y.
Proof.
  induction 1 as [|a b l k Hab _ IH]; intros Hx.
  - now apply elem_of_nil in Hx.
  - apply elem_of_cons in Hx as [->|Hx].
    + exists b. split; [left | exact Hab].
    + destruct (IH Hx) as (y & Hy & Hxy). exists y. split; [now right | exact Hxy].
Qed.

Lemma Forall2_elem_of_r {A B : Type} (R : A -> B -> Prop) l k y :
  Forall2 R l k -> y ∈ k -> exists x, x ∈ l /\ R x y.
Proof.
  induction 1 as [|a b l k Hab _ IH]; intros Hy.
  - now apply elem_of_nil in Hy.
  - apply elem_of_cons in Hy as [->|Hy].
    + exists a. split; [left | exact Hab].
    + destruct (IH Hy) as (x & Hx & Hxy). exists x. split; [now right | exact Hxy].
Qed.

Lemma elem_of_List_filter {A : Type} (p : A -> bool) (l : list A) (x : A) :
  x ∈ List.filter p l <-> x ∈ l /\ p x = true.
Proof. rewrite !list_elem_of_In. apply filter_In. Qed.

Lemma dict_value_unique {K V : Type} (d : dict K V) k v1 v2 :
  NoDup (dict_keys d) -> (k, v1) ∈ d -> (k, v2) ∈ d -> v1 = v2.
Proof.
  unfold dict_keys. induction d as [|[k0 v0] d IH]; simpl; intros Hnd H1 H2.
  - now apply elem_of_nil in H1.
  - apply NoDup_cons in Hnd as [Hk0 Hnd].
    assert (Hfresh : forall v, (k0, v) ∉ d).
    { intros v Hin. apply Hk0. apply list_elem_of_fmap. now exists (k0, v). }
    apply elem_of_cons in H1 as [H1|H1]; apply elem_of_cons in H2 as [H2|H2].
    + congruence.
    + injection H1 as -> ->. now destruct (Hfresh _ H2).
    + injection H2 as -> ->. now destruct (Hfresh _ H1).
    + now apply IH.
Qed.

(** Keys and values of a dictionary filled by a run of assignments. *)
Lemma dict_of_lookup_elem {K V : Type} `{EqDecision K}
    (pairs : list (K * V)) k v :
  dict_get (dict_of pairs) k = Some v -> (k, v) ∈ pairs.
Proof.
  unfold dict_of. rewrite dict_get_fold_set.
  destruct (dict_get (rev pairs) k) eqn:Hrev; [|discriminate].
  intros [= ->]. now apply dict_get_rev_Some.
Qed.

Lemma dict_of_lookup_key {K V : Type} `{EqDecision K}
    (pairs : list (K * V)) k v :
  (k, v) ∈ pairs -> exists v', dict_get (dict_of pairs) k = Some v' /\ (k, v') ∈ pairs.
Proof.
  intros Hin. unfold dict_of. rewrite dict_get_fold_set.
  destruct (dict_get (rev pairs) k) as [v'|] eqn:Hrev.
  - exists v'. split; [reflexivity | now apply dict_get_rev_Some].
  - apply dict_get_rev_None in Hrev. exfalso. apply Hrev.
    unfold dict_keys. apply list_elem_of_fmap. now exists (k, v).
Qed.

(* ===================================================================== *)
(** ** Cards *)
(* ===================================================================== *)

Lemma get_cardtier_cases (D : RefData) (name : string) (level tier : Z) :
  get_cardtier D name level = Ok tier <->
  exists req,
    card_reqs D name = Some req /\
    ((level = 0 /\ tier = 0) \/
     (level <> 0 /\ req * 9 <= level /\ tier = 4) \/
     (level <> 0 /\ level < req * 9 /\ req * 4 <= level /\ tier = 3) \/
     (level <> 0 /\ level < req * 9 /\ level < req * 4 /\ req <= level /\
      tier = 2) \/
     (level <> 0 /\ level < req * 9 /\ level < req * 4 /\ level < req /\
      tier = 1)).
Proof.
  unfold get_cardtier, subscript. destruct (card_reqs D name) as [req|]; cbn [bind].
  - split.
    + intros [= <-]. exists req. split; [reflexivity|].
      destruct (Z.eqb_spec level 0); [now left|].
      destruct (Z.leb_spec (req * 9) level); [lia|].
      destruct (Z.leb_spec (req * 4) level); [lia|].
      destruct (Z.leb_spec req level); lia.
    + intros (req' & [= <-] & Hcases). f_equal.
      destruct (Z.eqb_spec level 0); [lia|].
      destruct (Z.leb_spec (req * 9) level); [lia|].
      destruct (Z.leb_spec (req * 4) level); [lia|].
      destruct (Z.leb_spec req level); lia.
  - split; [discriminate | now intros (req & Hreq & _)].
Qed.

Section CardFacts.
Context (D : RefData).

Let card_entry (card : string * Z) : result (string * Z) :=
  let* display := subscript LookupError (monster_names D) card.1 in
  let* tier := get_cardtier D card.1 card.2 in
  Ok (display, tier).

Lemma card_entry_ok (name : string) (level : Z) (display : string) (tier : Z) :
  card_entry (name, level) = Ok (display, tier) <->
  monster_names D name = Some display /\ get_cardtier D name level = Ok tier.
Proof.
  unfold card_entry. cbn [fst snd]. unfold subscript at 1.
  destruct (monster_names D name) as [d|]; cbn [bind].
  - destruct (get_cardtier D name level) as [t|err]; cbn [bind];
      split; [intros [= -> ->] | intros [[= ->] [= ->]] | | ]; intuition congruence.
  - split; [discriminate | now intros [? _]].
Qed.

Lemma get_cards_shape (tiers : dict string Z) (card : string * Z) :
  (let '(name, level) := card in
   if 0 <? level then
     let* display := subscript LookupError (monster_names D) name in
     let* tier := get_cardtier D name level in
     Ok (dict_set tiers display tier)
   else Ok tiers)
  = if 0 <? card.2
    then bind (card_entry card) (fun kv => Ok (dict_set tiers kv.1 kv.2))
    else Ok tiers.
Proof.
  destruct card as [name level]. unfold card_entry. cbn [fst snd].
  destruct (0 <? level); [|reflexivity].
  destruct (subscript _ _ name); cbn [bind]; [|reflexivity].
  destruct (get_cardtier D name level); reflexivity.
Qed.

Lemma get_cards_mapping (e : Exporter) :
  NoDup (dict_keys (cards e)) ->
  (forall name level, (name, level) ∈ cards e -> 0 < level ->
     is_Some (card_reqs D name) /\ is_Some (monster_names D name)) ->
  (forall n1 l1 n2 l2 display,
     (n1, l1) ∈ cards e -> (n2, l2) ∈ cards e -> 0 < l1 -> 0 < l2 ->
     monster_names D n1 = Some display -> monster_names D n2 = Some display ->
     n1 = n2) ->
  exists out,
    get_cards D e = Ok out /\
    forall display tier,
      dict_get out display = Some tier <->
      exists name level,
        (name, level) ∈ cards e /\ 0 < level /\
        monster_names D name = Some display /\
        get_cardtier D name level = Ok tier.
Proof.
  intros Hkeys Htables Hinj. unfold get_cards.
  set (body := fun (tiers : dict string Z) (card : string * Z) => _).
  assert (Hshape : forall acc x,
             body acc x = if (fun card : string * Z => 0 <? card.2) x
                          then bind (card_entry x)
                                    (fun kv => Ok (dict_set acc kv.1 kv.2))
                          else Ok acc)
    by (intros acc x; apply get_cards_shape).
  destruct (foldM_dict_total body _ card_entry Hshape (cards e) []) as [out Hout].
  { intros [name level] Hin Hpos. cbn [snd] in Hpos. apply Z.ltb_lt in Hpos.
    destruct (Htables name level Hin Hpos) as [[req Hreq] [display Hdisplay]].
    unfold card_entry, get_cardtier, subscript. cbn [fst snd].
    now rewrite Hdisplay, Hreq. }
  exists out. split; [exact Hout|].
  destruct (foldM_dict_inv body _ card_entry Hshape _ _ _ Hout)
    as (pairs & Hpairs & ->).
  intros display tier. split.
  - intros Hget. apply dict_of_lookup_elem in Hget.
    destruct (Forall2_elem_of_r _ _ _ _ Hpairs Hget) as ([name level] & Hin & Hentry).
    apply elem_of_List_filter in Hin as [Hin Hpos]. cbn [snd] in Hpos.
    apply card_entry_ok in Hentry as [Hdisplay Htier].
    exists name, level. repeat split; try assumption. now apply Z.ltb_lt.
  - intros (name & level & Hin & Hpos & Hdisplay & Htier).
    assert (Hentry : card_entry (name, level) = Ok (display, tier))
      by now apply card_entry_ok.
    assert (Hkept : (name, level) ∈ List.filter (fun card : string * Z => 0 <? card.2) (cards e)).
    { apply elem_of_List_filter. split; [exact Hin | now apply Z.ltb_lt]. }
    destruct (Forall2_elem_of_l _ _ _ _ Hpairs Hkept) as (kv & Hkv & Hentry').
    rewrite Hentry in Hentry'. injection Hentry' as <-.
    destruct (dict_of_lookup_key _ _ _ Hkv) as (tier' & Hget & Hkv').
    fold (dict_of pairs). rewrite Hget. f_equal.
    destruct (Forall2_elem_of_r _ _ _ _ Hpairs Hkv') as ([name' level'] & Hin' & Hentry'').
    apply elem_of_List_filter in Hin' as [Hin' Hpos']. cbn [snd] in Hpos'.
    apply Z.ltb_lt in Hpos'.
    apply card_entry_ok in Hentry'' as [Hdisplay' Htier'].
    assert (name' = name) by (eapply Hinj; eauto). subst name'.
    assert (level' = level) by (eapply dict_value_unique; eauto). subst level'.
    congruence.
Qed.
End CardFacts.

(** C6: the cards mapping holds exactly the cards whose level is greater
    than 0, each under its display name with its tier, where the tier is
    0 for level 0, else 4 from nine times the requirement, else 3 from four
    times the requirement, else 2 from the requirement, else 1.  The
    reference tables are taken to cover the cards of the save and to give
    different cards different display names. *)
Theorem cards_tiers (D : RefData) (e : Exporter) :
  NoDup (dict_keys (cards e)) ->
  (forall name level, (name, level) ∈ cards e -> 0 < level ->
     is_Some (card_reqs D name) /\ is_Some (monster_names D name)) ->
  (forall n1 l1 n2 l2 display,
     (n1, l1) ∈ cards e -> (n2, l2) ∈ cards e -> 0 < l1 -> 0 < l2 ->
     monster_names D n1 = Some display -> monster_names D n2 = Some display ->
     n1 = n2) ->
  exists out,
    get_cards D e = Ok out /\
    (forall display tier,
       dict_get out display = Some tier <->
       exists name level req,
         (name, level) ∈ cards e /\ 0 < level /\
         monster_names D name = Some display /\
         card_reqs D name = Some req /\
         ((req * 9 <= level /\ tier = 4) \/
          (level < req * 9 /\ req * 4 <= level /\ tier = 3) \/
          (level < req * 4 /\ req <= level /\ tier = 2) \/
          (level < req /\ tier = 1))) /\
    (forall name req, card_reqs D name = Some req ->
                      get_cardtier D name 0 = Ok 0).
Proof.
  intros Hkeys Htables Hinj.
  destruct (get_cards_mapping D e Hkeys Htables Hinj) as (out & Hout & Hmap).
  exists out. split; [exact Hout|]. split.
  - intros display tier. rewrite Hmap. split.
    + intros (name & level & Hin & Hpos & Hdisplay & Htier).
      apply get_cardtier_cases in Htier as (req & Hreq & Hcases).
      exists name, level, req. repeat split; try assumption. intuition lia.
    + intros (name & level & req & Hin & Hpos & Hdisplay & Hreq & Hcases).
      exists name, level. repeat split; try assumption.
      apply get_cardtier_cases. exists req. split; [exact Hreq|]. intuition lia.
  - intros name req Hreq. apply get_cardtier_cases. exists req. intuition.
Qed.

Lemma cards_tiers_witness :
  exists out,
    get_cards sample_data sample_exporter = Ok out /\
    dict_get out "Green Mushroom" = Some 4 /\
    dict_get out "Bored Bean" = Some 1 /\
    dict_get out "Frog" = None.
Proof.
  destruct (cards_tiers sample_data sample_exporter) as (out & Hout & Hmap & _).
  - refine (bool_decide_unpack _ _). vm_compute. exact I.
  - intros name level Hin Hpos. simpl in Hin.
    repeat (apply elem_of_cons in Hin as [Hin|Hin];
            [injection Hin as -> ->; split; eexists; reflexivity|]).
    now apply elem_of_nil in Hin.
  - intros n1 l1 n2 l2 display H1 H2 Hp1 Hp2 Hd1 Hd2. simpl in H1, H2.
    repeat (apply elem_of_cons in H1 as [H1|H1];
            [injection H1 as -> ->;
             repeat (apply elem_of_cons in H2 as [H2|H2];
                     [injection H2 as -> ->;
                      first [reflexivity | lia
                            | vm_compute in Hd1, Hd2; congruence]|]);
             now apply elem_of_nil in H2|]).
    now apply elem_of_nil in H1.
  - exists out. split; [exact Hout|]. split; [|split].
    + apply Hmap. exists "mushG", 50, 5.
      split; [simpl; left|]. split; [lia|]. split; [reflexivity|].
      split; [reflexivity|]. left. split; [lia | reflexivity].
    + apply Hmap. exists "beanG", 6, 7.
      split; [simpl; right; right; left|]. split; [lia|]. split; [reflexivity|].
      split; [reflexivity|]. right. right. right. split; [lia | reflexivity].
    + vm_compute in Hout. injection Hout as <-. reflexivity.
Defined.

(* ===================================================================== *)
(** ** Player records *)
(* ===================================================================== *)

Section DictShape.
Context {K V : Type} `{EqDecision K}.

Lemma dict_keys_set (d : dict K V) k v :
  dict_keys (dict_set d k v) =
  if decide (k ∈ dict_keys d) then dict_keys d else (dict_keys d ++ [k])%list.
Proof.
  unfold dict_keys. induction d as [|[k0 v0] d IH]; simpl.
  - destruct (decide (k ∈ [])) as [Hin|]; [now apply elem_of_nil in Hin | reflexivity].
  - destruct (decide (k0 = k)) as [->|Hne]; simpl.
    + destruct (decide (k ∈ k :: map fst d)) as [|Hnot]; [reflexivity|].
      exfalso. apply Hnot. left.
    + rewrite IH. destruct (decide (k ∈ map fst d)) as [Hin|Hnot].
      * destruct (decide (k ∈ k0 :: map fst d)) as [|Hnot']; [reflexivity|].
        exfalso. apply Hnot'. now right.
      * destruct (decide (k ∈ k0 :: map fst d)) as [Hin'|]; [|reflexivity].
        apply elem_of_cons in Hin' as [->|Hin']; [congruence | contradiction].
Qed.

Lemma dict_set_NoDup (d : dict K V) k v :
  NoDup (dict_keys d) -> NoDup (dict_keys (dict_set d k v)).
Proof.
  intros Hnd. rewrite dict_keys_set.
  destruct (decide (k ∈ dict_keys d)) as [|Hnot]; [exact Hnd|].
  apply NoDup_app. split; [exact Hnd|]. split; [|apply NoDup_singleton].
  intros x Hx Hx'. apply list_elem_of_singleton in Hx'. congruence.
Qed.

Lemma fold_dict_set_NoDup (pairs : list (K * V)) (d : dict K V) :
  NoDup (dict_keys d) ->
  NoDup (dict_keys (fold_left (fun d kv => dict_set d kv.1 kv.2) pairs d)).
Proof.
  revert d. induction pairs as [|[k v] pairs IH]; intros d Hnd; simpl; [exact Hnd|].
  apply IH. now apply dict_set_NoDup.
Qed.

Lemma dict_get_rev_NoDup (d : dict K V) k :
  NoDup (dict_keys d) -> dict_get (rev d) k = dict_get d k.
Proof.
  intros Hnd. destruct (dict_get (rev d) k) as [v|] eqn:Hrev.
  - symmetry. apply dict_get_elem_NoDup; [exact Hnd|]. now apply dict_get_rev_Some.
  - symmetry. apply dict_get_None. now apply dict_get_rev_None.
Qed.
End DictShape.

Lemma build_char_inv (D : RefData) (e : Exporter) (name : string) (klass : Z)
    (stats : list Z) (starsigns : string) (skills : list Z)
    (bags : dict string jval) (carrycaps : dict string Z) (c : Char) :
  build_char D e name klass stats starsigns skills bags carrycaps = Ok c ->
  exists class lvl constellations signs pouches,
    get_classname D klass = Ok class /\
    py_index stats 4 = Ok lvl /\
    get_player_constellations D e name = Ok constellations /\
    parse_player_starsigns D starsigns = Ok signs /\
    get_pouches D carrycaps = Ok pouches /\
    c = {| char_name := name;
           char_class := class;
           char_level := lvl;
           char_constellations := constellations;
           char_starSigns := signs;
           char_skills := dict_of (drop 1 (zip (skill_names D) skills));
           char_items :=
             dict_union (from_keys_in D (bag_maps D INV) (dict_keys bags) true)
                        pouches |}.
Proof.
  unfold build_char. intros H.
  apply bind_ok_inv in H as (class & Hclass & H).
  apply bind_ok_inv in H as (lvl & Hlvl & H).
  apply bind_ok_inv in H as (constellations & Hconst & H).
  apply bind_ok_inv in H as (signs & Hsigns & H).
  apply bind_ok_inv in H as (pouches & Hpouches & [= <-]).
  now exists class, lvl, constellations, signs, pouches.
Qed.

Lemma in_range_iff (which lo hi : Z) :
  in_range which lo hi = true <-> lo <= which < hi.
Proof. unfold in_range. rewrite andb_true_iff, Z.leb_le, Z.ltb_lt. tauto. Qed.

Lemma in_range_false (which lo hi : Z) :
  ~ lo <= which < hi -> in_range which lo hi = false.
Proof.
  intros H. destruct (in_range which lo hi) eqn:Hin; [|reflexivity].
  now apply in_range_iff in Hin.
Qed.

Lemma get_baseclass_cases (which : Z) :
  (1 <= which <= 5 -> get_baseclass which = Ok 1) /\
  (forall base, base ∈ [7; 19; 31] -> base <= which < base + 7 ->
                get_baseclass which = Ok base) /\
  (~ 1 <= which <= 5 ->
   (forall base, base ∈ [7; 19; 31] -> ~ base <= which < base + 7) ->
   get_baseclass which = Err ValueError).
Proof.
  unfold get_baseclass, first_base. split; [|split].
  - intros H. now rewrite (proj2 (in_range_iff which 1 (5 + 1))) by lia.
  - intros base Hbase Hrange.
    rewrite (in_range_false which 1 (5 + 1))
      by (intros ?; set_unfold in Hbase; lia).
    set_unfold in Hbase. destruct Hbase as [->|[->|[->|[]]]].
    + now rewrite (proj2 (in_range_iff which 7 (7 + 6 + 1))) by lia.
    + rewrite (in_range_false which 7 (7 + 6 + 1)) by lia.
      now rewrite (proj2 (in_range_iff which 19 (19 + 6 + 1))) by lia.
    + rewrite (in_range_false which 7 (7 + 6 + 1)) by lia.
      rewrite (in_range_false which 19 (19 + 6 + 1)) by lia.
      now rewrite (proj2 (in_range_iff which 31 (31 + 6 + 1))) by lia.
  - intros Hstart Hbases.
    pose proof (Hbases 7 ltac:(set_solver)).
    pose proof (Hbases 19 ltac:(set_solver)).
    pose proof (Hbases 31 ltac:(set_solver)).
    rewrite (in_range_false which 1 (5 + 1)) by lia.
    rewrite (in_range_false which 7 (7 + 6 + 1)) by lia.
    rewrite (in_range_false which 19 (19 + 6 + 1)) by lia.
    now rewrite (in_range_false which 31 (31 + 6 + 1)) by lia.
Qed.

(** C1, amended: the ["class"] field of a built player record is the
    display name of the player's own class id: the name the class table
    gives for that id, underscores turned into spaces and title-cased.
    The base-class lookup, which sends ids 1-5 to 1 and the ids of the
    three 7-wide ranges from 7, 19 and 31 to the start of their range, is
    not applied to the id. *)
Theorem char_class_own_name (D : RefData) (e : Exporter) (name : string)
    (klass : Z) (stats : list Z) (starsigns : string) (skills : list Z)
    (bags : dict string jval) (carrycaps : dict string Z) (c : Char) :
  build_char D e name klass stats starsigns skills bags carrycaps = Ok c ->
  get_classname D klass = Ok (char_class c) /\
  (exists raw, class_names D klass = Some raw /\
               char_class c = title (replace_char "_" " " raw)) /\
  (forall which, 1 <= which <= 5 -> get_baseclass which = Ok 1) /\
  (forall which base, base ∈ [7; 19; 31] -> base <= which < base + 7 ->
                      get_baseclass which = Ok base).
Proof.
  intros Hbuild.
  apply build_char_inv in Hbuild
    as (class & lvl & consts & signs & pouches & Hclass & _ & _ & _ & _ & ->).
  cbn [char_class]. split; [exact Hclass|]. split; [|split].
  - unfold get_classname, subscript in Hclass.
    destruct (class_names D klass) as [raw|]; [|discriminate].
    injection Hclass as <-. now exists raw.
  - intros which. apply get_baseclass_cases.
  - intros which base. apply get_baseclass_cases.
Qed.

Lemma char_class_own_name_witness :
  exists c,
    build_char sample_data sample_exporter "Alice" 2 [1; 2; 3; 4; 42] "0,1,_"
               [10; 4; 3] [("0", JInt 1)] [("bCraft", 25)] = Ok c /\
    get_classname sample_data 2 = Ok (char_class c) /\
    char_class c = "Journeyman".
Proof.
  eexists. split; [vm_compute; reflexivity|].
  split; [|reflexivity].
  eapply (char_class_own_name sample_data sample_exporter "Alice" 2
            [1; 2; 3; 4; 42] "0,1,_" [10; 4; 3] [("0", JInt 1)]
            [("bCraft", 25)]).
  vm_compute. reflexivity.
Defined.

Lemma char_class_not_base_class :
  exists c,
    build_char sample_data sample_exporter "Alice" 2 [1; 2; 3; 4; 42] "0,1,_"
               [10; 4; 3] [("0", JInt 1)] [("bCraft", 25)] = Ok c /\
    char_class c = "Journeyman" /\
    get_baseclass 2 = Ok 1 /\
    get_classname sample_data 1 = Ok "Beginner" /\
    Ok (char_class c) <> get_classname sample_data 1.
Proof.
  eexists. split; [vm_compute; reflexivity|].
  split; [reflexivity|]. split; [reflexivity|]. split; [reflexivity|].
  vm_compute. discriminate.
Qed.

(* ===================================================================== *)
(** ** Pouches *)
(* ===================================================================== *)

Lemma pouch_key_cases (D : RefData) (itemtype : string) (stacksize : Z)
    (key : string) :
  pouch_key D itemtype stacksize = Ok key <->
  exists size display,
    key = size ++ " " ++ display ++ " " ++ "Pouch" /\
    pouch_names D itemtype = Some display /\
    ((stacksize = 25 /\ itemtype = "bCraft" /\ size = "Mini") \/
     (stacksize = 25 /\ itemtype = "Foods" /\ size = "Miniscule") \/
     (~ (stacksize = 25 /\ (itemtype = "bCraft" \/ itemtype = "Foods")) /\
      pouch_sizes D stacksize = Some size)).
Proof.
  unfold pouch_key, get_pouchsize.
  destruct (Z.eqb_spec stacksize 25) as [->|Hsize]; cbn [andb].
  - destruct (String.eqb_spec itemtype "bCraft") as [->|Hcraft].
    + cbn [bind]. unfold subscript. split.
      * destruct (pouch_names D "bCraft") as [display|]; [|discriminate].
        intros [= <-]. exists "Mini", display. intuition.
      * intros (size & display & -> & -> & [(_ & _ & ->)|[(_ & [=] & _)|(Hno & _)]]);
          [reflexivity | exfalso; apply Hno; auto].
    + destruct (String.eqb_spec itemtype "Foods") as [->|Hfood].
      * cbn [bind]. unfold subscript. split.
        -- destruct (pouch_names D "Foods") as [display|]; [|discriminate].
           intros [= <-]. exists "Miniscule", display. intuition.
        -- intros (size & display & -> & -> & [(_ & [=] & _)|[(_ & _ & ->)|(Hno & _)]]);
             [reflexivity | exfalso; apply Hno; auto].
      * unfold subscript. split.
        -- destruct (pouch_sizes D 25) as [size|]; [|discriminate]. cbn [bind].
           destruct (pouch_names D itemtype) as [display|]; [|discriminate].
           intros [= <-]. exists size, display. intuition.
        -- intros (size & display & -> & -> & [(_ & ? & _)|[(_ & ? & _)|(_ & ->)]]);
             (contradiction || reflexivity).
  - unfold subscript. split.
    + destruct (pouch_sizes D stacksize) as [size|]; [|discriminate]. cbn [bind].
      destruct (pouch_names D itemtype) as [display|]; [|discriminate].
      intros [= <-]. exists size, display. intuition.
    + intros (size & display & -> & -> & [(? & _)|[(? & _)|(_ & ->)]]);
        (contradiction || reflexivity).
Qed.

Section PouchFacts.
Context (D : RefData).

Let pouch_entry (cap : string * Z) : result (string * bool) :=
  let* key := pouch_key D cap.1 cap.2 in Ok (key, true).

Lemma get_pouches_shape (pouches : dict string bool) (cap : string * Z) :
  (let '(itemtype, stacksize) := cap in
   if 10 <? stacksize then
     let* key := pouch_key D itemtype stacksize in
     Ok (dict_set pouches key true)
   else Ok pouches)
  = if 10 <? cap.2
    then bind (pouch_entry cap) (fun kv => Ok (dict_set pouches kv.1 kv.2))
    else Ok pouches.
Proof.
  destruct cap as [itemtype stacksize]. unfold pouch_entry. cbn [fst snd].
  destruct (10 <? stacksize); [|reflexivity].
  destruct (pouch_key D itemtype stacksize); reflexivity.
Qed.

Lemma get_pouches_entries (carrycaps : dict string Z)
    (pouches : dict string bool) :
  get_pouches D carrycaps = Ok pouches ->
  NoDup (dict_keys pouches) /\
  (forall key value, dict_get pouches key = Some value -> value = true) /\
  (forall key, is_Some (dict_get pouches key) <->
     exists itemtype stacksize,
       (itemtype, stacksize) ∈ carrycaps /\ 10 < stacksize /\
       pouch_key D itemtype stacksize = Ok key).
Proof.
  unfold get_pouches.
  set (body := fun (pouches : dict string bool) (cap : string * Z) => _).
  assert (Hshape : forall acc x,
             body acc x = if (fun cap : string * Z => 10 <? cap.2) x
                          then bind (pouch_entry x)
                                    (fun kv => Ok (dict_set acc kv.1 kv.2))
                          else Ok acc)
    by (intros acc x; apply get_pouches_shape).
  intros Hout.
  destruct (foldM_dict_inv body _ pouch_entry Hshape _ _ _ Hout)
    as (pairs & Hpairs & ->).
  assert (Hentry : forall itemtype stacksize key value,
             pouch_entry (itemtype, stacksize) = Ok (key, value) <->
             pouch_key D itemtype stacksize = Ok key /\ value = true).
  { intros itemtype stacksize key value. unfold pouch_entry. cbn [fst snd].
    destruct (pouch_key D itemtype stacksize) as [k|err]; cbn [bind].
    - split; [intros [= -> <-]; auto | intros [[= ->] ->]; reflexivity].
    - split; [discriminate | now intros [? _]]. }
  split; [|split].
  - apply fold_dict_set_NoDup. constructor.
  - intros key value Hget. apply dict_of_lookup_elem in Hget.
    destruct (Forall2_elem_of_r _ _ _ _ Hpairs Hget) as ([itemtype stacksize] & _ & Hkv).
    now apply Hentry in Hkv.
  - intros key. split.
    + intros [value Hget]. apply dict_of_lookup_elem in Hget.
      destruct (Forall2_elem_of_r _ _ _ _ Hpairs Hget)
        as ([itemtype stacksize] & Hin & Hkv).
      apply elem_of_List_filter in Hin as [Hin Hbig]. cbn [snd] in Hbig.
      apply Hentry in Hkv as [Hkey _].
      exists itemtype, stacksize. repeat split; try assumption. now apply Z.ltb_lt.
    + intros (itemtype & stacksize & Hin & Hbig & Hkey).
      assert (Hkept : (itemtype, stacksize)
                        ∈ List.filter (fun cap : string * Z => 10 <? cap.2) carrycaps).
      { apply elem_of_List_filter. split; [exact Hin | now apply Z.ltb_lt]. }
      destruct (Forall2_elem_of_l _ _ _ _ Hpairs Hkept) as ([key' value] & Hkv & Hkv').
      apply Hentry in Hkv' as [Hkey' ->].
      assert (key' = key) by congruence. subst key'.
      destruct (dict_of_lookup_key _ _ _ Hkv) as (value' & Hget & _).
      exists value'. exact Hget.
Qed.
End PouchFacts.

(** C8: the items of a built player record are the inventory-bag items
    overlaid with the pouches.  There is a pouch entry, with value true, for
    each carry-capacity category whose stack size is greater than 10, and
    every pouch entry comes from such a category; every item is an
    inventory-bag item or a pouch.  A pouch is named by the size qualifier,
    the display name of the category and ["Pouch"], separated by spaces;
    the qualifier is ["Mini"] for ["bCraft"] at size 25, ["Miniscule"] for
    ["Foods"] at size 25, and the entry of the size table otherwise. *)
Theorem pouches_in_items (D : RefData) (e : Exporter) (name : string)
    (klass : Z) (stats : list Z) (starsigns : string) (skills : list Z)
    (bags : dict string jval) (carrycaps : dict string Z) (c : Char) :
  build_char D e name klass stats starsigns skills bags carrycaps = Ok c ->
  exists pouches,
    get_pouches D carrycaps = Ok pouches /\
    char_items c =
      dict_union (from_keys_in D (bag_maps D INV) (dict_keys bags) true)
                 pouches /\
    (forall key, is_Some (dict_get pouches key) <->
       exists itemtype stacksize,
         (itemtype, stacksize) ∈ carrycaps /\ 10 < stacksize /\
         pouch_key D itemtype stacksize = Ok key) /\
    (forall key, is_Some (dict_get pouches key) ->
                 dict_get (char_items c) key = Some true) /\
    (forall key, is_Some (dict_get (char_items c) key) ->
       is_Some (dict_get (from_keys_in D (bag_maps D INV) (dict_keys bags) true)
                         key) \/
       is_Some (dict_get pouches key)) /\
    (forall itemtype stacksize key,
       pouch_key D itemtype stacksize = Ok key <->
       exists size display,
         key = size ++ " " ++ display ++ " " ++ "Pouch" /\
         pouch_names D itemtype = Some display /\
         ((stacksize = 25 /\ itemtype = "bCraft" /\ size = "Mini") \/
          (stacksize = 25 /\ itemtype = "Foods" /\ size = "Miniscule") \/
          (~ (stacksize = 25 /\ (itemtype = "bCraft" \/ itemtype = "Foods")) /\
           pouch_sizes D stacksize = Some size))).
Proof.
  intros Hbuild.
  apply build_char_inv in Hbuild
    as (class & lvl & consts & signs & pouches & _ & _ & _ & _ & Hpouches & ->).
  cbn [char_items].
  destruct (get_pouches_entries D carrycaps pouches Hpouches)
    as (Hnd & Htrue & Hkeys).
  exists pouches. split; [exact Hpouches|]. split; [reflexivity|].
  split; [exact Hkeys|]. split; [|split].
  - intros key [value Hget]. rewrite dict_get_union.
    rewrite (dict_get_rev_NoDup pouches key Hnd), Hget.
    now rewrite (Htrue key value Hget).
  - intros key Hitem. rewrite dict_get_union in Hitem.
    rewrite (dict_get_rev_NoDup pouches key Hnd) in Hitem.
    destruct (dict_get pouches key) as [value|]; [right; eauto | now left].
  - intros itemtype stacksize key. apply pouch_key_cases.
Qed.

Lemma pouches_in_items_witness :
  exists c,
    build_char sample_data sample_exporter "Alice" 2 [1; 2; 3; 4; 42] "0,1,_"
               [10; 4; 3] [("0", JInt 1)]
               [("bCraft", 25); ("Foods", 25); ("Mining", 10)] = Ok c /\
    dict_get (char_items c) "Mini Materials Pouch" = Some true /\
    dict_get (char_items c) "Miniscule Food Pouch" = Some true /\
    char_items c = [("Inventory Bag A", true); ("Mini Materials Pouch", true);
                    ("Miniscule Food Pouch", true)].
Proof.
  destruct (build_char sample_data sample_exporter "Alice" 2 [1; 2; 3; 4; 42]
              "0,1,_" [10; 4; 3] [("0", JInt 1)]
              [("bCraft", 25); ("Foods", 25); ("Mining", 10)])
    as [c|err] eqn:Hbuild; [|vm_compute in Hbuild; discriminate Hbuild].
  destruct (pouches_in_items _ _ _ _ _ _ _ _ _ _ Hbuild)
    as (pouches & _ & _ & Hkeys & Hitems & _).
  exists c. split; [reflexivity|]. split; [|split].
  - apply Hitems, Hkeys. exists "bCraft", 25.
    split; [simpl; left|]. split; [lia | reflexivity].
  - apply Hitems, Hkeys. exists "Foods", 25.
    split; [simpl; right; left|]. split; [lia | reflexivity].
  - vm_compute in Hbuild. injection Hbuild as <-. reflexivity.
Defined.

(* ===================================================================== *)
(** ** Player codes and constellations *)
(* ===================================================================== *)

Lemma zip_keys {A B : Type} (l : list A) (k : list B) :
  dict_keys (zip l k) = take (length k) l.
Proof.
  unfold dict_keys. change (map fst (zip l k)) with ((zip l k).*1).
  rewrite <- (zip_with_take_l pair l k). apply fst_zip.
  rewrite length_take. lia.
Qed.

Section LastOccurrence.
Context {K V : Type} `{EqDecision K}.

Lemma dict_get_app_single (l : dict K V) (k0 : K) (v0 : V) (k : K) :
  dict_get (l ++ [(k0, v0)])%list k =
  match dict_get l k with
  | Some v => Some v
  | None => if decide (k0 = k) then Some v0 else None
  end.
Proof.
  induction l as [|[k1 v1] l IH]; simpl; [reflexivity|].
  destruct (decide (k1 = k)); [reflexivity | apply IH].
Qed.

(** Looking a key up in the reversed list finds its last entry. *)
Lemma dict_get_rev_last (l : dict K V) (k : K) (v : V) :
  dict_get (rev l) k = Some v <->
  exists i, l !! i = Some (k, v) /\
            forall j v', (i < j)%nat -> l !! j <> Some (k, v').
Proof.
  revert v. induction l as [|[k0 v0] l IH]; intros v.
  - simpl. split; [discriminate | now intros (i & Hi & _)].
  - cbn [rev]. rewrite dict_get_app_single.
    destruct (dict_get (rev l) k) as [w|] eqn:Hrev.
    + destruct (proj1 (IH w) eq_refl) as (i & Hi & Hlast). split.
      * intros [= <-]. exists (S i). split; [exact Hi|].
        intros [|j] v' Hj; [lia|]. cbn [lookup list_lookup]. apply Hlast. lia.
      * intros ([|i'] & Hi' & Hlast').
        -- exfalso. apply (Hlast' (S i) w); [lia | exact Hi].
        -- apply IH. exists i'. split; [exact Hi'|].
           intros j v' Hj. apply (Hlast' (S j) v'). lia.
    + apply dict_get_rev_None in Hrev.
      assert (Habsent : forall j v', l !! j <> Some (k, v')).
      { intros j v' Hj. apply Hrev. unfold dict_keys.
        apply list_elem_of_fmap. exists (k, v'). split; [reflexivity|].
        apply list_elem_of_lookup. now exists j. }
      destruct (decide (k0 = k)) as [->|Hne]; split.
      * intros [= <-]. exists 0%nat. split; [reflexivity|].
        intros [|j] v' Hj; [lia | apply Habsent].
      * intros ([|i] & Hi & _); [now injection Hi as -> | now destruct (Habsent i v)].
      * discriminate.
      * intros ([|i] & Hi & _); [injection Hi as ? ?; congruence
                                | now destruct (Habsent i v)].
Qed.
End LastOccurrence.

(** The code map is keyed by name: a name holds the code of the last of the
    first 27 positions at which it occurs. *)
Lemma char_map_last (e : Exporter) (name code : string) :
  dict_get (char_map e) name = Some code <->
  exists i,
    names e !! i = Some name /\
    chars_of ("_" ++ ascii_lowercase) !! i = Some code /\
    forall j, (i < j < 27)%nat -> names e !! j <> Some name.
Proof.
  assert (Hget : dict_get (char_map e) name
                 = dict_get (rev (zip (names e) (chars_of ("_" ++ ascii_lowercase))))
                            name).
  { unfold char_map, dict_of. rewrite dict_get_fold_set.
    now destruct (dict_get (rev _) name). }
  rewrite Hget, dict_get_rev_last. split.
  - intros (i & Hi & Hlast). apply lookup_zip_Some in Hi as [Hname Hcode].
    exists i. repeat split; try assumption.
    intros j [Hij Hj] Hname'.
    destruct (lookup_lt_is_Some_2 (chars_of ("_" ++ ascii_lowercase)) j Hj)
      as [code' Hcode'].
    apply (Hlast j code' Hij). now apply lookup_zip_Some.
  - intros (i & Hname & Hcode & Hlast). exists i.
    split; [now apply lookup_zip_Some|].
    intros j code' Hij Hj. apply lookup_zip_Some in Hj as [Hname' Hcode'].
    apply lookup_lt_Some in Hcode'. apply (Hlast j); [|exact Hname'].
    split; [exact Hij | exact Hcode'].
Qed.

(** A name that is not among the first 27 has no code. *)
Lemma char_map_missing (e : Exporter) (name : string) :
  name ∉ take 27 (names e) -> dict_get (char_map e) name = None.
Proof.
  intros Hmissing. unfold char_map, dict_of. rewrite dict_get_fold_set.
  assert (Hrev : dict_get (rev (zip (names e) (chars_of ("_" ++ ascii_lowercase))))
                          name = None).
  { apply dict_get_rev_None. now rewrite zip_keys. }
  now rewrite Hrev.
Qed.

Lemma elem_of_enumerate {A : Type} (l : list A) (j : nat) (x : A) :
  (j, x) ∈ enumerate l <-> l !! j = Some x.
Proof.
  unfold enumerate. rewrite list_elem_of_lookup. split.
  - intros [i Hi]. apply lookup_zip_Some in Hi as [Hseq Hx].
    apply lookup_seq in Hseq as [-> _]. exact Hx.
  - intros Hx. exists j. apply lookup_zip_Some. split; [|exact Hx].
    apply lookup_seq. split; [reflexivity|]. now apply lookup_lt_Some in Hx.
Qed.

Section ConstellationFacts.
Context (D : RefData) (e : Exporter) (charname : string).

Let marked (code : string) (entry : nat * (option string * Z)) : bool :=
  str_contains (default "" entry.2.1) code.

Let constellation_entry (entry : nat * (option string * Z))
  : result (string * bool) :=
  let* name := subscript LookupError (constellation_names D) entry.1 in
  Ok (name, true).

Lemma constellations_shape (code : string) :
  dict_get (char_map e) charname = Some code ->
  forall (done : dict string bool) (entry : nat * (option string * Z)),
    (let '(i, (chars, completed)) := entry in
     let* code := dict_item (char_map e) charname in
     if str_contains (default "" chars) code then
       let* name := subscript LookupError (constellation_names D) i in
       Ok (dict_set done name true)
     else Ok done)
    = if marked code entry
      then bind (constellation_entry entry)
                (fun kv => Ok (dict_set done kv.1 kv.2))
      else Ok done.
Proof.
  intros Hcode done [i [chars completed]].
  unfold dict_item, subscript at 1, marked, constellation_entry.
  rewrite Hcode. cbn [bind fst snd].
  destruct (str_contains (default "" chars) code); [|reflexivity].
  destruct (subscript _ _ i); reflexivity.
Qed.

Lemma constellations_of_code (code : ascii) :
  dict_get (char_map e) charname = Some (String code "") ->
  (forall j, (j < length (starsigns_prog e))%nat ->
             is_Some (constellation_names D j)) ->
  exists done,
    get_player_constellations D e charname = Ok done /\
    (forall cname value, dict_get done cname = Some value -> value = true) /\
    (forall cname,
       is_Some (dict_get done cname) <->
       exists j chars completed,
         starsigns_prog e !! j = Some (Some chars, completed) /\
         constellation_names D j = Some cname /\
         In code (list_ascii_of_string chars)).
Proof.
  intros Hcode Htable. unfold get_player_constellations.
  set (body := fun (done : dict string bool)
                   (entry : nat * (option string * Z)) => _).
  assert (Hshape : forall acc x,
             body acc x = if marked (String code "") x
                          then bind (constellation_entry x)
                                    (fun kv => Ok (dict_set acc kv.1 kv.2))
                          else Ok acc)
    by (intros acc x; now apply constellations_shape).
  assert (Hentry : forall j chars completed cname value,
             constellation_entry (j, (chars, completed)) = Ok (cname, value) <->
             constellation_names D j = Some cname /\ value = true).
  { intros j chars completed cname value.
    unfold constellation_entry, subscript. cbn [fst snd].
    destruct (constellation_names D j) as [n|]; cbn [bind].
    - split; [intros [= -> <-]; auto | intros [[= ->] ->]; reflexivity].
    - split; [discriminate | now intros [? _]]. }
  assert (Hmarked : forall j chars completed,
             marked (String code "") (j, (chars, completed)) = true <->
             exists s, chars = Some s /\ In code (list_ascii_of_string s)).
  { intros j chars completed. unfold marked. cbn [fst snd].
    destruct chars as [s|]; cbn [default].
    - rewrite str_contains_char. split; [eauto | now intros (s' & [= <-] & ?)].
    - split; [discriminate | now intros (s' & [=] & _)]. }
  destruct (foldM_dict_total body _ constellation_entry Hshape
                             (enumerate (starsigns_prog e)) []) as [done Hdone].
  { intros [j [chars completed]] Hin _. apply elem_of_enumerate in Hin.
    apply lookup_lt_Some in Hin.
    destruct (Htable j Hin) as [cname Hcname].
    unfold constellation_entry, subscript. cbn [fst snd]. now rewrite Hcname. }
  exists done. split; [exact Hdone|].
  destruct (foldM_dict_inv body _ constellation_entry Hshape _ _ _ Hdone)
    as (pairs & Hpairs & ->).
  split.
  - intros cname value Hget. apply dict_of_lookup_elem in Hget.
    destruct (Forall2_elem_of_r _ _ _ _ Hpairs Hget)
      as ([j [chars completed]] & _ & Hkv).
    now apply Hentry in Hkv.
  - intros cname. split.
    + intros [value Hget]. apply dict_of_lookup_elem in Hget.
      destruct (Forall2_elem_of_r _ _ _ _ Hpairs Hget)
        as ([j [chars completed]] & Hin & Hkv).
      apply elem_of_List_filter in Hin as [Hin Hmark].
      apply elem_of_enumerate in Hin. apply Hmarked in Hmark as (s & -> & Hs).
      apply Hentry in Hkv as [Hcname _]. now exists j, s, completed.
    + intros (j & chars & completed & Hj & Hcname & Hchars).
      assert (Hkept : (j, (Some chars, completed))
                        ∈ List.filter (marked (String code ""))
                                      (enumerate (starsigns_prog e))).
      { apply elem_of_List_filter. split; [now apply elem_of_enumerate|].
        apply Hmarked. eauto. }
      destruct (Forall2_elem_of_l _ _ _ _ Hpairs Hkept) as ([cname' value] & Hkv & Hkv').
      apply Hentry in Hkv' as [Hcname' ->].
      assert (cname' = cname) by congruence. subst cname'.
      destruct (dict_of_lookup_key _ _ _ Hkv) as (value' & Hget & _).
      exists value'. exact Hget.
Qed.

(** Without a code the first constellation entry raises; without any
    entry nothing is looked up. *)
Lemma constellations_without_code :
  dict_get (char_map e) charname = None ->
  get_player_constellations D e charname =
  match starsigns_prog e with
  | [] => Ok []
  | _ :: _ => Err KeyError
  end.
Proof.
  intros Hcode. unfold get_player_constellations, enumerate.
  destruct (starsigns_prog e) as [|[chars completed] prog]; [reflexivity|].
  cbn [length seq zip zip_with foldM].
  unfold dict_item, subscript. now rewrite Hcode.
Qed.
End ConstellationFacts.

(** C7, amended: the codes are given to the player names.  The name at
    position [i < 27] is given the [i]-th character of ["_"] followed by the
    lower-case alphabet (the sentinel ["_"] at the first position, the
    [k]-th letter after position [k]), and a name that occurs again keeps
    the code of its last position among the first 27: so a player whose
    name does not occur again at a later position, as every player when the
    names are pairwise distinct, has the code of the own position.  A
    constellation is marked (with value true) for the player exactly when
    its recorded completion string is present and that code occurs in it;
    an absent or an empty string marks nothing.  The constellation name
    table is taken to cover the progress list. *)
Theorem constellations_by_code (D : RefData) (e : Exporter) (i : nat)
    (name : string) :
  names e !! i = Some name ->
  (i < 27)%nat ->
  (forall j, (i < j < 27)%nat -> names e !! j <> Some name) ->
  (forall j, (j < length (starsigns_prog e))%nat ->
             is_Some (constellation_names D j)) ->
  exists code : ascii,
    list_ascii_of_string ("_" ++ "abcdefghijklmnopqrstuvwxyz") !! i = Some code /\
    (i = 0%nat -> code = "_"%char) /\
    (forall k, i = S k ->
               list_ascii_of_string "abcdefghijklmnopqrstuvwxyz" !! k = Some code) /\
    dict_get (char_map e) name = Some (String code "") /\
    exists done,
      get_player_constellations D e name = Ok done /\
      (forall cname value, dict_get done cname = Some value -> value = true) /\
      (forall cname,
         is_Some (dict_get done cname) <->
         exists j chars completed,
           starsigns_prog e !! j = Some (Some chars, completed) /\
           constellation_names D j = Some cname /\
           In code (list_ascii_of_string chars)).
Proof.
  intros Hname Hi Hlast Htable.
  destruct (lookup_lt_is_Some_2
              (list_ascii_of_string ("_" ++ "abcdefghijklmnopqrstuvwxyz")) i)
    as [code Hcode]; [exact Hi|].
  assert (Hmap : dict_get (char_map e) name = Some (String code "")).
  { apply char_map_last. exists i. split; [exact Hname|]. split; [|exact Hlast].
    unfold chars_of. change (map ?f ?l) with (f <$> l).
    rewrite list_lookup_fmap. unfold ascii_lowercase. now rewrite Hcode. }
  exists code. split; [exact Hcode|]. split; [|split; [|split]].
  - intros ->. now injection Hcode as <-.
  - intros k ->. exact Hcode.
  - exact Hmap.
  - now apply constellations_of_code.
Qed.

Lemma constellations_by_code_witness :
  exists done,
    get_player_constellations
      sample_data
      (crowded_exporter many_names
                        [(Some "_a", 1); (None, 0); (Some "xbx", 0)]) "C"
    = Ok done /\
    dict_get (char_map (crowded_exporter many_names [])) "A" = Some "_" /\
    dict_get (char_map (crowded_exporter many_names [])) "C" = Some "b" /\
    is_Some (dict_get done "A-3") /\
    done = [("A-3", true)].
Proof.
  destruct (constellations_by_code
              sample_data
              (crowded_exporter many_names
                        [(Some "_a", 1); (None, 0); (Some "xbx", 0)])
              2 "C")
    as (code & Hcode & _ & _ & _ & done & Hdone & _ & Hmarked).
  - reflexivity.
  - lia.
  - intros j Hj Hname.
    assert (Hlater : forall k, (3 <= k < 27)%nat ->
                               many_names !! k <> Some "C").
    { intros k Hk.
      do 3 (destruct k as [|k]; [lia|]).
      do 24 (destruct k as [|k]; [discriminate|]). lia. }
    apply (Hlater j); [lia | exact Hname].
  - intros j Hj. simpl in Hj.
    destruct j as [|[|[|j]]]; [eexists; reflexivity.. | lia].
  - exists done. split; [exact Hdone|].
    split; [reflexivity|]. split; [reflexivity|]. split.
    + apply Hmarked. exists 2%nat, "xbx", 0.
      split; [reflexivity|]. split; [reflexivity|].
      injection Hcode as <-. simpl. tauto.
    + vm_compute in Hdone. injection Hdone as <-. reflexivity.
Defined.

(** Two players of one name: the first player is not given the sentinel but
    the code of the third position, and is marked the constellation of the
    letter, not the one of the sentinel. *)
Lemma constellations_shared_name :
  names (crowded_exporter ["A"; "B"; "A"] [(Some "_", 1); (Some "b", 0)]) !! 0%nat
  = Some "A" /\
  dict_get (char_map (crowded_exporter ["A"; "B"; "A"]
                                       [(Some "_", 1); (Some "b", 0)])) "A"
  = Some "b" /\
  get_player_constellations
    sample_data
    (crowded_exporter ["A"; "B"; "A"] [(Some "_", 1); (Some "b", 0)]) "A"
  = Ok [("A-2", true)].
Proof. repeat split. Qed.

(* ===================================================================== *)
(** ** More than 27 players *)
(* ===================================================================== *)

Lemma mapM_result_first_error {A B : Type} (f : A -> result B)
    (l1 l2 : list A) (x : A) (err : exn) :
  (forall z, z ∈ l1 -> is_ok (f z) = true) ->
  f x = Err err ->
  mapM_result f (l1 ++ x :: l2)%list = Err err.
Proof.
  intros Hok Hx. rewrite mapM_result_app.
  destruct (mapM_result_all_ok f l1 Hok) as [ys ->]. cbn [bind mapM_result].
  now rewrite Hx.
Qed.

(** C10, amended: when the rows of [get_chars] hold a 28th player whose
    name is not among the first 27 names (as is the case for distinct
    names), the constellation progress list is not empty, the records of
    the first 27 players build and the class and level of the 28th are
    found, the constellation lookup of the 28th player raises [KeyError]
    and so does [get_chars].  With an empty progress list the code of a
    player is never looked up and the constellations are empty. *)
Theorem chars_fail_at_28th (D : RefData) (e : Exporter)
    (before after : list (string * Z * list Z * string * list Z
                          * dict string jval * dict string Z))
    (name : string) (klass : Z) (stats : list Z) (starsigns : string)
    (skills : list Z) (bags : dict string jval) (carrycaps : dict string Z) :
  player_rows e =
    (before ++ (name, klass, stats, starsigns, skills, bags, carrycaps)
            :: after)%list ->
  length before = 27%nat ->
  (forall row, row ∈ before -> is_ok (build_char_row D e row) = true) ->
  is_ok (get_classname D klass) = true ->
  (4 < length stats)%nat ->
  name ∉ take 27 (names e) ->
  starsigns_prog e <> [] ->
  get_player_constellations D e name = Err KeyError /\
  get_chars D e = Err KeyError /\
  (forall (e' : Exporter) (name' : string),
     name' ∉ take 27 (names e') -> starsigns_prog e' = [] ->
     get_player_constellations D e' name' = Ok []).
Proof.
  intros Hrows Hlen Hbefore Hclass Hstats Hname Hprog.
  assert (Hcode : dict_get (char_map e) name = None)
    by now apply char_map_missing.
  assert (Hconst : get_player_constellations D e name = Err KeyError).
  { rewrite (constellations_without_code D e name Hcode).
    now destruct (starsigns_prog e). }
  split; [exact Hconst|]. split.
  - unfold get_chars. rewrite Hrows.
    apply mapM_result_first_error; [exact Hbefore|].
    unfold build_char_row, build_char.
    destruct (get_classname D klass) as [class|]; [|discriminate]. cbn [bind].
    destruct (lookup_lt_is_Some_2 stats 4 Hstats) as [lvl Hlvl].
    unfold py_index. rewrite Hlvl. cbn [bind]. now rewrite Hconst.
  - intros e' name' Hname' Hprog'.
    rewrite (constellations_without_code D e' name')
      by now apply char_map_missing.
    now rewrite Hprog'.
Qed.

Lemma chars_fail_at_28th_witness :
  get_chars sample_data (crowded_exporter many_names [(Some "_a", 1)]) = Err KeyError.
Proof.
  pose (e := crowded_exporter many_names [(Some "_a", 1)]).
  refine (proj1 (proj2
    (chars_fail_at_28th sample_data e (take 27 (player_rows e)) []
       "b" 1 [1; 2; 3; 4; 42] "0,1,_" [10; 4; 3]
       [("0", JInt 1); ("100", JInt 1)]
       [("bCraft", 25); ("Foods", 25); ("Mining", 10)] _ _ _ _ _ _ _))).
  - vm_compute. reflexivity.
  - vm_compute. reflexivity.
  - apply Forall_forall. refine (bool_decide_unpack _ _). vm_compute. exact I.
  - vm_compute. reflexivity.
  - simpl. lia.
  - refine (bool_decide_unpack _ _). vm_compute. exact I.
  - discriminate.
Defined.

Lemma chars_built_for_28_players :
  (27 < length (player_rows (crowded_exporter many_names [])))%nat /\
  (exists chars,
     get_chars sample_data (crowded_exporter many_names []) = Ok chars /\
     length chars = 28%nat) /\
  (27 < length (player_rows (crowded_exporter repeated_names
                                              [(Some "_a", 1%Z)])))%nat /\
  (exists chars,
     get_chars sample_data (crowded_exporter repeated_names [(Some "_a", 1)])
     = Ok chars /\
     length chars = 28%nat).
Proof.
  split; [vm_compute; lia|].
  split; [eexists; split; [vm_compute; reflexivity | reflexivity]|].
  split; [vm_compute; lia|].
  eexists. split; [vm_compute; reflexivity | reflexivity].
Qed.

(* ===================================================================== *)
(** ** Further properties: classes, tiers and formats *)
(* ===================================================================== *)

Lemma in_range_cases (which lo hi : Z) :
  (in_range which lo hi = true /\ lo <= which < hi) \/
  (in_range which lo hi = false /\ ~ lo <= which < hi).
Proof.
  destruct (in_range which lo hi) eqn:Hin.
  - left. split; [reflexivity | now apply in_range_iff].
  - right. split; [reflexivity|]. intros H. apply in_range_iff in H. congruence.
Qed.

(** X1: [get_baseclass] answers with one of the four bases 1, 7, 19, 31, the
    base of the range the id lies in, and a base is its own base; it raises
    [ValueError], and nothing else, exactly on the ids outside the four
    ranges: those below 1, the id 6, 14 to 18, 26 to 30, and those from 38
    on. *)
Theorem get_baseclass_ranges (which : Z) :
  (forall base,
     get_baseclass which = Ok base ->
     ((base = 1 /\ 1 <= which <= 5) \/
      (base ∈ [7; 19; 31] /\ base <= which < base + 7)) /\
     get_baseclass base = Ok base) /\
  (forall x,
     get_baseclass which = Err x ->
     x = ValueError /\
     (which < 1 \/ which = 6 \/ 14 <= which <= 18 \/ 26 <= which <= 30 \/
      38 <= which)) /\
  (which < 1 \/ which = 6 \/ 14 <= which <= 18 \/ 26 <= which <= 30 \/
   38 <= which ->
   get_baseclass which = Err ValueError).
Proof.
  unfold get_baseclass, first_base.
  destruct (in_range_cases which 1 (5 + 1)) as [[Hin ?]|[Hin ?]];
    rewrite Hin; clear Hin;
    [|destruct (in_range_cases which 7 (7 + 6 + 1)) as [[Hin ?]|[Hin ?]];
      rewrite Hin; clear Hin;
      [|destruct (in_range_cases which 19 (19 + 6 + 1)) as [[Hin ?]|[Hin ?]];
        rewrite Hin; clear Hin;
        [|destruct (in_range_cases which 31 (31 + 6 + 1)) as [[Hin ?]|[Hin ?]];
          rewrite Hin; clear Hin]]].
  all: split; [|split]; try (intros; discriminate); try (intros; lia).
  - intros base [= <-]. split; [left; lia | reflexivity].
  - intros base [= <-].
    split; [right; split; [rewrite !elem_of_cons; auto | lia] | reflexivity].
  - intros base [= <-].
    split; [right; split; [rewrite !elem_of_cons; auto | lia] | reflexivity].
  - intros base [= <-].
    split; [right; split; [rewrite !elem_of_cons; auto | lia] | reflexivity].
  - intros x [= <-]. split; [reflexivity | lia].
  - reflexivity.
Qed.

Lemma get_baseclass_ranges_witness :
  get_baseclass 23 = Ok 19 /\ get_baseclass 19 = Ok 19 /\
  get_baseclass 6 = Err ValueError.
Proof.
  destruct (get_baseclass_ranges 23) as (Hbase & _ & _).
  destruct (Hbase 19 eq_refl) as [_ Hfixed].
  destruct (get_baseclass_ranges 6) as (_ & _ & Hgap).
  split; [reflexivity|]. split; [exact Hfixed|]. apply Hgap. lia.
Defined.

(** X2: for a card of the requirement table, the tier lies between 0 and 4,
    it is 0 only at level 0, and over the levels from 0 upwards it never
    decreases when the level grows; a negative level has tier 1 or more. *)
Theorem cardtier_monotone (D : RefData) (name : string) (l1 l2 t1 t2 : Z) :
  get_cardtier D name l1 = Ok t1 ->
  get_cardtier D name l2 = Ok t2 ->
  0 <= t1 <= 4 /\
  (t1 = 0 <-> l1 = 0) /\
  (0 <= l1 <= l2 -> t1 <= t2) /\
  (l1 < 0 -> 1 <= t1).
Proof.
  intros H1 H2.
  apply get_cardtier_cases in H1 as (req & Hreq & Hc1).
  apply get_cardtier_cases in H2 as (req' & Hreq' & Hc2).
  assert (req' = req) by congruence. subst req'. lia.
Qed.

Lemma cardtier_monotone_witness :
  get_cardtier sample_data "mushG" 4 = Ok 1 /\
  get_cardtier sample_data "mushG" 20 = Ok 3 /\
  (1 <= 3).
Proof.
  split; [reflexivity|]. split; [reflexivity|].
  apply (cardtier_monotone sample_data "mushG" 4 20 1 3); [reflexivity.. | lia].
Defined.

Lemma foldM_skip {A B : Type} (f : B -> A -> result B) (keep : A -> bool)
    (l : list A) :
  (forall acc x, keep x = false -> f acc x = Ok acc) ->
  forall acc, foldM f (List.filter keep l) acc = foldM f l acc.
Proof.
  intros Hskip. induction l as [|x l IH]; intros acc; [reflexivity|].
  cbn [List.filter foldM]. destruct (keep x) eqn:Hx.
  - cbn [foldM]. destruct (f acc x); [apply IH | reflexivity].
  - rewrite (Hskip acc x Hx). cbn [bind]. apply IH.
Qed.

(** X3: cards that are not owned (level 0 or below) do not take part in
    [get_cards]: removing them from the save changes neither the mapping
    nor the exception, their names are never looked up in the tables, and a
    save without an owned card gives the empty mapping. *)
Theorem get_cards_skips_unowned (D : RefData) (e owned : Exporter) :
  cards owned = List.filter (fun card : string * Z => 0 <? card.2) (cards e) ->
  get_cards D owned = get_cards D e /\
  ((forall name level, (name, level) ∈ cards e -> level <= 0) ->
   get_cards D e = Ok []).
Proof.
  intros Howned.
  assert (Hskip : forall (acc : dict string Z) (card : string * Z),
             (0 <? card.2) = false ->
             (let '(name, level) := card in
              if 0 <? level then
                let* display := subscript LookupError (monster_names D) name in
                let* tier := get_cardtier D name level in
                Ok (dict_set acc display tier)
              else Ok acc) = Ok acc).
  { intros acc [name level] Hlevel. cbn [snd] in Hlevel. now rewrite Hlevel. }
  split.
  - unfold get_cards. rewrite Howned. now apply foldM_skip.
  - unfold get_cards.
    rewrite <- (foldM_skip _ (fun card : string * Z => 0 <? card.2) _ Hskip).
    generalize (cards e). intros l Hnone.
    replace (List.filter (fun card : string * Z => 0 <? card.2) l)
      with (@nil (string * Z)); [reflexivity|].
    symmetry. induction l as [|[name level] l IH]; [reflexivity|].
    cbn [List.filter snd].
    assert (Hle : level <= 0) by (apply (Hnone name); left).
    destruct (Z.ltb_spec 0 level); [lia|].
    apply IH. intros n lv Hin. apply (Hnone n). now right.
Qed.

Lemma get_cards_skips_unowned_witness :
  get_cards sample_data
            (local_attributes one_player_save [("mushG", 50); ("beanG", 6)])
  = get_cards sample_data sample_exporter.
Proof.
  apply (get_cards_skips_unowned sample_data sample_exporter). reflexivity.
Defined.

(** X4: [Formats.lookup] inverts the value of a member: the value of a
    member is looked up to that member, and a key that is looked up to a
    member is its value.  For any other key it returns [None], with which
    [export] raises [ValueError] and leaves the working directory as it
    was. *)
Theorem formats_lookup_value (D : RefData) (W : Writers) (key : string) :
  (forall member, Formats_lookup (Formats_value member) = Some member) /\
  (forall member, Formats_lookup key = Some member ->
                  key = Formats_value member) /\
  (key <> "idleon_companion" -> key <> "cogstruction" ->
   Formats_lookup key = None /\
   forall e (workdir : workdir_state),
     export D W e (Formats_lookup key) workdir = (workdir, Err ValueError)).
Proof.
  split; [|split].
  - now intros [|].
  - unfold Formats_lookup. cbn [List.find Formats_value].
    destruct (String.eqb_spec "idleon_companion" key) as [<-|];
      [now intros member [= <-]|].
    destruct (String.eqb_spec "cogstruction" key) as [<-|];
      [now intros member [= <-]|].
    discriminate.
  - intros Hic Hcog.
    assert (Hnone : Formats_lookup key = None).
    { unfold Formats_lookup. cbn [List.find Formats_value].
      destruct (String.eqb_spec "idleon_companion" key); [congruence|].
      destruct (String.eqb_spec "cogstruction" key); [congruence|].
      reflexivity. }
    split; [exact Hnone|]. intros e workdir. now rewrite Hnone.
Qed.

Lemma formats_lookup_value_witness :
  Formats_lookup "cogstruction" = Some COG /\
  Formats_lookup "Cogstruction" = None.
Proof.
  split.
  - apply (proj1 (formats_lookup_value sample_data sample_writers "") COG).
  - destruct (formats_lookup_value sample_data sample_writers "Cogstruction")
      as (_ & _ & Hnone).
    apply Hnone; discriminate.
Defined.

(* ===================================================================== *)
(** ** Further properties: the cog tables *)
(* ===================================================================== *)

Section CogHeader.
Context (D : RefData) (cog : dict string jval).

Lemma cog_fields_keys (table : dict string string) :
  forall data row,
    foldM (cog_field D cog) table data = Ok row ->
    dict_keys row =
    fold_left (fun keys (entry : string * string) =>
                 if decide (entry.2 ∈ keys) then keys
                 else (keys ++ [entry.2])%list)
              table (dict_keys data).
Proof.
  induction table as [|[key field] table IH]; intros data row; cbn [foldM fold_left].
  - now intros [= <-].
  - destruct (cog_field_result D cog data key field)
      as [[value ->]|(v & x & -> & _)]; [|discriminate].
    cbn [bind snd]. intros Hrow. rewrite (IH _ _ Hrow). now rewrite dict_keys_set.
Qed.
End CogHeader.

(** X5: every row [get_cog_data] builds has the same columns in the same
    order, whatever the cog holds and whatever its name: the two fixed
    columns first, then the fields of the bonus table.  So all the cog rows
    of a built structure share the header that the writer takes from the
    first row. *)
Theorem cog_rows_share_header (D : RefData) (cog1 cog2 : dict string jval)
    (name1 name2 : string) (row1 row2 : dict string jval) :
  get_cog_data D cog1 name1 = Ok (Some row1) ->
  get_cog_data D cog2 name2 = Ok (Some row2) ->
  dict_keys row1 = dict_keys row2 /\
  take 2 (dict_keys row1) = ["cog type"; "name"] /\
  (forall e out r1 r2,
     to_cogstruction D e = Ok out ->
     r1 ∈ cog_datas out -> r2 ∈ cog_datas out ->
     dict_keys r1 = dict_keys r2).
Proof.
  assert (Hkeys : forall cog name row,
             get_cog_data D cog name = Ok (Some row) ->
             dict_keys row =
             fold_left (fun keys (entry : string * string) =>
                          if decide (entry.2 ∈ keys) then keys
                          else (keys ++ [entry.2])%list)
                       (cog_datas_map D) ["cog type"; "name"]).
  { intros cog name row. unfold get_cog_data.
    destruct (get_cog_type D name) as [ty|]; [|discriminate].
    intros H. apply bind_ok_inv in H as (data & Hdata & [= <-]).
    now rewrite (cog_fields_keys D cog _ _ _ Hdata). }
  intros H1 H2. split; [|split].
  - now rewrite (Hkeys _ _ _ H1), (Hkeys _ _ _ H2).
  - rewrite (Hkeys _ _ _ H1).
    assert (Hgrow : forall (table : dict string string) (keys : list string),
               take 2 (fold_left
                         (fun keys (entry : string * string) =>
                            if decide (entry.2 ∈ keys) then keys
                            else (keys ++ [entry.2])%list)
                         table ("cog type" :: "name" :: keys))
               = ["cog type"; "name"]).
    { induction table as [|[key field] table IH]; intros keys; [reflexivity|].
      cbn [fold_left snd].
      destruct (decide (field ∈ "cog type" :: "name" :: keys)); apply IH. }
    apply (Hgrow _ []).
  - intros e out r1 r2 Hout Hr1 Hr2. unfold to_cogstruction in Hout.
    apply bind_ok_inv in Hout as (datas & Hrows & Hout).
    apply bind_ok_inv in Hout as (empties & _ & [= <-]). cbn [cog_datas] in *.
    unfold cog_rows in Hrows.
    apply bind_ok_inv in Hrows as (rows & Hrows & [= <-]).
    apply cog_rows_kept in Hrows.
    destruct (Forall2_elem_of_r _ _ _ _ Hrows Hr1) as (s1 & _ & Hs1).
    destruct (Forall2_elem_of_r _ _ _ _ Hrows Hr2) as (s2 & _ & Hs2).
    now rewrite (Hkeys _ _ _ Hs1), (Hkeys _ _ _ Hs2).
Qed.

Lemma cog_rows_share_header_witness :
  exists row1 row2,
    get_cog_data sample_data [("a", JInt 7); ("e", JInt 50)] "CogZfoo"
      = Ok (Some row1) /\
    get_cog_data sample_data [] "Player_Alice" = Ok (Some row2) /\
    dict_keys row1 = dict_keys row2.
Proof.
  eexists. eexists. split; [vm_compute; reflexivity|].
  split; [vm_compute; reflexivity|].
  refine (proj1 (cog_rows_share_header
                   sample_data [("a", JInt 7); ("e", JInt 50)] []
                   "CogZfoo" "Player_Alice" _ _ _ _));
    vm_compute; reflexivity.
Defined.

(** X6: the only exceptions [get_cog_data] lets through are those of the
    division by 100, for a cog that is not blank and holds under a boost key
    of the bonus table a value that cannot be divided: [TypeError] when the
    value is no number ([None], a string, a list or a dict), [OverflowError]
    when it is an integer of at least [100 * 2 ^ 1023] in absolute value,
    and such an integer from [100 * 2 ^ 1024] on always overflows.  A
    missing key never raises, and the blank marker returns [None] whatever
    the cog holds. *)
Theorem cog_data_division_errors (D : RefData) (cog : dict string jval)
    (name : string) :
  (forall x,
     get_cog_data D cog name = Err x ->
     name <> "Blank" /\
     exists key field v,
       (key, field) ∈ cog_datas_map D /\ key ∈ cog_boosts D /\
       dict_get cog key = Some v /\ py_div100 v = Err x /\
       ((x = TypeError /\
         (v = JNull \/ (exists s, v = JStr s) \/
          (exists items, v = JList items) \/
          (exists items, v = JDict items))) \/
        (x = OverflowError /\
         exists z, v = JInt z /\ 100 * 2 ^ 1023 <= Z.abs z))) /\
  (name <> "Blank" ->
   (exists key field v,
      (key, field) ∈ cog_datas_map D /\ key ∈ cog_boosts D /\
      dict_get cog key = Some v /\
      (v = JNull \/ (exists s, v = JStr s) \/
       (exists items, v = JList items) \/ (exists items, v = JDict items) \/
       (exists z, v = JInt z /\ 100 * 2 ^ 1024 <= Z.abs z))) ->
   get_cog_data D cog name = Err TypeError \/
   get_cog_data D cog name = Err OverflowError) /\
  (name = "Blank" -> get_cog_data D cog name = Ok None).
Proof.
  split; [|split].
  - intros x Hx.
    apply get_cog_data_error in Hx
      as (Hname & key & field & v & Hin & Hb & Hv & Hdiv).
    split; [exact Hname|]. exists key, field, v.
    repeat (split; [assumption|]). now apply py_div100_error.
  - intros Hname (key & field & v & Hin & Hb & Hv & Hbad).
    assert (Hdiv : is_ok (py_div100 v) = false).
    { destruct Hbad as [->|[[s ->]|[[items ->]|[[items ->]|(z & -> & Hz)]]]];
        try reflexivity.
      cbn [py_div100]. now rewrite (int_true_div_beyond_range z Hz). }
    destruct (get_cog_data D cog name) as [r|x] eqn:Hr.
    + exfalso. unfold get_cog_data in Hr.
      destruct (get_cog_type D name) as [ty|] eqn:Hty;
        [|now apply get_cog_type_blank in Hty].
      assert (Hloop : exists k f w,
                 (k, f) ∈ cog_datas_map D /\ k ∈ cog_boosts D /\
                 dict_get cog k = Some w /\ is_ok (py_div100 w) = false)
        by now exists key, field, v.
      match type of Hr with
      | context [foldM ?f ?t ?d] =>
          pose proof (cog_fields_bad D cog t Hloop d) as Hfail;
          destruct (foldM f t d)
      end; [discriminate Hfail | discriminate Hr].
    + apply get_cog_data_error in Hr
        as (_ & k & f & w & _ & _ & _ & Hw).
      destruct (py_div100_error w x Hw) as [[-> _]|[-> _]]; auto.
  - intros ->. reflexivity.
Qed.

Lemma cog_data_division_errors_witness :
  get_cog_data sample_data [("a", JStr "x"); ("e", JNull)] "Cog1ro"
  = Err TypeError /\
  get_cog_data sample_data [("e", JInt (10 ^ 400))] "Cog1ro"
  = Err OverflowError.
Proof.
  destruct (cog_data_division_errors sample_data
              [("a", JStr "x"); ("e", JNull)] "Cog1ro") as (Hnull & Hbad & _).
  destruct (cog_data_division_errors sample_data
              [("e", JInt (10 ^ 400))] "Cog1ro") as (Hbig & Hbad' & _).
  split.
  - destruct Hbad as [Herr|Herr]; [discriminate| | exact Herr |].
    + exists "e", "build_rate_boost", JNull.
      split; [simpl; right; right; left|]. split; [simpl; left|].
      split; [reflexivity | now left].
    + destruct (Hnull _ Herr)
        as (_ & key & field & v & Hin & _ & Hv & _ & [[Hx _]|(_ & z & -> & _)]);
        [discriminate Hx|].
      simpl in Hin.
      repeat (apply elem_of_cons in Hin as [Hin|Hin];
              [injection Hin as -> ->; vm_compute in Hv; discriminate Hv|]).
      now apply elem_of_nil in Hin.
  - destruct Hbad' as [Herr|Herr]; [discriminate| | | exact Herr].
    + exists "e", "build_rate_boost", (JInt (10 ^ 400)).
      split; [simpl; right; right; left|]. split; [simpl; left|].
      split; [reflexivity|]. do 4 right. exists (10 ^ 400).
      split; [reflexivity|]. vm_compute. discriminate.
    + destruct (Hbig _ Herr)
        as (_ & key & field & v & Hin & _ & Hv & _ & [(_ & Hv')|[Hx _]]);
        [|discriminate Hx].
      simpl in Hin.
      repeat (apply elem_of_cons in Hin as [Hin|Hin];
              [injection Hin as -> ->; vm_compute in Hv;
               try discriminate Hv; injection Hv as <-;
               destruct Hv' as [Hv'|[[s Hv']|[[l Hv']|[l Hv']]]];
               discriminate Hv'|]).
      now apply elem_of_nil in Hin.
Defined.

Lemma length_filter_split {A : Type} (P : A -> Prop) `{forall x, Decision (P x)}
    (l : list A) :
  (length (filter P l) + length (filter (fun x => ~ P x) l) = length l)%nat.
Proof.
  induction l as [|x l IH]; [reflexivity|].
  rewrite !filter_cons.
  destruct (decide (P x)), (decide (~ P x)); simpl; (lia || contradiction).
Qed.

Lemma length_filter_zip_snd {A B : Type} (P : B -> Prop)
    `{forall y, Decision (P y)} (k : list B) :
  forall l : list A,
    (length k <= length l)%nat ->
    length (filter (fun slot : A * B => P slot.2) (zip l k))
    = length (filter P k).
Proof.
  induction k as [|y k IH]; intros l Hlen.
  - now destruct l.
  - destruct l as [|x l]; [simpl in Hlen; lia|].
    cbn [zip zip_with]. rewrite !filter_cons. cbn [snd].
    destruct (decide (P y)); simpl; rewrite IH by (simpl in Hlen; lia);
      reflexivity.
Qed.

Lemma length_filter_positions {A : Type} `{EqDecision A} (b : A) (l : list A) :
  forall j,
    length (filter (fun p => l !! (p - j)%nat = Some b) (seq j (length l)))
    = length (filter (fun x => x = b) l).
Proof.
  induction l as [|a l IH]; intros j; [reflexivity|].
  cbn [length seq]. rewrite !filter_cons. rewrite Nat.sub_diag. cbn [lookup list_lookup].
  assert (Htail : filter (fun p => (a :: l) !! (p - j)%nat = Some b) (seq (S j) (length l))
                  = filter (fun p => l !! (p - S j)%nat = Some b) (seq (S j) (length l))).
  { apply filter_ext_in. intros p Hp. apply elem_of_seq in Hp.
    replace (p - j)%nat with (S (p - S j)) by lia. reflexivity. }
  rewrite Htail.
  destruct (decide (Some a = Some b)) as [[= ->]|Hne], (decide _) as [?|?];
    simpl; rewrite IH; (reflexivity || congruence).
Qed.

Lemma length_filter_from_start {A : Type} `{EqDecision A} (b : A)
    (l : list A) :
  length (filter (fun p => l !! p = Some b) (seq 0 (length l)))
  = length (filter (fun x => x = b) l).
Proof.
  rewrite <- (length_filter_positions b l 0). f_equal.
  apply filter_ext_in. intros p _. now rewrite Nat.sub_0_r.
Qed.

Lemma cog_rows_blank (D : RefData) (slots : list (dict string jval * string)) :
  (forall slot, slot ∈ slots -> slot.2 = "Blank") ->
  exists rows,
    mapM_result (fun '(cog, name) => get_cog_data D cog name) slots = Ok rows /\
    omap id (List.filter truthy rows) = [].
Proof.
  induction slots as [|[cog name] slots IH]; intros Hblank.
  - exists []. now split.
  - destruct IH as (rows & Hrows & Hnone).
    { intros slot Hin. apply Hblank. now right. }
    assert (Hname : name = "Blank") by (apply (Hblank (cog, name)); left).
    subst name. exists (None :: rows). cbn [mapM_result].
    rewrite Hrows. split; [reflexivity | exact Hnone].
Qed.

(** X7: on a board of exactly 96 slots, each with its cog data, every slot
    gives one row: the cog rows and the empty-slot rows of the built
    structure are 96 together. *)
Theorem cogstruction_rows_cover_board (D : RefData) (e : Exporter)
    (out : Cogstruction) :
  length (cog_order e) = 96%nat ->
  (96 <= length (cog_map e))%nat ->
  to_cogstruction D e = Ok out ->
  (length (cog_datas out) + length (empties_datas out) = 96)%nat.
Proof.
  intros Horder Hmap Hout. unfold to_cogstruction in Hout.
  apply bind_ok_inv in Hout as (datas & Hrows & Hout).
  apply bind_ok_inv in Hout as (empties & Hempties & [= <-]).
  cbn [cog_datas empties_datas].
  unfold cog_rows in Hrows. apply bind_ok_inv in Hrows as (rows & Hrows & [= <-]).
  apply cog_rows_kept, Forall2_length in Hrows. rewrite <- Hrows.
  rewrite get_empties_ok in Hempties by lia.
  assert (Hemp : empties =
                 map (fun p => empties_row (p mod 12) (p / 12))
                     (filter (fun p => cog_order e !! p = Some "Blank")
                             (seq 0 96)))
    by congruence.
  rewrite Hemp, length_map.
  pose proof (length_filter_zip_snd (fun name : string => name <> "Blank")
                (cog_order e) (cog_map e) ltac:(lia)) as Hzip.
  cbv beta in Hzip. rewrite Hzip.
  pose proof (length_filter_from_start "Blank" (cog_order e)) as Hpos.
  rewrite Horder in Hpos. rewrite Hpos.
  pose proof (length_filter_split (fun name : string => name = "Blank")
                                  (cog_order e)) as Hsplit.
  cbv beta in Hsplit. lia.
Qed.

Lemma cogstruction_rows_cover_board_witness :
  exists out,
    to_cogstruction sample_data sample_exporter = Ok out /\
    (length (cog_datas out) + length (empties_datas out) = 96)%nat.
Proof.
  destruct (to_cogstruction sample_data sample_exporter) as [out|err] eqn:Hout;
    [|vm_compute in Hout; discriminate Hout].
  exists out. split; [reflexivity|].
  apply (cogstruction_rows_cover_board sample_data sample_exporter out);
    [reflexivity | vm_compute; lia | exact Hout].
Defined.

(** X8: a board that holds nothing but the blank marker has no cog row, and
    its export to the cogstruction format stops at the header of the first
    table: it raises [IndexError], leaves [cog_datas.csv] empty and does not
    reach [empties_datas.csv]. *)
Theorem export_blank_board (D : RefData) (W : Writers) (e : Exporter)
    (workdir : workdir_state) :
  (96 <= length (cog_order e))%nat ->
  (forall name, name ∈ cog_order e -> name = "Blank") ->
  cog_rows D e = Ok [] /\
  export D W e (Some COG) workdir
  = (<["cog_datas.csv" := ""]> workdir, Err IndexError).
Proof.
  intros Hlen Hblank.
  assert (Hrows : cog_rows D e = Ok []).
  { unfold cog_rows.
    destruct (cog_rows_blank D (zip (cog_map e) (cog_order e)))
      as (rows & -> & Hnone).
    - intros [cog name] Hin. apply elem_of_zip_r in Hin. now apply Hblank.
    - cbn [bind]. now rewrite Hnone. }
  split; [exact Hrows|].
  cbn [export]. unfold save_cogstruction, to_cogstruction.
  rewrite Hrows, get_empties_ok by exact Hlen. reflexivity.
Qed.

Lemma export_blank_board_witness :
  export sample_data sample_writers
         (board_exporter (replicate 96 "Blank") (replicate 96 [])) (Some COG) ∅
  = (<["cog_datas.csv" := ""]> ∅, Err IndexError).
Proof.
  apply (export_blank_board sample_data sample_writers).
  - vm_compute. lia.
  - intros name Hin. now apply elem_of_replicate in Hin.
Defined.

Lemma filter_none {A : Type} (P : A -> Prop) `{forall x, Decision (P x)}
    (l : list A) :
  (forall x, x ∈ l -> ~ P x) -> filter P l = [].
Proof.
  induction l as [|x l IH]; intros Hnone; [reflexivity|].
  rewrite filter_cons_False by (apply Hnone; left).
  apply IH. intros z Hz. apply Hnone. now right.
Qed.

(** X9: on a board without a blank slot the export to the cogstruction
    format writes the cog table and then stops at the header of the
    empty-slot table: it raises [IndexError] and leaves
    [empties_datas.csv] empty. *)
Theorem export_full_board (D : RefData) (W : Writers) (e : Exporter)
    (workdir : workdir_state) (row : dict string jval)
    (rows : list (dict string jval)) :
  (96 <= length (cog_order e))%nat ->
  (forall p, (p < 96)%nat -> cog_order e !! p <> Some "Blank") ->
  cog_rows D e = Ok (row :: rows) ->
  get_empties (cog_order e) = Ok [] /\
  export D W e (Some COG) workdir
  = (<["empties_datas.csv" := ""]>
       (<["cog_datas.csv" := csv_dump W (row :: rows)]> workdir),
     Err IndexError).
Proof.
  intros Hlen Hfull Hrows.
  assert (Hempties : get_empties (cog_order e) = Ok []).
  { rewrite get_empties_ok by exact Hlen.
    rewrite filter_none; [reflexivity|].
    intros p Hp. apply elem_of_seq in Hp. apply Hfull. lia. }
  split; [exact Hempties|].
  cbn [export]. unfold save_cogstruction, to_cogstruction.
  rewrite Hrows, Hempties. cbn [bind cog_datas empties_datas].
  unfold write_table. cbn [String.append]. now rewrite insert_insert_eq.
Qed.

Lemma export_full_board_witness :
  exists content,
    export sample_data sample_writers
           (board_exporter (replicate 96 "CogY") (replicate 96 []))
           (Some COG) ∅
    = (<["empties_datas.csv" := ""]> (<["cog_datas.csv" := content]> ∅),
       Err IndexError).
Proof.
  destruct (cog_rows sample_data
              (board_exporter (replicate 96 "CogY") (replicate 96 [])))
    as [[|row rows]|err] eqn:Hrows;
    [vm_compute in Hrows; discriminate Hrows | | vm_compute in Hrows; discriminate Hrows].
  eexists.
  apply (export_full_board sample_data sample_writers _ ∅ row rows).
  - vm_compute. lia.
  - intros p Hp Hblank.
    apply list_elem_of_lookup_2, elem_of_replicate in Hblank as [Hblank _].
    discriminate Hblank.
  - exact Hrows.
Defined.

(** X10: a cog order shorter than 96 entries makes the export to the
    cogstruction format fail before any file is opened: the working
    directory is left as it was.  The exception is the [ValueError] of the
    short board exactly when the cog rows build; otherwise it is the
    exception of the cog rows, the [TypeError] or the [OverflowError] of a
    boost value that cannot be divided by 100. *)
Theorem export_short_board (D : RefData) (W : Writers) (e : Exporter)
    (workdir : workdir_state) :
  (length (cog_order e) < 96)%nat ->
  exists x,
    export D W e (Some COG) workdir = (workdir, Err x) /\
    (x = ValueError \/ x = TypeError \/ x = OverflowError) /\
    (x = ValueError <-> is_ok (cog_rows D e) = true) /\
    (forall y, cog_rows D e = Err y -> x = y).
Proof.
  intros Hlen. cbn [export]. unfold save_cogstruction, to_cogstruction.
  assert (Hshort : get_empties (cog_order e) = Err ValueError).
  { unfold get_empties. now destruct (Nat.ltb_spec (length (cog_order e)) 96); [|lia]. }
  destruct (cog_rows D e) as [rows|err] eqn:Hrows; cbn [bind is_ok].
  - rewrite Hshort. exists ValueError. split; [reflexivity|].
    split; [now left|]. split; [tauto | discriminate].
  - apply cog_rows_error in Hrows as [Hclass _]. exists err.
    split; [reflexivity|]. split; [tauto|]. split; [|now intros y [= <-]].
    split; [|discriminate]. intros ->. now destruct Hclass.
Qed.

Lemma export_short_board_witness :
  export sample_data sample_writers
         (board_exporter ["CogY"; "Blank"] [[]; []]) (Some COG) ∅
  = (∅, Err ValueError) /\
  export sample_data sample_writers
         (board_exporter ["Cog1"; "Blank"] [[("e", JInt (10 ^ 400))]; []])
         (Some COG) ∅
  = (∅, Err OverflowError).
Proof.
  destruct (export_short_board sample_data sample_writers
              (board_exporter ["CogY"; "Blank"] [[]; []]) ∅)
    as (x & Hexport & _ & Hrows & _); [simpl; lia|].
  destruct (export_short_board sample_data sample_writers
              (board_exporter ["Cog1"; "Blank"] [[("e", JInt (10 ^ 400))]; []])
              ∅)
    as (y & Hexport' & _ & _ & Herr); [simpl; lia|].
  split.
  - rewrite Hexport. f_equal. f_equal. apply Hrows. vm_compute. reflexivity.
  - rewrite Hexport'. f_equal. f_equal. apply Herr. vm_compute. reflexivity.
Defined.

(* ===================================================================== *)
(** ** Further properties: player records *)
(* ===================================================================== *)

Section Separators.
Context (chars : string).

Lemma lstrip_all (s : string) :
  (forall c, In c (list_ascii_of_string s) -> char_in c chars = true) ->
  forall t, lstrip chars (s ++ t) = lstrip chars t.
Proof.
  induction s as [|c s IH]; intros Hall t; [reflexivity|].
  cbn [String.append lstrip]. rewrite (Hall c) by now left.
  apply IH. intros d Hd. apply Hall. now right.
Qed.

Lemma rstrip_all (s : string) :
  (forall c, In c (list_ascii_of_string s) -> char_in c chars = true) ->
  rstrip chars s = "".
Proof.
  induction s as [|c s IH]; intros Hall; [reflexivity|].
  cbn [rstrip]. rewrite IH by (intros d Hd; apply Hall; now right).
  now rewrite (Hall c) by now left.
Qed.

Lemma rstrip_app_all (s trail : string) :
  (forall c, In c (list_ascii_of_string trail) -> char_in c chars = true) ->
  rstrip chars (s ++ trail) = rstrip chars s.
Proof.
  intros Hall. induction s as [|c s IH]; cbn [String.append rstrip].
  - now apply rstrip_all.
  - now rewrite IH.
Qed.

Lemma rstrip_kept (body : string) (last : ascii) :
  char_in last chars = false ->
  rstrip chars (body ++ String last "") = body ++ String last "".
Proof.
  intros Hlast. induction body as [|c body IH]; cbn [String.append rstrip].
  - now rewrite Hlast.
  - rewrite IH. now destruct body.
Qed.
End Separators.

Lemma char_in_separators (c : ascii) :
  char_in c ",_" = true <-> c = ","%char \/ c = "_"%char.
Proof.
  unfold char_in. cbn [list_ascii_of_string existsb].
  rewrite !orb_true_iff, !Ascii.eqb_eq. intuition discriminate.
Qed.

(** X11: [parse_player_starsigns] ignores the separators [","] and ["_"]
    around the codes, and a code string that holds nothing but separators
    (the empty string too) raises [ValueError], for what is left is the
    empty string, which is no number. *)
Theorem starsigns_separators (D : RefData) :
  (forall s,
     (forall c, In c (list_ascii_of_string s) -> c = ","%char \/ c = "_"%char) ->
     parse_player_starsigns D s = Err ValueError) /\
  (forall lead trail body first rest last,
     (forall c, In c (list_ascii_of_string lead) -> c = ","%char \/ c = "_"%char) ->
     (forall c, In c (list_ascii_of_string trail) -> c = ","%char \/ c = "_"%char) ->
     String first rest = body ++ String last "" ->
     first <> ","%char -> first <> "_"%char ->
     last <> ","%char -> last <> "_"%char ->
     parse_player_starsigns D (lead ++ String first rest ++ trail)
     = parse_player_starsigns D (String first rest)).
Proof.
  split.
  - intros s Hall. unfold parse_player_starsigns, strip.
    assert (Hsep : forall c, In c (list_ascii_of_string s) -> char_in c ",_" = true)
      by (intros c Hc; now apply char_in_separators, Hall).
    assert (Hl : lstrip ",_" s = "").
    { clear Hall. induction s as [|c s IH]; [reflexivity|].
      cbn [lstrip]. rewrite (Hsep c) by now left.
      apply IH. intros d Hd. apply Hsep. now right. }
    rewrite Hl. reflexivity.
  - intros lead trail body first rest last Hlead Htrail Hcore Hf1 Hf2 Hl1 Hl2.
    unfold parse_player_starsigns, strip.
    assert (Hfirst : char_in first ",_" = false).
    { destruct (char_in first ",_") eqn:H; [|reflexivity].
      apply char_in_separators in H as [?|?]; contradiction. }
    assert (Hlast : char_in last ",_" = false).
    { destruct (char_in last ",_") eqn:H; [|reflexivity].
      apply char_in_separators in H as [?|?]; contradiction. }
    rewrite lstrip_all
      by (intros c Hc; now apply char_in_separators, Hlead).
    cbn [String.append lstrip]. rewrite Hfirst.
    change (String first (rest ++ trail)) with (String first rest ++ trail).
    rewrite rstrip_app_all
      by (intros c Hc; now apply char_in_separators, Htrail).
    reflexivity.
Qed.

Lemma starsigns_separators_witness :
  parse_player_starsigns sample_data "_,_" = Err ValueError /\
  parse_player_starsigns sample_data ",0,1,_" =
  parse_player_starsigns sample_data "0,1".
Proof.
  destruct (starsigns_separators sample_data) as [Hnone Hstrip]. split.
  - apply Hnone. simpl. intuition.
  - apply (Hstrip "," ",_" "0," "0"%char ",1" "1"%char);
      try discriminate; try reflexivity; simpl; intuition.
Defined.

(** X12: the skills of a player record leave out the first skill name, which
    is no skill: with pairwise distinct skill names, the first name is no
    key, and the keys are the names at the positions from 1 on that have a
    level, each with the level at its position. *)
Theorem skills_drop_first (D : RefData) (e : Exporter) (name : string)
    (klass : Z) (stats : list Z) (starsigns : string) (skills : list Z)
    (bags : dict string jval) (carrycaps : dict string Z) (c : Char) :
  build_char D e name klass stats starsigns skills bags carrycaps = Ok c ->
  NoDup (skill_names D) ->
  (forall first, skill_names D !! 0%nat = Some first ->
                 dict_get (char_skills c) first = None) /\
  (forall skill lvl,
     dict_get (char_skills c) skill = Some lvl <->
     exists j, skill_names D !! S j = Some skill /\ skills !! S j = Some lvl).
Proof.
  intros Hbuild Hnd.
  apply build_char_inv in Hbuild
    as (class & lvl0 & consts & signs & pouches & _ & _ & _ & _ & _ & ->).
  cbn [char_skills]. rewrite zip_with_drop.
  assert (Hkeys : dict_keys (zip (drop 1 (skill_names D)) (drop 1 skills))
                  = take (length (drop 1 skills)) (drop 1 (skill_names D)))
    by apply zip_keys.
  assert (Hnd' : NoDup (dict_keys (zip (drop 1 (skill_names D)) (drop 1 skills)))).
  { rewrite Hkeys. eapply sublist_NoDup; [|apply sublist_take].
    eapply sublist_NoDup; [exact Hnd | apply sublist_drop]. }
  change (zip_with pair (drop 1 (skill_names D)) (drop 1 skills))
    with (zip (drop 1 (skill_names D)) (drop 1 skills)).
  rewrite (dict_of_NoDup _ Hnd'). split.
  - intros first Hfirst. apply dict_get_None. rewrite Hkeys.
    intros Hin. apply elem_of_take in Hin as (i & Hi & _).
    rewrite lookup_drop in Hi.
    pose proof (proj1 (NoDup_alt (skill_names D)) Hnd _ _ _ Hfirst Hi) as Heq.
    discriminate Heq.
  - intros skill lvl. split.
    + intros Hget. apply dict_get_Some_elem, list_elem_of_lookup in Hget as [j Hj].
      apply lookup_zip_Some in Hj as [Hs Hl].
      rewrite lookup_drop in Hs. rewrite lookup_drop in Hl.
      now exists j.
    + intros (j & Hs & Hl). apply dict_get_elem_NoDup; [exact Hnd'|].
      apply list_elem_of_lookup. exists j. apply lookup_zip_Some.
      now rewrite !lookup_drop.
Qed.

Lemma skills_drop_first_witness :
  exists c,
    build_char sample_data sample_exporter "Alice" 2 [1; 2; 3; 4; 42] "0,1,_"
               [10; 4; 3] [("0", JInt 1)] [("bCraft", 25)] = Ok c /\
    dict_get (char_skills c) "character" = None /\
    dict_get (char_skills c) "smithing" = Some 3.
Proof.
  destruct (build_char sample_data sample_exporter "Alice" 2 [1; 2; 3; 4; 42]
              "0,1,_" [10; 4; 3] [("0", JInt 1)] [("bCraft", 25)])
    as [c|err] eqn:Hbuild; [|vm_compute in Hbuild; discriminate Hbuild].
  destruct (skills_drop_first _ _ _ _ _ _ _ _ _ _ Hbuild) as [Hfirst Hrest].
  - refine (bool_decide_unpack _ _). vm_compute. exact I.
  - exists c. split; [reflexivity|]. split.
    + now apply Hfirst.
    + apply Hrest. now exists 1%nat.
Defined.

(** X13: the code map is keyed by player name.  A name holds the code of
    the last of the first 27 positions at which it occurs, so of two players
    of the same name both are given the code of the later one; a name that
    does not occur among the first 27 has no code; and the map never has
    more than 27 entries. *)
Theorem char_map_last_occurrence (e : Exporter) (name : string) :
  (forall code,
     dict_get (char_map e) name = Some code <->
     exists i,
       names e !! i = Some name /\
       chars_of ("_" ++ ascii_lowercase) !! i = Some code /\
       forall j, (i < j < 27)%nat -> names e !! j <> Some name) /\
  (dict_get (char_map e) name = None <-> name ∉ take 27 (names e)) /\
  (length (char_map e) <= 27)%nat.
Proof.
  split; [|split].
  - intros code. apply char_map_last.
  - assert (Hget : dict_get (char_map e) name
                   = dict_get (rev (zip (names e)
                                        (chars_of ("_" ++ ascii_lowercase))))
                              name).
    { unfold char_map, dict_of. rewrite dict_get_fold_set.
      now destruct (dict_get (rev _) name). }
    rewrite Hget, dict_get_rev_None. now rewrite zip_keys.
  - assert (Hnd : NoDup (dict_keys (char_map e)))
      by (apply fold_dict_set_NoDup; constructor).
    assert (Hsub : forall k, k ∈ dict_keys (char_map e) -> k ∈ take 27 (names e)).
    { intros k Hk. destruct (decide (k ∈ take 27 (names e))) as [|Hnot]; [assumption|].
      exfalso. apply char_map_missing in Hnot.
      apply dict_get_None in Hnot. contradiction. }
    assert (Hlen : (length (dict_keys (char_map e)) <= length (take 27 (names e)))%nat).
    { apply submseteq_length, NoDup_submseteq; assumption. }
    unfold dict_keys in Hlen. rewrite length_map, length_take in Hlen. lia.
Qed.

Lemma char_map_last_occurrence_witness :
  dict_get (char_map (crowded_exporter ["A"; "B"; "A"] [])) "A" = Some "b".
Proof.
  apply (char_map_last_occurrence (crowded_exporter ["A"; "B"; "A"] []) "A").
  exists 2%nat. split; [reflexivity|]. split; [reflexivity|].
  intros j Hj. destruct j as [|[|[|j]]]; [lia.. | discriminate].
Defined.

Lemma mapM_result_Forall2 {A B : Type} (f : A -> result B) (l : list A)
    (ys : list B) :
  mapM_result f l = Ok ys -> Forall2 (fun x y => f x = Ok y) l ys.
Proof.
  revert ys. induction l as [|x l IH]; intros ys; cbn [mapM_result].
  - intros [= <-]. constructor.
  - intros H. apply bind_ok_inv in H as (y & Hy & H).
    apply bind_ok_inv in H as (ys' & Hys & [= <-]).
    constructor; [exact Hy | now apply IH].
Qed.

Lemma zip_map_r {A B C : Type} (g : B -> C) (l : list A) (k : list B) :
  zip l (map g k) = map (fun ab => (ab.1, g ab.2)) (zip l k).
Proof.
  revert k. induction l as [|a l IH]; intros [|b k]; try reflexivity.
  cbn [map zip zip_with fst snd]. f_equal. apply IH.
Qed.

Lemma zip_map_zip {A B C E : Type} (h : A * B -> C) (g : B -> E)
    (l : list A) (k : list B) :
  zip (map h (zip l k)) (map g k) = map (fun ab => (h ab, g ab.2)) (zip l k).
Proof.
  revert k. induction l as [|a l IH]; intros [|b k]; try reflexivity.
  cbn [map zip zip_with fst snd]. f_equal. apply IH.
Qed.

(** The rows of [get_chars] for an exporter made from a save: the names
    paired with the database entries, position by position. *)
Lemma player_rows_local (sd : SaveData) (first_cards : dict string Z) :
  player_rows (local_attributes sd first_cards) =
  map (fun row : string * (string * Player) =>
         let p := row.2.2 in
         (row.1, CharacterClass p, StatList (PersonalValuesMap p),
          StarSign (PersonalValuesMap p), Lv0 p, InvBagsUsed p, MaxCarryCap p))
      (zip (GetPlayersUsernames sd) (PlayerDATABASE sd)).
Proof.
  unfold player_rows, local_attributes, all_players.
  cbn [names classes stats starsigns_equipped skill_levels bags_used carrycaps].
  rewrite (zip_map_r (fun entry : string * Player => CharacterClass entry.2)
                     (GetPlayersUsernames sd)).
  now rewrite !zip_map_zip.
Qed.

(** X14: the player records follow the positions of the save: the record
    at position [i] bears the [i]-th user name and is built from the
    [i]-th entry of the player database (its class and the fifth entry of
    its stat list), and there are as many records as the shorter of the
    two has entries: surplus names or surplus database entries are dropped
    without an error. *)
Theorem chars_follow_players (D : RefData) (sd : SaveData) (e : Exporter)
    (chars : list Char) :
  LocalExporter sd = Ok e ->
  get_chars D e = Ok chars ->
  length chars
  = Nat.min (length (GetPlayersUsernames sd)) (length (PlayerDATABASE sd)) /\
  map char_name chars
  = take (length (PlayerDATABASE sd)) (GetPlayersUsernames sd) /\
  (forall i c,
     chars !! i = Some c ->
     exists key p,
       PlayerDATABASE sd !! i = Some (key, p) /\
       GetPlayersUsernames sd !! i = Some (char_name c) /\
       get_classname D (CharacterClass p) = Ok (char_class c) /\
       StatList (PersonalValuesMap p) !! 4%nat = Some (char_level c)).
Proof.
  intros He Hchars. unfold LocalExporter in He.
  apply bind_ok_inv in He as (first_cards & _ & [= <-]).
  unfold get_chars in Hchars. rewrite player_rows_local in Hchars.
  apply mapM_result_Forall2 in Hchars.
  apply Forall2_fmap_l in Hchars.
  assert (Hrow : forall (row : string * (string * Player)) c,
             build_char_row D (local_attributes sd first_cards)
               (row.1, CharacterClass row.2.2,
                StatList (PersonalValuesMap row.2.2),
                StarSign (PersonalValuesMap row.2.2), Lv0 row.2.2,
                InvBagsUsed row.2.2, MaxCarryCap row.2.2) = Ok c ->
             char_name c = row.1 /\
             get_classname D (CharacterClass row.2.2) = Ok (char_class c) /\
             StatList (PersonalValuesMap row.2.2) !! 4%nat = Some (char_level c)).
  { intros row c H. unfold build_char_row in H.
    apply build_char_inv in H
      as (class & lvl & consts & signs & pouches & Hclass & Hlvl & _ & _ & _ & ->).
    cbn [char_name char_class char_level]. split; [reflexivity|].
    split; [exact Hclass|]. unfold py_index in Hlvl.
    destruct (StatList _ !! 4%nat); [congruence | discriminate]. }
  split; [|split].
  - apply Forall2_length in Hchars. rewrite <- Hchars. apply length_zip_with.
  - assert (Hnames : map char_name chars
                     = (zip (GetPlayersUsernames sd) (PlayerDATABASE sd)).*1).
    { induction Hchars as [|row c rows cs Hrc _ IH]; [reflexivity|].
      cbn [map fmap list_fmap]. f_equal; [|exact IH].
      now apply Hrow in Hrc as [-> _]. }
    rewrite Hnames. rewrite <- (zip_with_take_l pair). apply fst_zip.
    rewrite length_take. lia.
  - intros i c Hi.
    destruct (Forall2_lookup_r _ _ _ _ _ Hchars Hi) as ([nm [key p]] & Hzip & Hrc).
    apply lookup_zip_Some in Hzip as [Hnm Hp].
    apply Hrow in Hrc as (Hname & Hclass & Hlvl). cbn [fst snd] in *.
    exists key, p. rewrite Hname. auto.
Qed.

Lemma chars_follow_players_witness :
  exists chars,
    get_chars sample_data sample_exporter = Ok chars /\
    map char_name chars = ["Alice"].
Proof.
  destruct (get_chars sample_data sample_exporter) as [chars|err] eqn:Hchars;
    [|vm_compute in Hchars; discriminate Hchars].
  exists chars. split; [reflexivity|].
  apply (chars_follow_players sample_data one_player_save sample_exporter chars);
    [reflexivity | exact Hchars].
Defined.

(* ===================================================================== *)
(** ** Further properties: the companion document *)
(* ===================================================================== *)

(** X15: every stamp of the ["stamps"] section has a level above 0 that
    the save holds for it, and is ticked in the checklist; and every stamp
    the save holds at a level above 0 is a key of the section. *)
Theorem stamps_in_checklist (D : RefData) (e : Exporter) (doc : Companion) :
  to_idleon_companion D e = Ok doc ->
  (forall name level,
     dict_get (ic_stamps doc) name = Some level ->
     0 < level /\ (name, level) ∈ get_stamps D e /\
     dict_get (ic_checklist doc) name = Some true) /\
  (forall name level,
     (name, level) ∈ get_stamps D e -> 0 < level ->
     is_Some (dict_get (ic_stamps doc) name)).
Proof.
  intros Hdoc. unfold to_idleon_companion in Hdoc.
  apply bind_ok_inv in Hdoc as (alchemy & _ & Hdoc).
  apply bind_ok_inv in Hdoc as (signs & _ & Hdoc).
  apply bind_ok_inv in Hdoc as (tiers & _ & Hdoc).
  apply bind_ok_inv in Hdoc as (statues & _ & Hdoc).
  apply bind_ok_inv in Hdoc as (checklist & Hcheck & Hdoc).
  apply bind_ok_inv in Hdoc as (chars & _ & [= <-]).
  cbn [ic_stamps ic_checklist].
  assert (Hpos : forall name level,
             (name, level) ∈ positive_stamps D e <->
             (name, level) ∈ get_stamps D e /\ 0 < level).
  { intros name level. unfold positive_stamps.
    rewrite elem_of_List_filter, Z.ltb_lt. tauto. }
  split.
  - intros name level Hget. apply dict_of_lookup_elem in Hget.
    pose proof (proj1 (Hpos name level) Hget) as [Hin Hlevel].
    split; [exact Hlevel|]. split; [exact Hin|].
    unfold get_checklist in Hcheck.
    apply bind_ok_inv in Hcheck as (first_bags & _ & [= <-]).
    rewrite dict_get_union.
    set (ticks := map (fun '(name, _) => (name, true)) (positive_stamps D e)).
    assert (Htick : (name, true) ∈ ticks).
    { apply list_elem_of_In, in_map_iff. exists (name, level).
      split; [reflexivity | now apply list_elem_of_In]. }
    assert (Htrue : forall k v, (k, v) ∈ ticks -> v = true).
    { intros k v Hkv. apply list_elem_of_In, in_map_iff in Hkv
        as ([k' l'] & [= _ <-] & _). reflexivity. }
    rewrite dict_get_rev_NoDup by (apply fold_dict_set_NoDup; constructor).
    destruct (dict_of_lookup_key _ _ _ Htick) as (v & -> & Hv).
    now rewrite (Htrue _ _ Hv).
  - intros name level Hin Hlevel.
    assert (Hkept : (name, level) ∈ positive_stamps D e) by now apply Hpos.
    destruct (dict_of_lookup_key _ _ _ Hkept) as (v & -> & _). eauto.
Qed.

Lemma stamps_in_checklist_witness :
  exists doc,
    to_idleon_companion sample_data sample_exporter = Ok doc /\
    dict_get (ic_stamps doc) "Pickaxe Stamp" = Some 2 /\
    dict_get (ic_checklist doc) "Pickaxe Stamp" = Some true.
Proof.
  destruct (to_idleon_companion sample_data sample_exporter)
    as [doc|err] eqn:Hdoc; [|vm_compute in Hdoc; discriminate Hdoc].
  destruct (stamps_in_checklist sample_data sample_exporter doc Hdoc)
    as [Hticked _].
  assert (Hstamp : dict_get (ic_stamps doc) "Pickaxe Stamp" = Some 2)
    by (vm_compute in Hdoc; injection Hdoc as <-; reflexivity).
  exists doc. split; [reflexivity|]. split; [exact Hstamp|].
  now apply (Hticked "Pickaxe Stamp" 2).
Defined.

Lemma to_upper_facts (c : ascii) :
  to_upper (to_upper c) = to_upper c /\
  is_cased (to_upper c) = is_cased c /\
  (c <> "_"%char -> to_upper c <> "_"%char).
Proof.
  destruct c as [[] [] [] [] [] [] [] []];
    (split; [reflexivity | split; [reflexivity|]]);
    vm_compute; congruence.
Qed.

Lemma to_lower_facts (c : ascii) :
  to_lower (to_lower c) = to_lower c /\
  is_cased (to_lower c) = is_cased c /\
  (c <> "_"%char -> to_lower c <> "_"%char).
Proof.
  destruct c as [[] [] [] [] [] [] [] []];
    (split; [reflexivity | split; [reflexivity|]]);
    vm_compute; congruence.
Qed.

Lemma title_from_facts (s : string) :
  forall cased,
    title_from cased (title_from cased s) = title_from cased s /\
    String.length (title_from cased s) = String.length s /\
    (~ In "_"%char (list_ascii_of_string s) ->
     ~ In "_"%char (list_ascii_of_string (title_from cased s))).
Proof.
  induction s as [|c s IH]; intros cased; [now repeat split|].
  destruct (to_upper_facts c) as (Hup & Hupc & Hupn).
  destruct (to_lower_facts c) as (Hlo & Hloc & Hlon).
  cbn [title_from String.length list_ascii_of_string].
  assert (Hcased : is_cased (if cased then to_lower c else to_upper c)
                   = is_cased c) by now destruct cased.
  destruct (IH (is_cased c)) as (Hidem & Hlen & Hnone).
  split; [|split].
  - rewrite Hcased, Hidem. f_equal. now destruct cased.
  - now rewrite Hlen.
  - intros Hs [Hc|Hin].
    + destruct cased; [apply (Hlon ltac:(intros ->; apply Hs; now left)); congruence
                      | apply (Hupn ltac:(intros ->; apply Hs; now left)); congruence].
    + apply Hnone; [|exact Hin]. intros H. apply Hs. now right.
Qed.

Lemma replace_char_facts (s : string) :
  String.length (replace_char "_" " " s) = String.length s /\
  ~ In "_"%char (list_ascii_of_string (replace_char "_" " " s)) /\
  (~ In "_"%char (list_ascii_of_string s) -> replace_char "_" " " s = s).
Proof.
  induction s as [|c s (Hlen & Hnone & Hid)]; [now repeat split|].
  cbn [replace_char String.length list_ascii_of_string].
  split; [now rewrite Hlen|]. split.
  - intros [Hc|Hin]; [|now apply Hnone].
    destruct (Ascii.eqb_spec c "_"); [discriminate | congruence].
  - intros Hs. destruct (Ascii.eqb_spec c "_") as [->|_].
    + exfalso. apply Hs. now left.
    + f_equal. apply Hid. intros H. apply Hs. now right.
Qed.

(** X16: on a name of ASCII characters [friendly_name] keeps the length,
    leaves no underscore, and changes nothing when it is applied a second
    time. *)
Theorem friendly_name_shape (s : string) :
  Forall (fun c => (nat_of_ascii c < 128)%nat) (list_ascii_of_string s) ->
  String.length (friendly_name s) = String.length s /\
  ~ In "_"%char (list_ascii_of_string (friendly_name s)) /\
  friendly_name (friendly_name s) = friendly_name s.
Proof.
  intros _. unfold friendly_name, title.
  destruct (replace_char_facts s) as (Hlen & Hnone & _).
  destruct (title_from_facts (replace_char "_" " " s) false)
    as (Hidem & Hlen' & Hnone').
  split; [congruence|]. split; [now apply Hnone'|].
  destruct (replace_char_facts (title_from false (replace_char "_" " " s)))
    as (_ & _ & Hid).
  rewrite Hid by now apply Hnone'. exact Hidem.
Qed.

Lemma friendly_name_shape_witness :
  friendly_name "oak_LOGS" = "Oak Logs" /\
  friendly_name (friendly_name "oak_LOGS") = friendly_name "oak_LOGS".
Proof.
  split; [reflexivity|].
  refine (proj2 (proj2 (friendly_name_shape "oak_LOGS" _))).
  repeat constructor.
Defined.

Lemma foldM_invariant {A B : Type} (Inv : B -> Prop) (f : B -> A -> result B)
    (l : list A) :
  forall acc out,
    Inv acc ->
    (forall acc x acc', x ∈ l -> Inv acc -> f acc x = Ok acc' -> Inv acc') ->
    foldM f l acc = Ok out -> Inv out.
Proof.
  induction l as [|x l IH]; intros acc out Hacc Hstep; cbn [foldM].
  - now intros [= <-].
  - intros H. apply bind_ok_inv in H as (acc' & Hx & H).
    apply (IH acc' out); [|intros a y a' Hy; apply Hstep; now right|exact H].
    apply (Hstep acc x acc'); [left | exact Hacc | exact Hx].
Qed.

(** X17: when the alchemy section builds, the cauldron has at least five
    entries, the four upgrade tracks hold its first four entries in order,
    and every vial of the section has a level above 0, which is the level
    the fifth entry holds at the position of a vial of that display name. *)
Theorem alchemy_section (D : RefData) (e : Exporter) (a : Alchemy) :
  get_alchemy D e = Ok a ->
  (5 <= length (cauldron e))%nat /\
  upgrades a = zip ["Orange"; "Green"; "Purple"; "Yellow"] (take 4 (cauldron e)) /\
  dict_keys (upgrades a) = ["Orange"; "Green"; "Purple"; "Yellow"] /\
  forall name level,
    dict_get (vials a) name = Some level ->
    py_gt0 level = Ok true /\
    exists levels i raw,
      cauldron e !! 4%nat = Some levels /\
      vial_names D !! i = Some raw /\ levels !! i = Some level /\
      friendly_name raw = name.
Proof.
  unfold get_alchemy. intros H.
  apply bind_ok_inv in H as (levels & Hlevels & H).
  apply bind_ok_inv in H as (vs & Hvs & [= <-]).
  cbn [upgrades vials]. unfold py_index in Hlevels.
  destruct (cauldron e) as [|c0 [|c1 [|c2 [|c3 [|c4 rest]]]]];
    try discriminate Hlevels.
  cbn in Hlevels. injection Hlevels as ->.
  split; [cbn [length]; lia|]. split; [reflexivity|]. split; [reflexivity|].
  refine (foldM_invariant
            (fun vs => forall name level,
               dict_get vs name = Some level ->
               py_gt0 level = Ok true /\
               exists levels' i raw,
                 (c0 :: c1 :: c2 :: c3 :: levels :: rest) !! 4%nat = Some levels' /\
                 vial_names D !! i = Some raw /\ levels' !! i = Some level /\
                 friendly_name raw = name)
            _ _ [] vs _ _ Hvs).
  - intros name level Hget. discriminate Hget.
  - intros acc [raw lvl] acc' Hin Hacc Hstep name level.
    destruct (py_gt0 lvl) as [[|]|err] eqn:Hpos; cbn [bind] in Hstep;
      try discriminate Hstep; injection Hstep as <-; [|apply Hacc].
    rewrite dict_get_set. destruct (decide (friendly_name raw = name)) as [Hname|_];
      [|apply Hacc].
    intros [= <-]. split; [exact Hpos|].
    apply list_elem_of_lookup in Hin as [i Hi].
    apply lookup_zip_Some in Hi as [Hraw Hlvl].
    exists levels, i, raw. now repeat split.
Qed.

Lemma alchemy_section_witness :
  exists a,
    get_alchemy sample_data sample_exporter = Ok a /\
    dict_keys (upgrades a) = ["Orange"; "Green"; "Purple"; "Yellow"] /\
    dict_get (vials a) "Copper" = Some (JInt 3).
Proof.
  destruct (get_alchemy sample_data sample_exporter) as [a|err] eqn:Ha;
    [|vm_compute in Ha; discriminate Ha].
  destruct (alchemy_section sample_data sample_exporter a Ha)
    as (_ & _ & Hkeys & _).
  exists a. split; [reflexivity|]. split; [exact Hkeys|].
  vm_compute in Ha. injection Ha as <-. reflexivity.
Defined.

Lemma constellations_loop (D : RefData) (codes : dict string string)
    (charname : string) (l1 l2 : list (option string * Z)) :
  map fst l1 = map fst l2 ->
  forall j acc,
    foldM (fun done '(i, (chars, completed)) =>
             let* code := dict_item codes charname in
             if str_contains (default "" chars) code then
               let* name := subscript LookupError (constellation_names D) i in
               Ok (dict_set done name true)
             else Ok done)
          (zip (seq j (length l1)) l1) acc
    = foldM (fun done '(i, (chars, completed)) =>
               let* code := dict_item codes charname in
               if str_contains (default "" chars) code then
                 let* name := subscript LookupError (constellation_names D) i in
                 Ok (dict_set done name true)
               else Ok done)
            (zip (seq j (length l2)) l2) acc.
Proof.
  revert l2. induction l1 as [|[chars1 flag1] l1 IH];
    intros [|[chars2 flag2] l2] Hfst j acc; try discriminate Hfst;
    [reflexivity|].
  cbn in Hfst. injection Hfst as <- Hfst.
  cbn [length seq zip zip_with foldM].
  destruct (dict_item codes charname) as [code|err]; [|reflexivity].
  cbn [bind]. destruct (str_contains (default "" chars1) code).
  - destruct (subscript LookupError (constellation_names D) j) as [name|err];
      [|reflexivity].
    cbn [bind]. now apply IH.
  - now apply IH.
Qed.

(** X18: the constellations of a player depend on the player names and on
    the completion strings alone: the number stored beside each string is
    never consulted, so two saves that differ in these numbers only give
    the same constellations, and the same error when there is one. *)
Theorem constellations_ignore_flags (D : RefData) (e1 e2 : Exporter)
    (charname : string) :
  names e1 = names e2 ->
  map fst (starsigns_prog e1) = map fst (starsigns_prog e2) ->
  get_player_constellations D e1 charname
  = get_player_constellations D e2 charname.
Proof.
  intros Hnames Hprog. unfold get_player_constellations, enumerate, char_map.
  rewrite Hnames. now apply constellations_loop.
Qed.

Lemma constellations_ignore_flags_witness :
  get_player_constellations sample_data
    (crowded_exporter ["Alice"] [(Some "_a", 1); (None, 0)]) "Alice"
  = get_player_constellations sample_data
      (crowded_exporter ["Alice"] [(Some "_a", 0); (None, 7)]) "Alice" /\
  get_player_constellations sample_data
    (crowded_exporter ["Alice"] [(Some "_a", 0); (None, 7)]) "Alice"
  = Ok [("A-1", true)].
Proof.
  split; [|reflexivity].
  apply constellations_ignore_flags; reflexivity.
Defined.

Lemma foldM_first_error {A B : Type} (f : B -> A -> result B) (err : exn)
    (l : list A) :
  forall acc x,
    x ∈ l ->
    (forall acc', f acc' x = Err err) ->
    (forall acc' y err', f acc' y = Err err' -> err' = err) ->
    foldM f l acc = Err err.
Proof.
  induction l as [|y l IH]; intros acc x Hx Hfail Honly; cbn [foldM].
  - now apply elem_of_nil in Hx.
  - destruct (f acc y) as [acc'|err'] eqn:Hy; cbn [bind].
    + apply elem_of_cons in Hx as [->|Hx]; [now rewrite Hfail in Hy|].
      now apply (IH acc' x).
    + now rewrite (Honly _ _ _ Hy).
Qed.

(** X19: the star sign section holds the signs of the save, not those of
    the id table.  When it builds, every sign of the save has an id, which
    is a key of the section, and every key is the id of a sign of the save
    whose flag is true exactly when the stored number is not 0; a sign of
    the save without an id makes the section fail with a lookup error. *)
Theorem starsigns_of_the_save (D : RefData) (e : Exporter) :
  (forall signs,
     get_starsigns D e = Ok signs ->
     (forall name unlocked,
        (name, unlocked) ∈ starsigns_unlocked e ->
        exists id, starsign_ids D name = Some id /\
                   is_Some (dict_get signs id)) /\
     (forall id flag,
        dict_get signs id = Some flag ->
        exists name unlocked,
          (name, unlocked) ∈ starsigns_unlocked e /\
          starsign_ids D name = Some id /\
          flag = negb (unlocked =? 0))) /\
  (forall name unlocked,
     (name, unlocked) ∈ starsigns_unlocked e ->
     starsign_ids D name = None ->
     get_starsigns D e = Err LookupError).
Proof.
  split.
  - intros signs Hsigns. unfold get_starsigns in Hsigns.
    pose proof (foldM_dict_inv
                  (fun signs '(name, unlocked) =>
                     let* id := subscript LookupError (starsign_ids D) name in
                     Ok (dict_set signs id (negb (unlocked =? 0))))
                  (fun _ => true)
                  (fun '(name, unlocked) =>
                     let* id := subscript LookupError (starsign_ids D) name in
                     Ok (id, negb (unlocked =? 0)))) as Hinv.
    cbv beta in Hinv.
    destruct (Hinv ltac:(intros acc [n u]; now destruct (subscript _ _ n))
                   _ _ _ Hsigns) as (pairs & Hpairs & ->).
    clear Hinv Hsigns.
    assert (Hfilter : List.filter (fun _ => true) (starsigns_unlocked e)
                      = starsigns_unlocked e).
    { generalize (starsigns_unlocked e). intros l.
      induction l as [|x l IH]; cbn; [reflexivity | now rewrite IH]. }
    rewrite Hfilter in Hpairs. split.
    + intros name unlocked Hin.
      destruct (Forall2_elem_of_l _ _ _ _ Hpairs Hin) as ([id flag] & Hkv & Hg).
      unfold subscript in Hg.
      destruct (starsign_ids D name) as [id'|]; cbn [bind] in Hg;
        [|discriminate Hg].
      injection Hg as -> _. exists id. split; [reflexivity|].
      destruct (dict_of_lookup_key _ _ _ Hkv) as (v & Hv & _).
      unfold dict_of in Hv. rewrite Hv. eauto.
    + intros id flag Hget.
      apply (dict_of_lookup_elem pairs) in Hget.
      destruct (Forall2_elem_of_r _ _ _ _ Hpairs Hget)
        as ([name unlocked] & Hin & Hg).
      unfold subscript in Hg.
      destruct (starsign_ids D name) as [id'|] eqn:Hid; cbn [bind] in Hg;
        [|discriminate Hg].
      injection Hg as <- <-. exists name, unlocked. now repeat split.
  - intros name unlocked Hin Hnone. unfold get_starsigns.
    apply (foldM_first_error _ _ _ _ (name, unlocked) Hin).
    + intros acc. unfold subscript. now rewrite Hnone.
    + intros acc [n u] err. unfold subscript.
      destruct (starsign_ids D n); cbn [bind]; congruence.
Qed.

Lemma starsigns_of_the_save_witness :
  get_starsigns sample_data sample_exporter = Ok [("1", true); ("2", false)] /\
  exists name unlocked,
    (name, unlocked) ∈ starsigns_unlocked sample_exporter /\
    starsign_ids sample_data name = Some "2" /\
    false = negb (unlocked =? 0).
Proof.
  split; [reflexivity|].
  destruct (starsigns_of_the_save sample_data sample_exporter) as [Hbuilt _].
  destruct (Hbuilt [("1", true); ("2", false)] eq_refl) as [_ Hkeys].
  apply (Hkeys "2" false). reflexivity.
Defined.







(** X22: the stamps are paired with their levels by position: a pair of a
    stamp and a level is among the stamps exactly when the stamp stands, in
    some category of the stamp table, at the position at which the level
    stands in the level list of the same rank.  A stamp without a level, a
    level without a stamp and a category without a level list are passed
    over without an error. *)
Theorem stamps_by_position (D : RefData) (e : Exporter) (name : string)
    (level : Z) :
  (name, level) ∈ get_stamps D e <->
  exists c i stamps levels,
    stamp_list D !! c = Some stamps /\ stamp_levels e !! c = Some levels /\
    stamps !! i = Some name /\ levels !! i = Some level.
Proof.
  unfold get_stamps. rewrite list_elem_of_In, in_flat_map. split.
  - intros ([stamps levels] & Hcat & Hin).
    apply list_elem_of_In, list_elem_of_lookup in Hcat as [c Hc].
    apply lookup_zip_Some in Hc as [Hstamps Hlevels].
    apply list_elem_of_In, list_elem_of_lookup in Hin as [i Hi].
    apply lookup_zip_Some in Hi as [Hname Hlevel].
    now exists c, i, stamps, levels.
  - intros (c & i & stamps & levels & Hstamps & Hlevels & Hname & Hlevel).
    exists (stamps, levels). split.
    + apply list_elem_of_In, list_elem_of_lookup. exists c.
      now apply lookup_zip_Some.
    + apply list_elem_of_In, list_elem_of_lookup. exists i.
      now apply lookup_zip_Some.
Qed.

Lemma stamps_by_position_witness :
  ("Pickaxe Stamp", 2) ∈ get_stamps sample_data sample_exporter.
Proof.
  apply stamps_by_position.
  exists 1%nat, 0%nat, ["Pickaxe Stamp"], [2]. now repeat split.
Defined.

(** X23: when the equipped star signs of a player build, every code between
    the commas of the stripped string is a number that the name table and
    then the id table resolve to an id, which the result maps to true; and
    the result has no other key. *)
Theorem equipped_starsigns_resolved (D : RefData) (s : string)
    (signs : dict string bool) :
  parse_player_starsigns D s = Ok signs ->
  (forall k,
     k ∈ split_char "," (strip ",_" s) ->
     exists i name id,
       py_int k = Ok i /\ starsign_names D i = Some name /\
       starsign_ids D name = Some id /\ dict_get signs id = Some true) /\
  (forall id flag,
     dict_get signs id = Some flag ->
     flag = true /\
     exists k i name,
       k ∈ split_char "," (strip ",_" s) /\
       py_int k = Ok i /\ starsign_names D i = Some name /\
       starsign_ids D name = Some id).
Proof.
  intros Hsigns. unfold parse_player_starsigns in Hsigns.
  pose proof (foldM_dict_inv
                (fun signs k =>
                   let* i := py_int k in
                   let* sign := get_starsign_from_index D i in
                   Ok (dict_set signs sign true))
                (fun _ => true)
                (fun k =>
                   let* i := py_int k in
                   let* sign := get_starsign_from_index D i in
                   Ok (sign, true))) as Hinv.
  cbv beta in Hinv.
  destruct (Hinv ltac:(intros acc k; destruct (py_int k) as [i|]; [|reflexivity];
                       cbn [bind]; now destruct (get_starsign_from_index D i))
                 _ _ _ Hsigns) as (pairs & Hpairs & ->).
  clear Hinv Hsigns.
  assert (Hfilter : forall l : list string, List.filter (fun _ => true) l = l).
  { intros l. induction l as [|x l IH]; cbn; [reflexivity | now rewrite IH]. }
  rewrite Hfilter in Hpairs.
  assert (Hcode : forall k id flag,
             (let* i := py_int k in
              let* sign := get_starsign_from_index D i in
              Ok (sign, true)) = Ok (id, flag) ->
             flag = true /\
             exists i name,
               py_int k = Ok i /\ starsign_names D i = Some name /\
               starsign_ids D name = Some id).
  { intros k id flag H.
    apply bind_ok_inv in H as (i & Hi & H).
    apply bind_ok_inv in H as (sign & Hsign & [= <- <-]).
    split; [reflexivity|]. unfold get_starsign_from_index, subscript in Hsign.
    destruct (starsign_names D i) as [name|] eqn:Hname; cbn [bind] in Hsign;
      [|discriminate Hsign].
    destruct (starsign_ids D name) as [id|] eqn:Hid; [|discriminate Hsign].
    injection Hsign as <-. now exists i, name. }
  split.
  - intros k Hk.
    destruct (Forall2_elem_of_l _ _ _ _ Hpairs Hk) as ([id flag] & Hkv & Hg).
    destruct (Hcode _ _ _ Hg) as (-> & i & name & Hi & Hname & Hid).
    exists i, name, id. repeat split; try assumption.
    destruct (dict_of_lookup_key _ _ _ Hkv) as (v & Hv & Hin).
    unfold dict_of in Hv. rewrite Hv.
    destruct (Forall2_elem_of_r _ _ _ _ Hpairs Hin) as (k' & _ & Hg').
    now destruct (Hcode _ _ _ Hg') as (-> & _).
  - intros id flag Hget.
    apply (dict_of_lookup_elem pairs) in Hget.
    destruct (Forall2_elem_of_r _ _ _ _ Hpairs Hget) as (k & Hk & Hg).
    destruct (Hcode _ _ _ Hg) as (-> & i & name & Hi & Hname & Hid).
    split; [reflexivity|]. now exists k, i, name.
Qed.

Lemma equipped_starsigns_resolved_witness :
  parse_player_starsigns sample_data "0,1,_" = Ok [("1", true); ("2", true)] /\
  exists i name id,
    py_int "1" = Ok i /\ starsign_names sample_data i = Some name /\
    starsign_ids sample_data name = Some id /\
    dict_get [("1", true); ("2", true)] id = Some true.
Proof.
  split; [reflexivity|].
  destruct (equipped_starsigns_resolved sample_data "0,1,_"
              [("1", true); ("2", true)] eq_refl) as [Hcodes _].
  apply (Hcodes "1"). refine (bool_decide_unpack _ _). vm_compute. exact I.
Defined.

(** X24: [get_pouches] looks a category up only when its stack size is above
    10.  It succeeds as soon as every such category has a display name and
    a size qualifier, whatever the categories of smaller size are; and one
    such category without them makes it fail with a lookup error. *)
Theorem pouches_lookup_error (D : RefData) (carrycaps : dict string Z) :
  ((forall itemtype stacksize,
      (itemtype, stacksize) ∈ carrycaps -> 10 < stacksize ->
      is_ok (pouch_key D itemtype stacksize) = true) ->
   is_ok (get_pouches D carrycaps) = true) /\
  (forall itemtype stacksize,
     (itemtype, stacksize) ∈ carrycaps -> 10 < stacksize ->
     is_ok (pouch_key D itemtype stacksize) = false ->
     get_pouches D carrycaps = Err LookupError).
Proof.
  assert (Honly : forall itemtype stacksize err,
             pouch_key D itemtype stacksize = Err err -> err = LookupError).
  { intros itemtype stacksize err Hkey. unfold pouch_key in Hkey.
    destruct (get_pouchsize D itemtype stacksize) as [size|err'] eqn:Hsize;
      cbn [bind] in Hkey.
    - unfold subscript in Hkey.
      destruct (pouch_names D itemtype); cbn [bind] in Hkey; congruence.
    - injection Hkey as <-. unfold get_pouchsize, subscript in Hsize.
      destruct ((stacksize =? 25) && String.eqb itemtype "bCraft");
        [discriminate Hsize|].
      destruct ((stacksize =? 25) && String.eqb itemtype "Foods");
        [discriminate Hsize|].
      destruct (pouch_sizes D stacksize); congruence. }
  split.
  - intros Hall. unfold get_pouches.
    destruct (foldM_dict_total
                (fun pouches '(itemtype, stacksize) =>
                   if 10 <? stacksize then
                     let* key := pouch_key D itemtype stacksize in
                     Ok (dict_set pouches key true)
                   else Ok pouches)
                (fun '(_, stacksize) => 10 <? stacksize)
                (fun '(itemtype, stacksize) =>
                   let* key := pouch_key D itemtype stacksize in Ok (key, true))
                ltac:(intros acc [t n]; destruct (10 <? n); [|reflexivity];
                      now destruct (pouch_key D t n))
                carrycaps [])
      as (out & ->); [|reflexivity].
    intros [t n] Hin Hkeep. apply Z.ltb_lt in Hkeep.
    specialize (Hall t n Hin Hkeep).
    now destruct (pouch_key D t n).
  - intros itemtype stacksize Hin Hsize Hfail. unfold get_pouches.
    apply (foldM_first_error _ _ _ _ (itemtype, stacksize) Hin).
    + intros acc. apply Z.ltb_lt in Hsize. rewrite Hsize.
      destruct (pouch_key D itemtype stacksize) as [key|err] eqn:Hkey;
        [discriminate Hfail|].
      now rewrite (Honly _ _ _ Hkey).
    + intros acc [t n] err. destruct (10 <? n); [|discriminate].
      destruct (pouch_key D t n) as [key|err'] eqn:Hkey; [discriminate|].
      cbn [bind]. intros [= <-]. now apply (Honly t n).
Qed.

Lemma pouches_lookup_error_witness :
  is_ok (get_pouches sample_data [("Mining", 50); ("Fishing", 10)]) = true /\
  get_pouches sample_data [("Mining", 50); ("Fishing", 25)] = Err LookupError.
Proof.
  destruct (pouches_lookup_error sample_data [("Mining", 50); ("Fishing", 10)])
    as [Hbuilt _].
  destruct (pouches_lookup_error sample_data [("Mining", 50); ("Fishing", 25)])
    as [_ Hfails].
  split.
  - apply Hbuilt. intros itemtype stacksize Hin Hsize.
    rewrite !elem_of_cons in Hin.
    destruct Hin as [[= -> ->]|[[= -> ->]|Hin]];
      [reflexivity | lia | now apply elem_of_nil in Hin].
  - apply (Hfails "Fishing" 25);
      [right; left | lia | reflexivity].
Defined.

(** X25: a run writes to the files of its format and to no other.  The
    export to the companion format leaves every file but
    [idleon_companion.json] as it was, the export to the cogstruction format
    every file but [cog_datas.csv] and [empties_datas.csv], and a run whose
    format is neither leaves the whole directory as it was. *)
Theorem export_own_files (D : RefData) (W : Writers) (sd : SaveData)
    (workdir : workdir_state) (file : string) :
  (file <> "idleon_companion.json" ->
   (main D W sd (Some IC) workdir).1 !! file = workdir !! file) /\
  (file <> "cog_datas.csv" -> file <> "empties_datas.csv" ->
   (main D W sd (Some COG) workdir).1 !! file = workdir !! file) /\
  (main D W sd None workdir).1 = workdir.
Proof.
  unfold main. destruct (LocalExporter sd) as [e|err];
    [|now repeat split].
  cbn [export]. split; [|split; [|reflexivity]].
  - intros Hfile. unfold save_idleon_companion.
    destruct (to_idleon_companion D e) as [doc|err]; cbn [fst];
      now rewrite !lookup_insert_ne.
  - intros Hcogs Hempties. unfold save_cogstruction.
    destruct (to_cogstruction D e) as [data|err]; [|reflexivity].
    unfold write_table.
    change ("cog_datas" ++ ".csv") with "cog_datas.csv".
    change ("empties_datas" ++ ".csv") with "empties_datas.csv".
    destruct (cog_datas data) as [|row rows]; cbn [fst];
      [now rewrite !lookup_insert_ne|].
    destruct (empties_datas data) as [|empty empties]; cbn [fst];
      now rewrite !lookup_insert_ne.
Qed.

Lemma export_own_files_witness :
  (main sample_data sample_writers one_player_save (Some IC)
        {["cog_datas.csv" := "kept"]}).1 !! "cog_datas.csv" = Some "kept" /\
  (main sample_data sample_writers one_player_save (Some COG)
        {["idleon_companion.json" := "kept"]}).1 !! "idleon_companion.json"
  = Some "kept".
Proof.
  destruct (export_own_files sample_data sample_writers one_player_save
              {["cog_datas.csv" := "kept"]} "cog_datas.csv") as (Hic & _ & _).
  destruct (export_own_files sample_data sample_writers one_player_save
              {["idleon_companion.json" := "kept"]} "idleon_companion.json")
    as (_ & Hcog & _).
  split.
  - rewrite Hic by discriminate. apply lookup_singleton_eq.
  - rewrite Hcog by discriminate. apply lookup_singleton_eq.
Defined.
